(** * SBF-Api: the inventory transaction service

    A shallow embedding of [app/modules/transactions/services.py]
    ([TransactionService]) together with the part of the data model it reads
    and writes, and the properties of the normalizer, the validation gates,
    the transaction writer and the query engine.

    Conventions.
    - Python [int] is [Z]; a [date] is its proleptic ordinal ([date.toordinal]),
      so that comparison of dates is comparison of integers.
    - The request's line items are Pydantic objects held by reference: they
      live in a store ([heap]) and lists hold locations, because the
      normalizer updates them in place.
    - An exception is a value of [exn]; a computation that can raise returns a
      [result]; the create path, which also writes, runs in the monad [M]
      over the object store and the database session.
    - Text is a [string] of bytes; the lowercasing of the database and that
      of Python, which the text filters use, are taken as given
      ([Lowering]). *)

From Stdlib Require Import ZArith String Ascii Bool Lia.
From Stdlib Require Import List Permutation Sorted.
Import ListNotations.
Local Open Scope Z_scope.

(** ** Exceptions *)

(** The argument an exception is constructed with: a fixed message, an
    f-string with the integers interpolated into it, or [str(ids)] of a list
    of product ids (which [make_response] reads back with [eval]). *)
Inductive exn_arg : Type :=
| Text (s : string)
| Fmt (s : string) (args : list Z)
| Ids (ids : list Z).

(** The classes the service imports from [app/utils/exceptions.py] and
    [sqlalchemy_filters.exceptions.InvalidPage], then the exceptions from
    outside the service's own taxonomy: Python's [AttributeError] and
    [IndexError], and the storage layer's error. *)
Inductive exn : Type :=
| ItensNotFound (a : exn_arg)
| InvalidPageItemsNumber (a : exn_arg)
| InvalidStockQuantity (a : exn_arg)
| NotEnoughStockQuantity (a : exn_arg)
| ProductsNotFound (a : exn_arg)
| ProviderNotFound (a : exn_arg)
| InvalidRangeTime (a : exn_arg)
| InvalidPage (a : exn_arg)
| AttributeError (a : exn_arg)
| IndexError
| StorageError.

Inductive result (A : Type) : Type :=
| Ok (a : A)
| Raise (e : exn).
Arguments Ok {A} a.
Arguments Raise {A} e.

Definition rbind {A B} (r : result A) (k : A -> result B) : result B :=
  match r with
  | Ok a => k a
  | Raise e => Raise e
  end.

Notation "'try' x '<-' r ';' k" := (rbind r (fun x => k))
  (at level 10, x pattern, r at level 100, k at level 200).

(** ** Data model *)

Inductive TransactionTypeEnum : Type := incoming | outgoing.

Definition TransactionTypeEnum_eqb (a b : TransactionTypeEnum) : bool :=
  match a, b with
  | incoming, incoming | outgoing, outgoing => true
  | _, _ => false
  end.

(** [schemas.TransactionProductsData]: one requested line item. *)
Module TransactionProductsData.
Record t : Type := { product_id : Z; quantity : Z }.
End TransactionProductsData.

(** [products.models.Product]; [weight] is a float that the service never
    reads and is left out. *)
Module Product.
Record t : Type := { id : Z; name : string; size : string; inventory : Z }.
Definition set_inventory (p : t) (v : Z) : t :=
  {| id := id p; name := name p; size := size p; inventory := v |}.
End Product.

Module Provider.
Record t : Type := { id : Z; name : string }.
End Provider.

(** [transactions_products.models.TransactionProduct]: a persisted line item;
    its [transaction_id] is the id of the transaction that owns it. *)
Module TransactionProduct.
Record t : Type := { quantity : Z; product_id : Z }.
End TransactionProduct.

Module Transaction.
Record t : Type := {
  id : Z;
  type : TransactionTypeEnum;
  description : string;
  date : Z;
  provider_id : option Z;
  created_by : Z;
  products_transaction : list TransactionProduct.t
}.
End Transaction.

Module User.
Record t : Type := { id : Z }.
End User.

(** ** The object store of the request's line items *)

(** A reference held by a Python list always points to a live object, and
    the service allocates none: the store gives every location its
    object. *)
Definition loc : Type := nat.
Definition heap : Type := loc -> TransactionProductsData.t.

(** [obj.quantity = q] *)
Definition set_quantity (h : heap) (l : loc) (q : Z) : heap :=
  fun l' =>
    if Nat.eqb l' l
    then {| TransactionProductsData.product_id :=
              TransactionProductsData.product_id (h l);
            TransactionProductsData.quantity := q |}
    else h l'.

Definition pid (h : heap) (l : loc) : Z :=
  TransactionProductsData.product_id (h l).
Definition qty (h : heap) (l : loc) : Z :=
  TransactionProductsData.quantity (h l).

(** The line items a list of references denotes in a store. *)
Definition view (h : heap) (refs : list loc) : list TransactionProductsData.t :=
  map h refs.

(** ** Python's [sorted(l, key=...)]: a stable sort

    Modelled by stable insertion: an element goes before the first element
    whose key is not smaller, so elements with equal keys keep their order. *)

Section Sorted.
Context {A : Type} (key : A -> Z).

Fixpoint insert_by (x : A) (l : list A) : list A :=
  match l with
  | [] => [x]
  | y :: l' =>
      if key x <=? key y then x :: y :: l' else y :: insert_by x l'
  end.

Definition sorted (l : list A) : list A := fold_right insert_by [] l.
End Sorted.

(** [x in l] on integers *)
Definition mem (x : Z) (l : list Z) : bool := existsb (Z.eqb x) l.

(** [l[-1]] *)
Fixpoint last_item {A} (l : list A) : option A :=
  match l with
  | [] => None
  | [x] => Some x
  | _ :: l' => last_item l'
  end.

(** ** Line-item normalizer *)

(** The loop of [_sort_by_id_check_and_sum_duplicates] over [sorted_payload],
    with the two local lists and the store threaded through. *)
Fixpoint sum_duplicates_loop (h : heap) (already_added : list Z)
    (checked_payload : list loc) (sorted_payload : list loc)
  : result (heap * list loc) :=
  match sorted_payload with
  | [] => Ok (h, checked_payload)
  | value :: rest =>
      if negb (mem (pid h value) already_added)
      then sum_duplicates_loop h (already_added ++ [pid h value])
             (checked_payload ++ [value]) rest
      else
        match last_item checked_payload with
        | None => Raise IndexError
        | Some top =>
            sum_duplicates_loop
              (set_quantity h top (qty h top + qty h value))
              already_added checked_payload rest
        end
  end.

Definition _sort_by_id_check_and_sum_duplicates (h : heap) (payload : list loc)
  : result (heap * list loc) :=
  let sorted_payload := sorted (pid h) payload in
  sum_duplicates_loop h [] [] sorted_payload.

(** ** Sign policies *)

(** The loop shared by the two sign checks: [products_ids] collects every
    product id, [invalid_stock_ids] those whose quantity is [bad]. *)
Fixpoint sign_check_loop (bad : Z -> bool) (h : heap)
    (products_ids invalid_stock_ids : list Z) (payload : list loc)
  : list Z * list Z :=
  match payload with
  | [] => (products_ids, invalid_stock_ids)
  | value :: rest =>
      sign_check_loop bad h
        (products_ids ++ [pid h value])
        (if bad (qty h value)
         then invalid_stock_ids ++ [pid h value]
         else invalid_stock_ids)
        rest
  end.

Definition _check_if_products_payload_is_greater_than_zero (h : heap)
    (payload : list loc) : result (list Z) :=
  let '(products_ids, invalid_stock_ids) :=
    sign_check_loop (fun q => q <=? 0) h [] [] payload in
  if (0 <? length invalid_stock_ids)%nat
  then Raise (InvalidStockQuantity (Ids invalid_stock_ids))
  else Ok products_ids.

Definition _check_if_products_payload_is_less_than_zero (h : heap)
    (payload : list loc) : result (list Z) :=
  let '(products_ids, invalid_stock_ids) :=
    sign_check_loop (fun q => q >=? 0) h [] [] payload in
  if (0 <? length invalid_stock_ids)%nat
  then Raise (InvalidStockQuantity (Ids invalid_stock_ids))
  else Ok products_ids.

(** ** Stock availability checker *)

Fixpoint enough_stock_loop (h : heap) (invalid_stock_ids : list Z)
    (pairs : list (Product.t * loc)) : list Z :=
  match pairs with
  | [] => invalid_stock_ids
  | (p_found, p_payload) :: rest =>
      enough_stock_loop h
        (if qty h p_payload >? Product.inventory p_found
         then invalid_stock_ids ++ [Product.id p_found]
         else invalid_stock_ids)
        rest
  end.

Definition _check_if_stock_has_enough_outgoing_quantity (h : heap)
    (products_found : list Product.t) (products_payload : list loc)
  : result unit :=
  let invalid_stock_ids :=
    enough_stock_loop h [] (combine products_found products_payload) in
  if (0 <? length invalid_stock_ids)%nat
  then Raise (NotEnoughStockQuantity (Ids invalid_stock_ids))
  else Ok tt.

(** ** The database *)

Module Db.
Record t : Type := {
  products : list Product.t;
  providers : list Provider.t;
  transactions : list Transaction.t
}.

Definition add_transaction (db : t) (row : Transaction.t) : t :=
  {| products := products db; providers := providers db;
     transactions := transactions db ++ [row] |}.

Definition set_products (db : t) (rows : list Product.t) : t :=
  {| products := rows; providers := providers db;
     transactions := transactions db |}.
End Db.

(** A SQLAlchemy session: the state other sessions observe ([committed]) and
    the state the session itself sees ([working]): the changes it holds on
    its objects and the writes of its open database transaction, which a
    commit makes the observed state. *)
Module Session.
Record t : Type := { committed : Db.t; working : Db.t }.

(** The session once its database transaction is committed as [db]. *)
Definition committed_as (db : Db.t) : t :=
  {| committed := db; working := db |}.

(** A write inside the open database transaction. *)
Definition write (s : t) (db : Db.t) : t :=
  {| committed := committed s; working := db |}.
End Session.

(** ** Product lookup gate *)

(** [l.remove(x)]: drops the first occurrence. *)
Fixpoint remove_first (x : Z) (l : list Z) : list Z :=
  match l with
  | [] => []
  | y :: l' => if y =? x then l' else y :: remove_first x l'
  end.

Fixpoint unresolved_loop (payload_products_id : list Z)
    (products_found : list Product.t) : list Z :=
  match products_found with
  | [] => payload_products_id
  | p_found :: rest =>
      if mem (Product.id p_found) payload_products_id
      then unresolved_loop
             (remove_first (Product.id p_found) payload_products_id) rest
      else unresolved_loop payload_products_id rest
  end.

(** [db.query(Product).filter(Product.id.in_(ids))
      .order_by(Product.id).all()] *)
Definition products_by_ids (db : Db.t) (ids : list Z) : list Product.t :=
  sorted Product.id
    (filter (fun p => mem (Product.id p) ids) (Db.products db)).

Definition _get_products_from_database (db : Db.t)
    (payload_products_id : list Z) : result (list Product.t) :=
  let products_found := products_by_ids db payload_products_id in
  let raise_error :=
    negb (Nat.eqb (length products_found) (length payload_products_id)) in
  if raise_error
  then Raise (ItensNotFound
                (Ids (unresolved_loop payload_products_id products_found)))
  else Ok products_found.

(** ** Provider existence *)

(** [provider.name], where [provider] is the result of [.first()]: a row or
    [None]; [None] has no attribute [name]. *)
Definition provider_name_attr (provider : option Provider.t) : result string :=
  match provider with
  | Some p => Ok (Provider.name p)
  | None => Raise (AttributeError
                     (Text "'NoneType' object has no attribute 'name'"))
  end.

Definition _check_provider_existence (db : Db.t) (provider_id : option Z)
  : result unit :=
  match provider_id with
  | Some i =>
      let provider := find (fun p => Provider.id p =? i) (Db.providers db) in
      match provider with
      | None =>
          try n <- provider_name_attr provider ;
          Raise (ProviderNotFound (Text n))
      | Some _ => Ok tt
      end
  | None => Ok tt
  end.

(** ** The create path: state and exceptions *)

(** What a create can change: the request's objects and the session. An
    exception leaves the changes made before it in place: nothing in the
    service catches it or rolls the session back. *)
Record world : Type := { objs : heap; session : Session.t }.

Definition set_objs (w : world) (h : heap) : world :=
  {| objs := h; session := session w |}.
Definition set_session (w : world) (s : Session.t) : world :=
  {| objs := objs w; session := s |}.

Definition M (A : Type) : Type := world -> result A * world.

Definition ret {A} (a : A) : M A := fun w => (Ok a, w).
Definition raise {A} (e : exn) : M A := fun w => (Raise e, w).
Definition bind {A B} (m : M A) (k : A -> M B) : M B :=
  fun w =>
    match m w with
    | (Ok a, w') => k a w'
    | (Raise e, w') => (Raise e, w')
    end.

Notation "x <- m ;; k" := (bind m (fun x => k))
  (at level 61, m at next level, right associativity).

(** A check that reads the request's objects. *)
Definition with_objs {A} (f : heap -> result A) : M A :=
  fun w => (f (objs w), w).
(** A read through the session. *)
Definition with_db {A} (f : Db.t -> result A) : M A :=
  fun w => (f (Session.working (session w)), w).
(** A computation that updates the request's objects. *)
Definition on_objs {A} (f : heap -> result (heap * A)) : M A :=
  fun w =>
    match f (objs w) with
    | Ok (h, a) => (Ok a, set_objs w h)
    | Raise e => (Raise e, w)
    end.

(** The writes the create path asks of the storage layer. Any of them can
    fail, for reasons outside the service (connectivity, a constraint): the
    environment of a run says which do. *)
Inductive storage_op : Type := op_insert | op_bulk_update | op_commit.

(** The next value of the autoincremented primary key. *)
Definition next_id (rows : list Transaction.t) : Z :=
  1 + fold_right (fun t m => Z.max (Transaction.id t) m) 0 rows.

Definition with_id (t : Transaction.t) (i : Z) : Transaction.t :=
  {| Transaction.id := i;
     Transaction.type := Transaction.type t;
     Transaction.description := Transaction.description t;
     Transaction.date := Transaction.date t;
     Transaction.provider_id := Transaction.provider_id t;
     Transaction.created_by := Transaction.created_by t;
     Transaction.products_transaction := Transaction.products_transaction t |}.

(** Modelled from the spec: [Transaction.insert] of
    [app/modules/transactions/models.py], which is not among the sources.
    Sections 4.4 and 9: the transaction record with its line items is
    inserted and committed on its own, before the inventory is adjusted. The
    row gets a fresh primary key and is returned. *)
Definition insert (faulty : storage_op -> bool) (t : Transaction.t)
  : M Transaction.t :=
  fun w =>
    if faulty op_insert then (Raise StorageError, w)
    else
      let db := Session.working (session w) in
      let row := with_id t (next_id (Db.transactions db)) in
      (Ok row,
       set_session w (Session.committed_as (Db.add_transaction db row))).

(** [db.bulk_update_mappings(Product, mappings)]: one UPDATE by primary key
    per mapping, in order, inside the open database transaction. *)
Definition update_by_id (m : Product.t) (rows : list Product.t)
  : list Product.t :=
  map (fun r => if Product.id r =? Product.id m then m else r) rows.

Definition bulk_update_rows (mappings rows : list Product.t)
  : list Product.t :=
  fold_left (fun rows m => update_by_id m rows) mappings rows.

Definition bulk_update_mappings (faulty : storage_op -> bool)
    (mappings : list Product.t) : M unit :=
  fun w =>
    if faulty op_bulk_update then (Raise StorageError, w)
    else
      let db := Session.working (session w) in
      (Ok tt,
       set_session w
         (Session.write (session w)
            (Db.set_products db
               (bulk_update_rows mappings (Db.products db))))).

(** [db.commit()] *)
Definition commit (faulty : storage_op -> bool) : M unit :=
  fun w =>
    if faulty op_commit then (Raise StorageError, w)
    else
      (Ok tt,
       set_session w (Session.committed_as (Session.working (session w)))).

(** ** Transaction writer *)

(** [p_found.inventory = ...] for every row found: the rows are objects
    of the session, which from then on holds their new inventories as a
    change of its own, not yet committed. *)
Definition assign_inventories (dict_products : list Product.t) : M unit :=
  fun w =>
    let db := Session.working (session w) in
    (Ok tt,
     set_session w
       (Session.write (session w)
          (Db.set_products db
             (bulk_update_rows dict_products (Db.products db))))).

Definition _update_products_inventory (faulty : storage_op -> bool)
    (products_found : list Product.t) (products_payload : list loc) : M unit :=
  dict_products <- with_objs (fun h => Ok
    (map (fun '(p_found, p_payload) =>
            Product.set_inventory p_found
              (Product.inventory p_found + qty h p_payload))
       (combine products_found products_payload))) ;;
  _ <- assign_inventories dict_products ;;
  _ <- bulk_update_mappings faulty dict_products ;;
  commit faulty.

Definition _update_products_inventory_outgoing (faulty : storage_op -> bool)
    (products_found : list Product.t) (products_payload : list loc) : M unit :=
  dict_products <- with_objs (fun h => Ok
    (map (fun '(p_found, p_payload) =>
            Product.set_inventory p_found
              (Product.inventory p_found - qty h p_payload))
       (combine products_found products_payload))) ;;
  _ <- assign_inventories dict_products ;;
  _ <- bulk_update_mappings faulty dict_products ;;
  commit faulty.

(** [IncomingTransactionCreate] and [OutgoingTransactionCreate]: the request
    body. [products] holds references to the line-item objects;
    [provider_id] is [None] when the request gives none. *)
Module TransactionCreate.
Record t : Type := {
  type : TransactionTypeEnum;
  provider_id : option Z;
  description : string;
  date : Z;
  products : list loc
}.
End TransactionCreate.

(** The list [TransactionProduct(quantity=product.quantity,
    product_id=product.product_id) for product in checked_products]. *)
Definition products_transaction_of (h : heap) (checked_products : list loc)
  : list TransactionProduct.t :=
  map (fun product =>
         {| TransactionProduct.quantity := qty h product;
            TransactionProduct.product_id := pid h product |})
    checked_products.

(** The record built from [transaction.dict(...)], before the insert gives
    it its primary key (the [id] field is a placeholder until then). *)
Definition transaction_record (transaction : TransactionCreate.t)
    (provider_id : option Z) (user : User.t)
    (products_transaction : list TransactionProduct.t) : Transaction.t :=
  {| Transaction.id := 0;
     Transaction.type := TransactionCreate.type transaction;
     Transaction.description := TransactionCreate.description transaction;
     Transaction.date := TransactionCreate.date transaction;
     Transaction.provider_id := provider_id;
     Transaction.created_by := User.id user;
     Transaction.products_transaction := products_transaction |}.

Definition create (faulty : storage_op -> bool) (user : User.t)
    (transaction : TransactionCreate.t) : M Transaction.t :=
  if Nat.eqb (length (TransactionCreate.products transaction)) 0
  then raise (ProductsNotFound (Text "Empty transaction products"))
  else
    match TransactionCreate.type transaction with
    | incoming =>
        _ <- with_db (fun db =>
               _check_provider_existence db
                 (TransactionCreate.provider_id transaction)) ;;
        checked_products <- on_objs (fun h =>
               _sort_by_id_check_and_sum_duplicates h
                 (TransactionCreate.products transaction)) ;;
        products_ids <- with_objs (fun h =>
               _check_if_products_payload_is_greater_than_zero h
                 checked_products) ;;
        products_to_update <- with_db (fun db =>
               _get_products_from_database db products_ids) ;;
        products_transaction <- with_objs (fun h =>
               Ok (products_transaction_of h checked_products)) ;;
        transaction' <- insert faulty
               (transaction_record transaction
                  (TransactionCreate.provider_id transaction) user
                  products_transaction) ;;
        _ <- _update_products_inventory faulty products_to_update
               checked_products ;;
        ret transaction'
    | outgoing =>
        checked_products <- on_objs (fun h =>
               _sort_by_id_check_and_sum_duplicates h
                 (TransactionCreate.products transaction)) ;;
        products_ids <- with_objs (fun h =>
               _check_if_products_payload_is_greater_than_zero h
                 checked_products) ;;
        products_to_update <- with_db (fun db =>
               _get_products_from_database db products_ids) ;;
        _ <- with_objs (fun h =>
               _check_if_stock_has_enough_outgoing_quantity h
                 products_to_update checked_products) ;;
        products_transaction <- with_objs (fun h =>
               Ok (products_transaction_of h checked_products)) ;;
        transaction' <- insert faulty
               (transaction_record transaction None user
                  products_transaction) ;;
        _ <- _update_products_inventory_outgoing faulty products_to_update
               checked_products ;;
        ret transaction'
    end.

(** ** Transaction query engine *)

(** The two lowercasings of the text filters. The stored text is
    lowercased by the database ([func.lower(column)], SQL's [lower]) and
    the text searched for by Python ([needle.lower()], [str.lower] with its
    Unicode tables). Neither function is part of the service: the query
    engine takes them as given. *)
Class Lowering : Type := {
  sql_lower : string -> string;
  py_lower : string -> string
}.

(** A lowering to run examples with: it lowercases the ASCII letters and
    leaves every other byte as it is. On ASCII text [str.lower] does the
    same, and so does the [lower] of SQLite. *)
Definition lower_ascii (c : ascii) : ascii :=
  let n := nat_of_ascii c in
  if (Nat.leb 65 n && Nat.leb n 90)%bool then ascii_of_nat (n + 32) else c.

Fixpoint ascii_lower (s : string) : string :=
  match s with
  | EmptyString => EmptyString
  | String c s' => String (lower_ascii c) (ascii_lower s')
  end.

#[export] Instance ascii_lowering : Lowering :=
  {| sql_lower := ascii_lower; py_lower := ascii_lower |}.

(** [column.contains(sub, autoescape=True)]: [sub] occurs in the column. *)
Definition contains (s sub : string) : bool :=
  match String.index 0 sub s with
  | Some _ => true
  | None => false
  end.

(** A value passed for a date filter: [None], a string, or a [date]. The
    builder tests [type(x) == date] and [x == '']. *)
Inductive pyarg : Type :=
| PyNone
| PyStr (s : string)
| PyDate (d : Z).

(** A query over the transactions: its WHERE clause, whether it is ordered
    by [Transaction.id], and its LIMIT and OFFSET. *)
Module Query.
Record t : Type := {
  where_ : Transaction.t -> bool;
  order_by_id : bool;
  limit : option Z;
  offset : option Z
}.

(** [db.query(Transaction)] *)
Definition from_transactions : t :=
  {| where_ := fun _ => true; order_by_id := false;
     limit := None; offset := None |}.

(** [query.filter(c)] *)
Definition filter_ (q : t) (c : Transaction.t -> bool) : t :=
  {| where_ := fun r => where_ q r && c r; order_by_id := order_by_id q;
     limit := limit q; offset := offset q |}.

(** [query.order_by(Transaction.id)] *)
Definition order_by (q : t) : t :=
  {| where_ := where_ q; order_by_id := true;
     limit := limit q; offset := offset q |}.

Definition set_limit (q : t) (n : Z) : t :=
  {| where_ := where_ q; order_by_id := order_by_id q;
     limit := Some n; offset := offset q |}.

Definition set_offset (q : t) (n : Z) : t :=
  {| where_ := where_ q; order_by_id := order_by_id q;
     limit := limit q; offset := Some n |}.

(** [query.count()]: the rows the WHERE clause selects. *)
Definition count (db : Db.t) (q : t) : Z :=
  Z.of_nat (length (filter (where_ q) (Db.transactions db))).

(** [query.all()] *)
Definition all (db : Db.t) (q : t) : list Transaction.t :=
  let rows := filter (where_ q) (Db.transactions db) in
  let rows := if order_by_id q then sorted Transaction.id rows else rows in
  let rows := match offset q with
              | Some n => skipn (Z.to_nat n) rows
              | None => rows
              end in
  match limit q with
  | Some n => firstn (Z.to_nat n) rows
  | None => rows
  end.
End Query.

(** The name of the provider a transaction joins to, when it has one. *)
Definition joined_provider_name (db : Db.t) (r : Transaction.t)
  : option string :=
  match Transaction.provider_id r with
  | Some i =>
      option_map Provider.name
        (find (fun p => Provider.id p =? i) (Db.providers db))
  | None => None
  end.

(** The ids of the transactions with a line item whose product's name
    contains [product_name] (the subquery of the product-name filter). *)
Definition transaction_ids_by_product_name {L : Lowering}
    (db : Db.t) (product_name : string)
  : list Z :=
  flat_map (fun r =>
    flat_map (fun tp =>
      match find (fun p => Product.id p =? TransactionProduct.product_id tp)
              (Db.products db) with
      | Some p =>
          if contains (sql_lower (Product.name p)) (py_lower product_name)
          then [Transaction.id r] else []
      | None => []
      end) (Transaction.products_transaction r))
    (Db.transactions db).

Definition nonempty (s : string) : bool :=
  match s with EmptyString => false | _ => true end.

(** [transaction_type] is a [TransactionTypeEnum] or [''] ([None] here). *)
Definition _make_transaction_query_with_filters {L : Lowering} (db : Db.t)
    (product_name provider_name description : string)
    (transaction_type : option TransactionTypeEnum)
    (start_date finish_date : pyarg) : result Query.t :=
  let query := Query.from_transactions in
  try query <-
    match start_date, finish_date with
    | PyDate s, PyDate f =>
        if s >? f
        then Raise (InvalidRangeTime (Text "Invalid datetime range"))
        else Ok (Query.filter_ query (fun r =>
                   (Transaction.date r >=? s) && (Transaction.date r <=? f)))
    | PyDate s, PyStr EmptyString =>
        Ok (Query.filter_ query (fun r => Transaction.date r >=? s))
    | PyStr EmptyString, PyDate f =>
        Ok (Query.filter_ query (fun r => Transaction.date r <=? f))
    | _, _ => Ok query
    end ;
  let query :=
    if nonempty provider_name
    then Query.filter_ query (fun r =>
           match joined_provider_name db r with
           | Some n => contains (sql_lower n) (py_lower provider_name)
           | None => false
           end)
    else query in
  let query :=
    if nonempty description
    then Query.filter_ query (fun r =>
           contains (sql_lower (Transaction.description r))
             (py_lower description))
    else query in
  let query :=
    match transaction_type with
    | Some ty =>
        Query.filter_ query (fun r =>
          TransactionTypeEnum_eqb (Transaction.type r) ty)
    | None => query
    end in
  let query :=
    if nonempty product_name
    then
      let ids := transaction_ids_by_product_name db product_name in
      Query.filter_ query (fun r => mem (Transaction.id r) ids)
    else query in
  Ok query.

Definition fetch_one (db : Db.t) (id : Z) : result Transaction.t :=
  match find (fun r => Transaction.id r =? id) (Db.transactions db) with
  | None => Raise (ItensNotFound (Text "Transaction was not found"))
  | Some transaction => Ok transaction
  end.

Definition fetch_all {L : Lowering} (db : Db.t)
    (product_name provider_name description : string)
    (transaction_type : option TransactionTypeEnum)
    (start_date finish_date : pyarg) : result (list Transaction.t) :=
  try query <- _make_transaction_query_with_filters db product_name
                 provider_name description transaction_type
                 start_date finish_date ;
  let transactions := Query.all db (Query.order_by query) in
  if Nat.eqb (length transactions) 0
  then Raise (ItensNotFound (Text "No transactions found"))
  else Ok transactions.

(** [sqlalchemy_filters.apply_pagination] (a third-party library), from its
    documented behaviour: it counts the rows, limits the query to the page
    size and offsets it by the pages before the requested one; the number of
    pages is the count divided by the page size, rounded up (0 for a page
    size of 0). *)
Module Pagination.
Record t : Type := {
  page_number : Z;
  page_size : Z;
  num_pages : Z;
  total_results : Z
}.
End Pagination.

Definition ceil_div (a b : Z) : Z := (a + b - 1) / b.

Definition apply_pagination (db : Db.t) (query : Query.t)
    (page_number page_size : Z) : result (Query.t * Pagination.t) :=
  let total_results := Query.count db query in
  if page_size <? 0
  then Raise (InvalidPage (Fmt "Page size should not be negative: {}"
                             [page_size]))
  else
    let query := Query.set_limit query page_size in
    let page_size :=
      if (page_size >? total_results) && (total_results >? 0)
      then total_results else page_size in
    if page_number <? 1
    then Raise (InvalidPage
                  (Fmt "Page number should be positive: {}" [page_number]))
    else
      let query := Query.set_offset query ((page_number - 1) * page_size) in
      let num_pages :=
        if page_size =? 0 then 0 else ceil_div total_results page_size in
      Ok (query,
          {| Pagination.page_number := page_number;
             Pagination.page_size := page_size;
             Pagination.num_pages := num_pages;
             Pagination.total_results := total_results |}).

(** Modelled from the spec: [make_pagination_metadata] of
    [app/utils/pagination.py], which is not among the sources. Section 4.5:
    the metadata are the current page, the total pages, the page size, the
    total items and the filter arguments used. *)
Module PaginationMetadata.
Record t : Type := {
  current_page : Z;
  total_pages : Z;
  per_page : Z;
  total_items : Z;
  url_args : string * string * string * option TransactionTypeEnum
             * pyarg * pyarg
}.
End PaginationMetadata.

Module TransactionsResponse.
Record t : Type := {
  pagination_metadata : PaginationMetadata.t;
  records : list Transaction.t
}.
End TransactionsResponse.

Definition fetch_all_with_pagination {L : Lowering}
    (db : Db.t) (page per_page : Z)
    (product_name provider_name description : string)
    (transaction_type : option TransactionTypeEnum)
    (start_date finish_date : pyarg) : result TransactionsResponse.t :=
  if page <=? 0
  then Raise (InvalidPage
         (Fmt "Page number should be positive and greater than zero: {}"
            [page]))
  else if per_page <=? 0
  then Raise (InvalidPageItemsNumber
         (Text "Numbers of items per page must be greater than zero"))
  else
    try query <- _make_transaction_query_with_filters db product_name
                   provider_name description transaction_type
                   start_date finish_date ;
    let query := Query.order_by query in
    try paginated <- apply_pagination db query page per_page ;
    let '(query, pagination) := paginated in
    let transactions := Query.all db query in
    if (page >? Pagination.num_pages pagination)
       && (Pagination.num_pages pagination >? 0)
    then Raise (InvalidPage
           (Fmt "Page number invalid, the total of pages is {}: {}"
              [Pagination.num_pages pagination; page]))
    else if Nat.eqb (length transactions) 0
    then Raise (ItensNotFound (Text "No transactions found"))
    else
      Ok {| TransactionsResponse.pagination_metadata :=
              {| PaginationMetadata.current_page := page;
                 PaginationMetadata.total_pages :=
                   Pagination.num_pages pagination;
                 PaginationMetadata.per_page := per_page;
                 PaginationMetadata.total_items :=
                   Pagination.total_results pagination;
                 PaginationMetadata.url_args :=
                   (product_name, provider_name, description,
                    transaction_type, start_date, finish_date) |};
            TransactionsResponse.records := transactions |}.

(** ** Concrete requests *)

(** A store whose objects are allocated at 0, 1, 2, ... in the order of a
    list. *)
Definition heap_of (items : list TransactionProductsData.t) : heap :=
  fun l => nth l items {| TransactionProductsData.product_id := 0;
                          TransactionProductsData.quantity := 0 |}.

Definition line (p q : Z) : TransactionProductsData.t :=
  {| TransactionProductsData.product_id := p;
     TransactionProductsData.quantity := q |}.

(** ** Vocabulary of the statements *)

(** What a sequence of updates by primary key makes of one row. *)
Definition updated_row (mappings : list Product.t) (r : Product.t)
  : Product.t :=
  fold_left (fun r m => if Product.id r =? Product.id m then m else r)
    mappings r.

(** The total quantity a batch of line items asks of product [p]. *)
Fixpoint requested (p : Z) (items : list TransactionProductsData.t) : Z :=
  match items with
  | [] => 0
  | v :: rest =>
      (if TransactionProductsData.product_id v =? p
       then TransactionProductsData.quantity v else 0)
      + requested p rest
  end.

(** The product ids a batch of line items names. *)
Definition product_ids (items : list TransactionProductsData.t) : list Z :=
  map TransactionProductsData.product_id items.

(** Concrete rows. *)
Definition product (i : Z) (n : string) (inv : Z) : Product.t :=
  {| Product.id := i; Product.name := n; Product.size := "M";
     Product.inventory := inv |}.

Definition db_of (rows : list Product.t) : Db.t :=
  {| Db.products := rows; Db.providers := []; Db.transactions := [] |}.

Definition no_faults : storage_op -> bool := fun _ => false.

Definition world_of (items : list TransactionProductsData.t)
    (rows : list Product.t) : world :=
  {| objs := heap_of items; session := Session.committed_as (db_of rows) |}.

(** A request whose line items are the first [n] objects of the store. *)
Definition request (ty : TransactionTypeEnum) (provider : option Z)
    (n : nat) : TransactionCreate.t :=
  {| TransactionCreate.type := ty;
     TransactionCreate.provider_id := provider;
     TransactionCreate.description := "";
     TransactionCreate.date := 737791;
     TransactionCreate.products := seq 0 n |}.

Definition user1 : User.t := {| User.id := 1 |}.

(** A storage whose bulk update fails. *)
Definition bulk_update_fails : storage_op -> bool :=
  fun op => match op with op_bulk_update => true | _ => false end.

(** A database with one transaction, dated 2021-01-01 (ordinal 737791). *)
Definition new_year_sale : Transaction.t :=
  {| Transaction.id := 1;
     Transaction.type := outgoing;
     Transaction.description := "sale";
     Transaction.date := 737791;
     Transaction.provider_id := None;
     Transaction.created_by := 1;
     Transaction.products_transaction :=
       [{| TransactionProduct.quantity := 2;
           TransactionProduct.product_id := 1 |}] |}.

Definition db_with_sale : Db.t :=
  {| Db.products := [product 1 "a" 8]; Db.providers := [];
     Db.transactions := [new_year_sale] |}.

(** A store with lines of every sign, and four products. *)
Definition mixed_lines : heap :=
  heap_of [line 1 0; line 2 (-3); line 3 4; line 4 9].

Definition four_products : list Product.t :=
  [product 3 "c" 1; product 1 "a" 5; product 4 "d" 2; product 2 "b" 0].

(** Two lines for product 1 and one for product 2, over three products. *)
Definition stocked : world :=
  world_of [line 1 4; line 2 3; line 1 6]
    [product 2 "b" 7; product 1 "a" 10; product 3 "c" 1].

(** The same request where it asks exactly what the products have. *)
Definition exactly_stocked : world :=
  world_of [line 1 4; line 2 3; line 1 6]
    [product 2 "b" 3; product 1 "a" 10; product 3 "c" 1].

(** A product out of stock, asked for a quantity of 0. *)
Definition out_of_stock : world :=
  world_of [line 1 0] [product 1 "a" 0].

(** Five transactions, one a day from 2021-01-01 on, stored out of order. *)
Definition sale_on (i : Z) : Transaction.t :=
  {| Transaction.id := i;
     Transaction.type := outgoing;
     Transaction.description := "sale";
     Transaction.date := 737790 + i;
     Transaction.provider_id := None;
     Transaction.created_by := 1;
     Transaction.products_transaction :=
       [{| TransactionProduct.quantity := 1;
           TransactionProduct.product_id := 1 |}] |}.

Definition db_with_five_sales : Db.t :=
  {| Db.products := [product 1 "Camisa Azul" 8]; Db.providers := [];
     Db.transactions :=
       [sale_on 3; sale_on 1; sale_on 5; sale_on 2; sale_on 4] |}.

(** The request of the scenario of the specification: 5 of product 1 come
    in, then 20 are asked to go out. *)
Definition restock_then_oversell : world :=
  world_of [line 1 5; line 1 20] [product 1 "P1" 10].

Definition request_of (ty : TransactionTypeEnum) (lines : list loc)
  : TransactionCreate.t :=
  {| TransactionCreate.type := ty;
     TransactionCreate.provider_id := None;
     TransactionCreate.description := "";
     TransactionCreate.date := 737791;
     TransactionCreate.products := lines |}.

(** The total quantity of a batch of line items, all products together. *)
Fixpoint total_quantity (items : list TransactionProductsData.t) : Z :=
  match items with
  | [] => 0
  | v :: rest => TransactionProductsData.quantity v + total_quantity rest
  end.



(** * Properties *)

(** ** Lists of integers *)

Lemma mem_In (x : Z) (l : list Z) : mem x l = true <-> In x l.
Proof.
  unfold mem. rewrite existsb_exists. split.
  - intros [y [Hy Heq]]. apply Z.eqb_eq in Heq. now subst.
  - intros H. exists x. split; [assumption | apply Z.eqb_refl].
Qed.

Lemma mem_false (x : Z) (l : list Z) : mem x l = false <-> ~ In x l.
Proof.
  rewrite <- mem_In. destruct (mem x l); split; intros; congruence.
Qed.

Lemma mem_app (x : Z) (l1 l2 : list Z) :
  mem x (l1 ++ l2) = mem x l1 || mem x l2.
Proof. unfold mem. apply existsb_app. Qed.

Lemma last_item_app {A} (l : list A) (x : A) : last_item (l ++ [x]) = Some x.
Proof.
  induction l as [|y l IH]; [reflexivity|].
  simpl. destruct (l ++ [x]) eqn:E; [destruct l; discriminate | exact IH].
Qed.

Lemma last_item_split {A} (l : list A) (x : A) :
  last_item l = Some x -> exists l0, l = l0 ++ [x].
Proof.
  induction l as [|y l IH]; [discriminate|].
  destruct l as [|z l].
  - simpl. intros [= ->]. now exists [].
  - intros H. destruct (IH H) as [l0 E]. exists (y :: l0).
    simpl. now rewrite <- E.
Qed.

Lemma last_item_nonempty {A} (l : list A) :
  l <> [] -> exists x, last_item l = Some x.
Proof.
  induction l as [|y l IH]; [congruence|].
  intros _. destruct l as [|z l]; [now exists y|].
  destruct IH as [x Hx]; [discriminate|]. now exists x.
Qed.

(** Appending a larger element keeps a list strictly increasing. *)
Lemma increasing_snoc (l : list Z) (y : Z) :
  StronglySorted Z.lt l -> (forall x, In x l -> x < y) ->
  StronglySorted Z.lt (l ++ [y]).
Proof.
  induction 1 as [|a l Hl IH Ha]; intros Hy; simpl.
  - repeat constructor.
  - constructor.
    + apply IH. intros x Hx. apply Hy. now right.
    + rewrite Forall_forall in *. intros x Hx. apply in_app_or in Hx.
      destruct Hx as [Hx|[<-|[]]]; [now apply Ha | apply Hy; now left].
Qed.

Lemma increasing_NoDup (l : list Z) : StronglySorted Z.lt l -> NoDup l.
Proof.
  induction 1 as [|a l Hl IH Ha]; constructor; [|assumption].
  intros Hin. rewrite Forall_forall in Ha. specialize (Ha _ Hin). lia.
Qed.

(** Two strictly increasing lists with the same elements are equal. *)
Lemma increasing_unique (l1 l2 : list Z) :
  StronglySorted Z.lt l1 -> StronglySorted Z.lt l2 ->
  (forall x, In x l1 <-> In x l2) -> l1 = l2.
Proof.
  intros H1. revert l2.
  induction H1 as [|a l1 Hl1 IH Ha]; intros l2 H2 Heq.
  - destruct l2 as [|b l2]; [reflexivity|].
    exfalso. apply (proj2 (Heq b)). now left.
  - destruct H2 as [|b l2 Hl2 Hb].
    + exfalso. apply (proj1 (Heq a)). now left.
    + rewrite Forall_forall in Ha, Hb.
      assert (a = b) as ->.
      { destruct (proj1 (Heq a) (or_introl eq_refl)) as [E|Hin];
          [now subst|].
        destruct (proj2 (Heq b) (or_introl eq_refl)) as [E|Hin'];
          [now subst|].
        specialize (Ha _ Hin'). specialize (Hb _ Hin). lia. }
      f_equal. apply IH; [assumption|].
      intros x. split; intros Hx.
      * destruct (proj1 (Heq x) (or_intror Hx)) as [E|Hin]; [|assumption].
        subst. specialize (Ha _ Hx). lia.
      * destruct (proj2 (Heq x) (or_intror Hx)) as [E|Hin]; [|assumption].
        subst. specialize (Hb _ Hx). lia.
Qed.

(** ** The stable sort *)

Section SortedFacts.
Context {A : Type} (key : A -> Z).

Lemma insert_by_perm (x : A) (l : list A) :
  Permutation (insert_by key x l) (x :: l).
Proof.
  induction l as [|y l IH]; simpl; [reflexivity|].
  destruct (key x <=? key y); [reflexivity|].
  rewrite IH. apply perm_swap.
Qed.

Lemma sorted_perm (l : list A) : Permutation (sorted key l) l.
Proof.
  induction l as [|x l IH]; simpl; [reflexivity|].
  rewrite insert_by_perm. now constructor.
Qed.

Lemma insert_by_ascending (x : A) (l : list A) :
  StronglySorted Z.le (map key l) ->
  StronglySorted Z.le (map key (insert_by key x l)).
Proof.
  induction l as [|y l IH]; simpl; intros H.
  - repeat constructor.
  - destruct (key x <=? key y) eqn:E; simpl.
    + apply Z.leb_le in E. constructor; [assumption|].
      inversion H as [|? ? Hl Hy]; subst. constructor; [assumption|].
      rewrite Forall_forall in *. intros z Hz. specialize (Hy _ Hz). lia.
    + apply Z.leb_gt in E. inversion H as [|? ? Hl Hy]; subst.
      constructor; [now apply IH|].
      rewrite Forall_forall in *. intros z Hz.
      apply in_map_iff in Hz. destruct Hz as [a [<- Ha]].
      apply (Permutation_in _ (insert_by_perm x l)) in Ha.
      destruct Ha as [<-|Ha]; [lia|].
      apply Hy. now apply in_map.
Qed.

Lemma sorted_ascending (l : list A) :
  StronglySorted Z.le (map key (sorted key l)).
Proof.
  induction l as [|x l IH]; simpl; [constructor|].
  now apply insert_by_ascending.
Qed.

(** Stability: for every key, the elements with that key keep their
    order. *)
Lemma insert_by_stable (p : Z) (x : A) (l : list A) :
  filter (fun a => key a =? p) (insert_by key x l) =
  filter (fun a => key a =? p) (x :: l).
Proof.
  induction l as [|y l IH]; [reflexivity|].
  simpl insert_by. destruct (key x <=? key y) eqn:E; [reflexivity|].
  apply Z.leb_gt in E. simpl in *. rewrite IH.
  destruct (key x =? p) eqn:Ex; [|reflexivity].
  apply Z.eqb_eq in Ex.
  destruct (key y =? p) eqn:Ey; [|reflexivity].
  apply Z.eqb_eq in Ey. lia.
Qed.

Lemma sorted_stable (p : Z) (l : list A) :
  filter (fun a => key a =? p) (sorted key l) =
  filter (fun a => key a =? p) l.
Proof.
  induction l as [|x l IH]; [reflexivity|].
  simpl sorted. rewrite insert_by_stable. simpl. now rewrite IH.
Qed.

(** A list that is already in order is left as it is. *)
Lemma sorted_fixed (l : list A) :
  StronglySorted Z.le (map key l) -> sorted key l = l.
Proof.
  induction l as [|x l IH]; [reflexivity|].
  simpl. intros H. inversion H as [|? ? Hl Hx]; subst.
  rewrite (IH Hl). destruct l as [|y l]; [reflexivity|].
  simpl. inversion Hx as [|? ? Hxy _]; subst.
  apply Z.leb_le in Hxy. now rewrite Hxy.
Qed.
End SortedFacts.

(** ** The object store *)

Lemma pid_set_quantity (h : heap) (t : loc) (q : Z) (l : loc) :
  pid (set_quantity h t q) l = pid h l.
Proof.
  unfold pid, set_quantity. destruct (Nat.eqb l t) eqn:E; [|reflexivity].
  apply Nat.eqb_eq in E. now subst.
Qed.

Lemma set_quantity_other (h : heap) (t : loc) (q : Z) (l : loc) :
  l <> t -> set_quantity h t q l = h l.
Proof.
  intros H. unfold set_quantity.
  destruct (Nat.eqb l t) eqn:E; [|reflexivity].
  apply Nat.eqb_eq in E. contradiction.
Qed.

Lemma qty_set_quantity (h : heap) (t : loc) (q : Z) :
  qty (set_quantity h t q) t = q.
Proof. unfold qty, set_quantity. now rewrite Nat.eqb_refl. Qed.

Lemma view_app (h : heap) (l1 l2 : list loc) :
  view h (l1 ++ l2) = view h l1 ++ view h l2.
Proof. apply map_app. Qed.

Lemma view_frame (h h' : heap) (l : list loc) :
  (forall x, In x l -> h' x = h x) -> view h' l = view h l.
Proof. intros H. apply map_ext_in. exact H. Qed.

Lemma requested_app (p : Z) (l1 l2 : list TransactionProductsData.t) :
  requested p (l1 ++ l2) = requested p l1 + requested p l2.
Proof. induction l1 as [|v l1 IH]; simpl; [reflexivity | rewrite IH; lia]. Qed.

Lemma requested_perm (p : Z) (l1 l2 : list TransactionProductsData.t) :
  Permutation l1 l2 -> requested p l1 = requested p l2.
Proof. induction 1; simpl; lia. Qed.

Lemma requested_absent (p : Z) (l : list TransactionProductsData.t) :
  ~ In p (product_ids l) -> requested p l = 0.
Proof.
  induction l as [|v l IH]; simpl; intros H; [reflexivity|].
  destruct (TransactionProductsData.product_id v =? p) eqn:E.
  - apply Z.eqb_eq in E. exfalso. apply H. now left.
  - rewrite IH; [reflexivity|]. intros Hin. apply H. now right.
Qed.

(** In a batch with one line per product, a line holds all that is asked
    of its product. *)
Lemma requested_single (l : list TransactionProductsData.t)
    (v : TransactionProductsData.t) :
  NoDup (product_ids l) -> In v l ->
  requested (TransactionProductsData.product_id v) l =
  TransactionProductsData.quantity v.
Proof.
  induction l as [|a l IH]; simpl; intros Hnd Hin; [contradiction|].
  inversion Hnd as [|? ? Ha Hl]; subst. destruct Hin as [->|Hin].
  - rewrite Z.eqb_refl, requested_absent; [lia | assumption].
  - destruct (TransactionProductsData.product_id a =?
              TransactionProductsData.product_id v) eqn:E.
    + apply Z.eqb_eq in E. exfalso. apply Ha. rewrite E.
      unfold product_ids. now apply in_map.
    + rewrite IH; [lia | assumption | assumption].
Qed.

Lemma increasing_snoc_inv (l : list Z) (y : Z) :
  StronglySorted Z.lt (l ++ [y]) -> forall x, In x l -> x < y.
Proof.
  induction l as [|a l IH]; simpl; intros H x Hx; [contradiction|].
  inversion H as [|? ? Hl Ha]; subst. destruct Hx as [<-|Hx].
  - rewrite Forall_forall in Ha. apply Ha. apply in_or_app. right. now left.
  - now apply IH.
Qed.

(** ** The normalizer's loop *)

Section Loop.
(** The product id of every object: the loop never changes it. *)
Variable k : loc -> Z.

Lemma loop_total (todo : list loc) :
  forall (h : heap) (added : list Z) (checked : list loc),
    (added <> [] -> checked <> []) ->
    exists h' out,
      sum_duplicates_loop h added checked todo = Ok (h', out)
      /\ (forall l, pid h' l = pid h l)
      /\ incl checked out
      /\ incl out (checked ++ todo)
      /\ (forall l, ~ In l out -> h' l = h l).
Proof.
  induction todo as [|value rest IH]; intros h added checked Hne; simpl.
  - exists h, checked. repeat split; auto using incl_refl.
    rewrite app_nil_r. apply incl_refl.
  - destruct (mem (pid h value) added) eqn:Em; simpl.
    + destruct (last_item_nonempty checked) as [top Htop].
      { apply Hne. intros ->. discriminate. }
      rewrite Htop.
      destruct (IH (set_quantity h top (qty h top + qty h value))
                  added checked Hne)
        as (h' & out & Hrun & Hpid & Hin & Hout & Hframe).
      exists h', out. repeat split; try assumption.
      * intros l. rewrite Hpid. apply pid_set_quantity.
      * intros l Hl. apply Hout in Hl. apply in_app_or in Hl.
        apply in_or_app. destruct Hl; [now left | right; now right].
      * intros l Hl. rewrite (Hframe l Hl). apply set_quantity_other.
        intros ->. apply Hl, Hin.
        destruct (last_item_split _ _ Htop) as [l0 ->].
        apply in_or_app. right. now left.
    + destruct (IH h (added ++ [pid h value]) (checked ++ [value]))
        as (h' & out & Hrun & Hpid & Hin & Hout & Hframe).
      { intros _ E. now destruct checked. }
      exists h', out. repeat split; try assumption.
      * intros l Hl. apply Hin. apply in_or_app. now left.
      * intros l Hl. apply Hout in Hl. now rewrite <- app_assoc in Hl.
Qed.

(** Which objects are kept: those already kept, and the first object of
    every product not met before. *)
Lemma loop_keeps_first (todo : list loc) :
  forall (h h' : heap) (added : list Z) (checked out : list loc),
    sum_duplicates_loop h added checked todo = Ok (h', out) ->
    (forall l, pid h l = k l) ->
    forall p,
      filter (fun l => k l =? p) out =
      filter (fun l => k l =? p) checked
      ++ (if mem p added then []
          else firstn 1 (filter (fun l => k l =? p) todo)).
Proof.
  induction todo as [|value rest IH];
    intros h h' added checked out Hrun Hk p; simpl in Hrun.
  - injection Hrun as <- <-. simpl. destruct (mem p added); simpl;
      now rewrite app_nil_r.
  - rewrite Hk in Hrun.
    destruct (mem (k value) added) eqn:Em; simpl in Hrun.
    + destruct (last_item checked) as [top|]; [|discriminate].
      rewrite (IH _ _ _ _ _ Hrun); clear IH.
      2:{ intros l. rewrite pid_set_quantity. apply Hk. }
      f_equal. simpl. destruct (k value =? p) eqn:E; [|reflexivity].
      apply Z.eqb_eq in E. subst p. now rewrite Em.
    + rewrite (IH _ _ _ _ _ Hrun Hk); clear IH.
      rewrite filter_app, mem_app, <- app_assoc. f_equal. simpl.
      destruct (k value =? p) eqn:E.
      * apply Z.eqb_eq in E. subst p. rewrite Em. simpl.
        now rewrite Z.eqb_refl.
      * rewrite Z.eqb_sym, E, orb_false_r. reflexivity.
Qed.

(** On a payload in order, the kept objects have strictly increasing
    product ids. *)
Lemma loop_increasing (todo : list loc) :
  forall (h h' : heap) (added : list Z) (checked out : list loc),
    sum_duplicates_loop h added checked todo = Ok (h', out) ->
    (forall l, pid h l = k l) ->
    added = map k checked ->
    StronglySorted Z.lt (map k checked) ->
    StronglySorted Z.le (map k todo) ->
    (forall c t, In c checked -> In t todo -> k c <= k t) ->
    StronglySorted Z.lt (map k out).
Proof.
  induction todo as [|value rest IH];
    intros h h' added checked out Hrun Hk Hadded Hinc Hasc Hcross;
    simpl in Hrun.
  - now injection Hrun as <- <-.
  - rewrite Hk in Hrun. simpl in Hasc.
    inversion Hasc as [|? ? Hrest Hvalue]; subst.
    destruct (mem (k value) (map k checked)) eqn:Em; simpl in Hrun.
    + destruct (last_item checked) as [top|]; [|discriminate].
      apply (IH _ _ _ _ _ Hrun); auto.
      * intros l. rewrite pid_set_quantity. apply Hk.
      * intros c t Hc Ht. apply Hcross; [assumption | now right].
    + apply mem_false in Em.
      apply (IH _ _ _ _ _ Hrun); auto.
      * now rewrite map_app.
      * rewrite map_app. apply increasing_snoc; [assumption|].
        intros x Hx. assert (x <> k value) by (intros ->; contradiction).
        apply in_map_iff in Hx. destruct Hx as [c [<- Hc]].
        specialize (Hcross c value Hc (or_introl eq_refl)). lia.
      * intros c t Hc Ht. apply in_app_or in Hc.
        destruct Hc as [Hc|[<-|[]]].
        -- apply Hcross; [assumption | now right].
        -- rewrite Forall_forall in Hvalue. apply Hvalue.
           now apply in_map.
Qed.

(** On a payload in order and without aliases, the kept objects hold, for
    every product, all that was asked of it. *)
Lemma loop_sums (todo : list loc) :
  forall (h h' : heap) (added : list Z) (checked out : list loc),
    sum_duplicates_loop h added checked todo = Ok (h', out) ->
    (forall l, pid h l = k l) ->
    added = map k checked ->
    StronglySorted Z.lt (map k checked) ->
    StronglySorted Z.le (map k todo) ->
    (forall c t, In c checked -> In t todo -> k c <= k t) ->
    NoDup (checked ++ todo) ->
    forall p,
      requested p (view h' out) =
      requested p (view h checked) + requested p (view h todo).
Proof.
  induction todo as [|value rest IH];
    intros h h' added checked out Hrun Hk Hadded Hinc Hasc Hcross Hnd p;
    simpl in Hrun.
  - injection Hrun as <- <-. simpl. lia.
  - rewrite Hk in Hrun. simpl in Hasc.
    inversion Hasc as [|? ? Hrest Hvalue]; subst.
    destruct (mem (k value) (map k checked)) eqn:Em; simpl in Hrun.
    + destruct (last_item checked) as [top|] eqn:Htop; [|discriminate].
      destruct (last_item_split _ _ Htop) as [init ->].
      assert (Hktop : k top = k value).
      { apply mem_In in Em. rewrite map_app in Em, Hinc.
        apply in_app_or in Em. destruct Em as [Em|[Em|[]]]; [|exact Em].
        pose proof (increasing_snoc_inv _ _ Hinc _ Em).
        assert (k top <= k value).
        { apply Hcross; [|now left]. apply in_or_app. right. now left. }
        lia. }
      assert (Htop_rest : ~ In top rest).
      { intros Hin. rewrite <- app_assoc in Hnd.
        apply NoDup_app_remove_l in Hnd. simpl in Hnd.
        inversion Hnd as [|? ? Hn _]; subst. apply Hn. now right. }
      assert (Htop_value : top <> value).
      { intros ->. rewrite <- app_assoc in Hnd.
        apply NoDup_app_remove_l in Hnd. simpl in Hnd.
        inversion Hnd as [|? ? Hn _]; subst. apply Hn. now left. }
      assert (Htop_init : ~ In top init).
      { intros Hin. apply NoDup_app_remove_r in Hnd.
        apply NoDup_remove_2 in Hnd. apply Hnd.
        rewrite app_nil_r. exact Hin. }
      rewrite (IH _ _ _ _ _ Hrun); auto; clear IH.
      * set (h2 := set_quantity h top (qty h top + qty h value)).
        rewrite (view_frame h h2 rest).
        2:{ intros x Hx. apply set_quantity_other. intros ->. contradiction. }
        rewrite !view_app, !requested_app.
        rewrite (view_frame h h2 init).
        2:{ intros x Hx. apply set_quantity_other. intros ->. contradiction. }
        simpl. fold (pid h2 top) (qty h2 top) (pid h top) (qty h top)
                 (pid h value) (qty h value).
        unfold h2 at 1 2. rewrite pid_set_quantity, qty_set_quantity.
        rewrite !Hk, Hktop. destruct (k value =? p); lia.
      * intros l. rewrite pid_set_quantity. apply Hk.
      * intros c t Hc Ht. apply Hcross; [assumption | now right].
      * now apply NoDup_remove_1 in Hnd.
    + apply mem_false in Em.
      rewrite (IH _ _ _ _ _ Hrun Hk); clear IH.
      * rewrite view_app, requested_app. simpl. lia.
      * now rewrite map_app.
      * rewrite map_app. apply increasing_snoc; [assumption|].
        intros x Hx. assert (x <> k value) by (intros ->; contradiction).
        apply in_map_iff in Hx. destruct Hx as [c [<- Hc]].
        specialize (Hcross c value Hc (or_introl eq_refl)). lia.
      * assumption.
      * intros c t Hc Ht. apply in_app_or in Hc.
        destruct Hc as [Hc|[<-|[]]].
        -- apply Hcross; [assumption | now right].
        -- rewrite Forall_forall in Hvalue. apply Hvalue.
           now apply in_map.
      * now rewrite <- app_assoc.
Qed.
End Loop.

(** A payload whose product ids strictly increase is returned as it is, and
    no object is written. *)
Lemma loop_on_increasing (todo : list loc) :
  forall (h : heap) (added : list Z) (checked : list loc),
    added = map (pid h) checked ->
    StronglySorted Z.lt (map (pid h) todo) ->
    (forall c t, In c checked -> In t todo -> pid h c < pid h t) ->
    sum_duplicates_loop h added checked todo = Ok (h, checked ++ todo).
Proof.
  induction todo as [|value rest IH]; intros h added checked Hadded Hinc Hlt;
    simpl.
  - now rewrite app_nil_r.
  - simpl in Hinc. inversion Hinc as [|? ? Hrest Hvalue]; subst.
    assert (Em : mem (pid h value) (map (pid h) checked) = false).
    { apply mem_false. intros Hin. apply in_map_iff in Hin.
      destruct Hin as [c [E Hc]].
      specialize (Hlt c value Hc (or_introl eq_refl)). lia. }
    rewrite Em. simpl. rewrite IH.
    + now rewrite <- app_assoc.
    + now rewrite map_app.
    + assumption.
    + intros c t Hc Ht. apply in_app_or in Hc. destruct Hc as [Hc|[<-|[]]].
      * apply Hlt; [assumption | now right].
      * rewrite Forall_forall in Hvalue. apply Hvalue. now apply in_map.
Qed.

Lemma increasing_le (l : list Z) :
  StronglySorted Z.lt l -> StronglySorted Z.le l.
Proof.
  induction 1 as [|a l Hl IH Ha]; constructor; [assumption|].
  rewrite Forall_forall in *. intros x Hx. specialize (Ha _ Hx). lia.
Qed.

(** ** The normalizer *)

(** What a run of the normalizer does, for every store and payload. *)
Lemma normalizer_runs (h : heap) (payload : list loc) :
  exists h' out,
    _sort_by_id_check_and_sum_duplicates h payload = Ok (h', out)
    /\ (forall l, pid h' l = pid h l)
    /\ incl out payload
    /\ (forall l, ~ In l out -> h' l = h l)
    /\ StronglySorted Z.lt (map (pid h') out)
    /\ (forall p, filter (fun l => pid h l =? p) out =
                  firstn 1 (filter (fun l => pid h l =? p) payload))
    /\ (NoDup payload ->
        forall p, requested p (view h' out) = requested p (view h payload)).
Proof.
  unfold _sort_by_id_check_and_sum_duplicates.
  destruct (loop_total (sorted (pid h) payload) h [] [])
    as (h' & out & Hrun & Hpid & _ & Hout & Hframe); [congruence|].
  exists h', out. rewrite Hrun. repeat split; try assumption.
  - intros l Hl. apply Hout in Hl. simpl in Hl.
    now apply (Permutation_in _ (sorted_perm (pid h) payload)).
  - rewrite (map_ext _ _ Hpid).
    apply (loop_increasing (pid h) _ _ _ _ _ _ Hrun); auto.
    + constructor.
    + apply sorted_ascending.
    + intros c t [].
  - intros p.
    rewrite (loop_keeps_first (pid h) _ _ _ _ _ _ Hrun (fun l => eq_refl) p).
    simpl. now rewrite sorted_stable.
  - intros Hnd p.
    rewrite (loop_sums (pid h) _ _ _ _ _ _ Hrun); auto.
    + simpl. apply requested_perm. unfold view. apply Permutation_map.
      apply sorted_perm.
    + constructor.
    + apply sorted_ascending.
    + intros c t [].
    + simpl. apply (Permutation_NoDup (Permutation_sym (sorted_perm _ _))).
      exact Hnd.
Qed.

Lemma product_ids_view (h : heap) (l : list loc) :
  product_ids (view h l) = map (pid h) l.
Proof. unfold product_ids, view. now rewrite map_map. Qed.

(** The product ids the kept objects name are those of the payload. *)
Lemma kept_ids (h : heap) (payload out : list loc) :
  (forall p, filter (fun l => pid h l =? p) out =
             firstn 1 (filter (fun l => pid h l =? p) payload)) ->
  forall p, In p (map (pid h) out) <-> In p (map (pid h) payload).
Proof.
  intros Hf p. rewrite !in_map_iff. split; intros [l [E Hl]].
  - assert (Hin : In l (filter (fun l => pid h l =? p) out)).
    { apply filter_In. split; [assumption | now apply Z.eqb_eq]. }
    rewrite Hf in Hin.
    destruct (filter (fun l => pid h l =? p) payload) as [|x f] eqn:Ef;
      [destruct Hin|].
    simpl in Hin. destruct Hin as [<-|[]].
    assert (Hx : In x (filter (fun l => pid h l =? p) payload))
      by (rewrite Ef; now left).
    apply filter_In in Hx. exists x. split; [assumption | apply Hx].
  - assert (Hin : In l (filter (fun l => pid h l =? p) payload)).
    { apply filter_In. split; [assumption | now apply Z.eqb_eq]. }
    destruct (filter (fun l => pid h l =? p) payload) as [|x f] eqn:Ef;
      [destruct Hin|].
    assert (Hx : In x (filter (fun l => pid h l =? p) out))
      by (rewrite Hf, Ef; simpl; now left).
    apply filter_In in Hx. destruct Hx as [Hx Ex]. apply Z.eqb_eq in Ex.
    now exists x.
Qed.

(** C3. The normalizer returns, for every payload of distinct line-item
    objects, a batch with strictly increasing product ids (so at most one
    entry per product, in ascending order), naming exactly the requested
    products, in which every entry's quantity is the sum of the quantities
    requested of its product; [(P1,3),(P1,2)] gives the batch [(P1,5)], which
    is also what the single line [(P1,5)] gives. *)
Theorem normalizer_merges_duplicates (h : heap) (payload : list loc)
    (Hdistinct : NoDup payload) :
  exists h' out,
    _sort_by_id_check_and_sum_duplicates h payload = Ok (h', out)
    /\ StronglySorted Z.lt (product_ids (view h' out))
    /\ NoDup (product_ids (view h' out))
    /\ (forall p, In p (product_ids (view h' out)) <->
                  In p (product_ids (view h payload)))
    /\ (forall v, In v (view h' out) ->
          TransactionProductsData.quantity v =
          requested (TransactionProductsData.product_id v) (view h payload))
    /\ (forall a b P1,
          payload = [a; b] -> h a = line P1 3 -> h b = line P1 2 ->
          view h' out = [line P1 5])
    /\ (forall c P1 q,
          payload = [c] -> h c = line P1 q -> view h' out = [line P1 q]).
Proof.
  destruct (normalizer_runs h payload)
    as (h' & out & Hrun & Hpid & Hin & Hframe & Hinc & Hfirst & Hsum).
  exists h', out. rewrite product_ids_view.
  split; [exact Hrun|]. split; [exact Hinc|].
  split; [now apply increasing_NoDup|].
  assert (Hq : forall v, In v (view h' out) ->
            TransactionProductsData.quantity v =
            requested (TransactionProductsData.product_id v) (view h payload)).
  { intros v Hv. rewrite <- (Hsum Hdistinct). symmetry.
    apply requested_single; [|exact Hv].
    rewrite product_ids_view. now apply increasing_NoDup. }
  split; [|split; [exact Hq|]].
  - intros p. rewrite product_ids_view, (map_ext _ _ Hpid).
    now apply kept_ids.
  - split.
    + intros a b P1 -> Ha Hb.
      unfold _sort_by_id_check_and_sum_duplicates in Hrun. simpl in Hrun.
      unfold pid in Hrun. rewrite Ha, Hb in Hrun. simpl in Hrun.
      rewrite Z.leb_refl in Hrun. simpl in Hrun.
      unfold pid in Hrun. rewrite Ha, Hb in Hrun. simpl in Hrun.
      rewrite Z.eqb_refl in Hrun. simpl in Hrun.
      injection Hrun as <- <-. simpl. f_equal.
      unfold set_quantity, qty. rewrite Nat.eqb_refl, Ha, Hb. reflexivity.
    + intros c P1 q -> Hc.
      unfold _sort_by_id_check_and_sum_duplicates in Hrun. simpl in Hrun.
      injection Hrun as <- <-. simpl. now rewrite Hc.
Qed.

Lemma normalizer_merges_duplicates_witness :
  NoDup [0%nat; 1%nat] /\
  exists h' out,
    _sort_by_id_check_and_sum_duplicates
      (heap_of [line 1 3; line 1 2]) [0%nat; 1%nat] = Ok (h', out)
    /\ view h' out = [line 1 5].
Proof.
  assert (Hnd : NoDup [0%nat; 1%nat]).
  { constructor; [simpl; intros [H|[]]; discriminate|].
    constructor; [intros []|constructor]. }
  split; [exact Hnd|].
  destruct (normalizer_merges_duplicates
              (heap_of [line 1 3; line 1 2]) [0%nat; 1%nat] Hnd)
    as (h' & out & Hrun & _ & _ & _ & _ & Hex & _).
  exists h', out. split; [exact Hrun|].
  exact (Hex 0%nat 1%nat 1 eq_refl eq_refl eq_refl).
Defined.

(** C7. Normalizing the batch the normalizer returned gives that batch
    again, and changes no object. *)
Theorem normalizer_idempotent (h : heap) (payload : list loc) :
  exists h' out,
    _sort_by_id_check_and_sum_duplicates h payload = Ok (h', out)
    /\ _sort_by_id_check_and_sum_duplicates h' out = Ok (h', out).
Proof.
  destruct (normalizer_runs h payload)
    as (h' & out & Hrun & _ & _ & _ & Hinc & _).
  exists h', out. split; [exact Hrun|].
  unfold _sort_by_id_check_and_sum_duplicates.
  rewrite sorted_fixed by now apply increasing_le.
  now apply (loop_on_increasing out h' [] []).
Qed.

Lemma requested_filter (h : heap) (p : Z) (l : list loc) :
  requested p (view h l) =
  requested p (view h (filter (fun x => pid h x =? p) l)).
Proof.
  induction l as [|x l IH]; [reflexivity|].
  simpl. fold (pid h x). destruct (pid h x =? p) eqn:E; simpl.
  - fold (pid h x). rewrite E, IH. reflexivity.
  - rewrite IH. reflexivity.
Qed.

Lemma filter_absent (h : heap) (p : Z) (l : list loc) :
  ~ In p (map (pid h) l) -> filter (fun x => pid h x =? p) l = [].
Proof.
  induction l as [|x l IH]; simpl; intros H; [reflexivity|].
  destruct (pid h x =? p) eqn:E.
  - apply Z.eqb_eq in E. exfalso. apply H. now left.
  - apply IH. intros Hin. apply H. now right.
Qed.



(** ** The validation gates *)

Lemma sign_check_loop_spec (bad : Z -> bool) (h : heap) (payload : list loc) :
  forall products_ids invalid_stock_ids,
    sign_check_loop bad h products_ids invalid_stock_ids payload =
    (products_ids ++ map (pid h) payload,
     invalid_stock_ids
     ++ map (pid h) (filter (fun l => bad (qty h l)) payload)).
Proof.
  induction payload as [|value rest IH]; intros ids inv; simpl.
  - now rewrite !app_nil_r.
  - rewrite IH. rewrite <- app_assoc. simpl.
    destruct (bad (qty h value)); simpl; [|reflexivity].
    now rewrite <- app_assoc.
Qed.

Lemma nonempty_length {A} (l : list A) :
  (0 <? length l)%nat = match l with [] => false | _ => true end.
Proof. now destruct l. Qed.

Lemma greater_than_zero_spec (h : heap) (payload : list loc) :
  _check_if_products_payload_is_greater_than_zero h payload =
  match map (pid h) (filter (fun l => qty h l <=? 0) payload) with
  | [] => Ok (map (pid h) payload)
  | offenders => Raise (InvalidStockQuantity (Ids offenders))
  end.
Proof.
  unfold _check_if_products_payload_is_greater_than_zero.
  rewrite sign_check_loop_spec. simpl. rewrite nonempty_length.
  now destruct (map (pid h) (filter (fun l => qty h l <=? 0) payload)).
Qed.

Lemma enough_stock_loop_spec (h : heap) (pairs : list (Product.t * loc)) :
  forall invalid_stock_ids,
    enough_stock_loop h invalid_stock_ids pairs =
    invalid_stock_ids
    ++ map (fun pr => Product.id (fst pr))
         (filter (fun pr => qty h (snd pr) >? Product.inventory (fst pr))
            pairs).
Proof.
  induction pairs as [|[p_found p_payload] rest IH]; intros inv; simpl.
  - now rewrite app_nil_r.
  - rewrite IH. destruct (qty h p_payload >? Product.inventory p_found);
      simpl; [|reflexivity].
    now rewrite <- app_assoc.
Qed.

Lemma enough_stock_spec (h : heap) (products_found : list Product.t)
    (products_payload : list loc) :
  _check_if_stock_has_enough_outgoing_quantity h products_found
    products_payload =
  match map (fun pr => Product.id (fst pr))
          (filter (fun pr => qty h (snd pr) >? Product.inventory (fst pr))
             (combine products_found products_payload)) with
  | [] => Ok tt
  | offenders => Raise (NotEnoughStockQuantity (Ids offenders))
  end.
Proof.
  unfold _check_if_stock_has_enough_outgoing_quantity.
  rewrite enough_stock_loop_spec. simpl. rewrite nonempty_length.
  now destruct (map _ _).
Qed.

(** ** The product lookup gate *)

Lemma filter_all {A} (f : A -> bool) (l : list A) :
  (forall x, In x l -> f x = true) -> filter f l = l.
Proof.
  induction l as [|y l IH]; simpl; intros H; [reflexivity|].
  rewrite (H y (or_introl eq_refl)). f_equal. apply IH.
  intros x Hx. apply H. now right.
Qed.

Lemma remove_first_NoDup (x : Z) (l : list Z) :
  NoDup l -> remove_first x l = filter (fun i => negb (i =? x)) l.
Proof.
  induction l as [|y l IH]; simpl; intros H; [reflexivity|].
  inversion H as [|? ? Hy Hl]; subst.
  destruct (y =? x) eqn:E; simpl.
  - apply Z.eqb_eq in E. subst y. symmetry. apply filter_all.
    intros i Hi. apply negb_true_iff, Z.eqb_neq. intros ->. contradiction.
  - now rewrite IH.
Qed.

Lemma filter_filter {A} (f g : A -> bool) (l : list A) :
  filter f (filter g l) = filter (fun x => g x && f x) l.
Proof.
  induction l as [|y l IH]; simpl; [reflexivity|].
  destruct (g y); simpl; [destruct (f y)|]; now rewrite IH.
Qed.

(** What is left of the requested ids once every resolved id has been
    removed: the ids that did not resolve, in their order. *)
Lemma unresolved_loop_spec (products_found : list Product.t) :
  forall payload_products_id,
    NoDup payload_products_id ->
    unresolved_loop payload_products_id products_found =
    filter (fun i => negb (mem i (map Product.id products_found)))
      payload_products_id.
Proof.
  induction products_found as [|p_found rest IH]; intros ids Hnd; simpl.
  - symmetry. now apply filter_all.
  - destruct (mem (Product.id p_found) ids) eqn:Em.
    + rewrite IH, remove_first_NoDup, filter_filter by
        (try rewrite remove_first_NoDup by assumption;
         try apply NoDup_filter; assumption).
      apply filter_ext. intros i. unfold mem at 2. simpl.
      rewrite (Z.eqb_sym i). fold (mem i (map Product.id rest)).
      now destruct (Product.id p_found =? i).
    + rewrite IH by assumption. apply filter_ext_in. intros i Hi.
      unfold mem at 2. simpl. fold (mem i (map Product.id rest)).
      apply mem_false in Em.
      destruct (i =? Product.id p_found) eqn:E; [|reflexivity].
      apply Z.eqb_eq in E. subst i. contradiction.
Qed.

Lemma filter_none {A} (f : A -> bool) (l : list A) :
  (forall x, In x l -> f x = false) -> filter f l = [].
Proof.
  induction l as [|y l IH]; simpl; intros H; [reflexivity|].
  rewrite (H y (or_introl eq_refl)). apply IH.
  intros x Hx. apply H. now right.
Qed.

Lemma NoDup_map_filter {A} (f : A -> Z) (g : A -> bool) (l : list A) :
  NoDup (map f l) -> NoDup (map f (filter g l)).
Proof.
  induction l as [|y l IH]; simpl; intros H; [constructor|].
  inversion H as [|? ? Hy Hl]; subst.
  destruct (g y); simpl; [|now apply IH].
  constructor; [|now apply IH].
  intros Hin. apply Hy. apply in_map_iff in Hin.
  destruct Hin as [x [E Hx]]. apply filter_In in Hx.
  rewrite <- E. apply in_map. apply Hx.
Qed.

Lemma ascending_NoDup_increasing (l : list Z) :
  StronglySorted Z.le l -> NoDup l -> StronglySorted Z.lt l.
Proof.
  induction 1 as [|a l Hl IH Ha]; intros Hnd; constructor.
  - apply IH. now inversion Hnd.
  - inversion Hnd as [|? ? Hn _]; subst. rewrite Forall_forall in *.
    intros x Hx. specialize (Ha _ Hx).
    assert (x <> a) by (intros ->; contradiction). lia.
Qed.

Section Lookup.
Variable db : Db.t.
Variable ids : list Z.

Lemma found_In (p : Product.t) :
  In p (products_by_ids db ids) <->
  In p (Db.products db) /\ In (Product.id p) ids.
Proof.
  unfold products_by_ids. rewrite <- mem_In.
  rewrite <- (filter_In (fun p => mem (Product.id p) ids)).
  split; intros H.
  - now apply (Permutation_in _ (sorted_perm Product.id _)).
  - now apply (Permutation_in _
                 (Permutation_sym (sorted_perm Product.id _))).
Qed.

Lemma found_ids_In (i : Z) :
  In i (map Product.id (products_by_ids db ids)) <->
  In i (map Product.id (Db.products db)) /\ In i ids.
Proof.
  rewrite !in_map_iff. split.
  - intros [p [<- Hp]]. apply found_In in Hp. split; [|apply Hp].
    exists p. split; [reflexivity | apply Hp].
  - intros [[p [<- Hp]] Hi]. exists p. split; [reflexivity|].
    now apply found_In.
Qed.

Hypothesis primary_key : NoDup (map Product.id (Db.products db)).

Lemma found_ids_NoDup : NoDup (map Product.id (products_by_ids db ids)).
Proof.
  unfold products_by_ids.
  apply (Permutation_NoDup
           (Permutation_map _
              (Permutation_sym (sorted_perm Product.id _)))).
  now apply NoDup_map_filter.
Qed.

Lemma found_ids_increasing :
  StronglySorted Z.lt (map Product.id (products_by_ids db ids)).
Proof.
  apply ascending_NoDup_increasing; [apply sorted_ascending|].
  apply found_ids_NoDup.
Qed.

Hypothesis distinct_ids : NoDup ids.

(** The lengths agree exactly when every requested id resolves. *)
Lemma found_all_iff :
  length (products_by_ids db ids) = length ids <->
  (forall i, In i ids -> In i (map Product.id (Db.products db))).
Proof.
  split.
  - intros Hlen i Hi.
    assert (Hincl : incl ids (map Product.id (products_by_ids db ids))).
    { apply NoDup_length_incl; [apply found_ids_NoDup | |].
      - rewrite length_map. lia.
      - intros x Hx. now apply found_ids_In in Hx. }
    apply Hincl in Hi. now apply found_ids_In in Hi.
  - intros Hall. apply Nat.le_antisymm.
    + rewrite <- (length_map Product.id).
      apply NoDup_incl_length; [apply found_ids_NoDup|].
      intros x Hx. now apply found_ids_In in Hx.
    + rewrite <- (length_map Product.id (products_by_ids db ids)).
      apply NoDup_incl_length; [assumption|].
      intros x Hx. apply found_ids_In. auto.
Qed.

(** The gate returns the rows when every id resolves, and otherwise
    raises with the ids that do not resolve, in the order requested. *)
Lemma lookup_spec :
  _get_products_from_database db ids =
  match filter (fun i => negb (mem i (map Product.id (Db.products db))))
          ids with
  | [] => Ok (products_by_ids db ids)
  | unresolved => Raise (ItensNotFound (Ids unresolved))
  end.
Proof.
  unfold _get_products_from_database.
  destruct (Nat.eqb (length (products_by_ids db ids)) (length ids)) eqn:E;
    simpl.
  - apply Nat.eqb_eq in E. pose proof (proj1 found_all_iff E) as Hall.
    rewrite filter_none; [reflexivity|].
    intros i Hi. apply negb_false_iff, mem_In. auto.
  - rewrite unresolved_loop_spec by assumption.
    rewrite (filter_ext_in _
               (fun i => negb (mem i (map Product.id (Db.products db))))).
    2:{ intros i Hi. f_equal.
        destruct (mem i (map Product.id (Db.products db))) eqn:Em.
        - apply mem_In. apply found_ids_In. split; [now apply mem_In|auto].
        - apply mem_false. intros H. apply found_ids_In in H.
          apply mem_false in Em. tauto. }
    destruct (filter _ ids) as [|u us] eqn:Ef; [|reflexivity].
    exfalso. apply Nat.eqb_neq in E. apply E, found_all_iff.
    intros i Hi. apply mem_In.
    destruct (mem i (map Product.id (Db.products db))) eqn:Em;
      [reflexivity|].
    assert (H : In i (filter (fun i => negb (mem i
                (map Product.id (Db.products db)))) ids)).
    { apply filter_In. split; [assumption | now rewrite Em]. }
    rewrite Ef in H. destruct H.
Qed.

(** When every id resolves and the ids come in increasing order, the
    rows returned pair up with the ids position by position. *)
Lemma found_ids_eq :
  StronglySorted Z.lt ids -> length (products_by_ids db ids) = length ids ->
  map Product.id (products_by_ids db ids) = ids.
Proof.
  intros Hinc Hlen. apply increasing_unique;
    [apply found_ids_increasing | assumption |].
  intros i. split; intros Hi.
  - now apply found_ids_In in Hi.
  - apply found_ids_In. split; [|assumption].
    now apply found_all_iff.
Qed.
End Lookup.

(** C6. The batch errors carry every offender. The positive-quantity check
    raises [InvalidStockQuantity] with the ids of all lines whose quantity is
    not strictly positive; the lookup gate, given distinct ids, raises
    [ItensNotFound] with exactly the requested ids that no product has, in
    the order requested; the stock check raises [NotEnoughStockQuantity]
    with the ids of all products asked for more than their inventory. Each
    raises only when its list of offenders is not empty. *)
Theorem batch_errors_report_every_offender
    (h : heap) (db : Db.t) (payload : list loc) (ids : list Z)
    (products_found : list Product.t)
    (Hkey : NoDup (map Product.id (Db.products db)))
    (Hids : NoDup ids) :
  _check_if_products_payload_is_greater_than_zero h payload =
    match map (pid h) (filter (fun l => qty h l <=? 0) payload) with
    | [] => Ok (map (pid h) payload)
    | offenders => Raise (InvalidStockQuantity (Ids offenders))
    end
  /\ _get_products_from_database db ids =
    match filter (fun i => negb (mem i (map Product.id (Db.products db))))
            ids with
    | [] => Ok (products_by_ids db ids)
    | unresolved => Raise (ItensNotFound (Ids unresolved))
    end
  /\ _check_if_stock_has_enough_outgoing_quantity h products_found payload =
    match map (fun pr => Product.id (fst pr))
            (filter (fun pr => qty h (snd pr) >? Product.inventory (fst pr))
               (combine products_found payload)) with
    | [] => Ok tt
    | offenders => Raise (NotEnoughStockQuantity (Ids offenders))
    end.
Proof.
  split; [apply greater_than_zero_spec|].
  split; [now apply lookup_spec | apply enough_stock_spec].
Qed.

Lemma batch_errors_report_every_offender_witness :
  NoDup (map Product.id (Db.products (db_of four_products)))
  /\ NoDup [1; 9; 3; 8]
  /\ _check_if_products_payload_is_greater_than_zero mixed_lines
       [0%nat; 1%nat; 2%nat; 3%nat]
     = Raise (InvalidStockQuantity (Ids [1; 2]))
  /\ _get_products_from_database (db_of four_products) [1; 9; 3; 8]
     = Raise (ItensNotFound (Ids [9; 8]))
  /\ _check_if_stock_has_enough_outgoing_quantity mixed_lines
       (products_by_ids (db_of four_products) [1; 2; 3; 4])
       [0%nat; 1%nat; 2%nat; 3%nat]
     = Raise (NotEnoughStockQuantity (Ids [3; 4])).
Proof.
  assert (Hkey : NoDup (map Product.id (Db.products (db_of four_products)))).
  { simpl. repeat constructor; simpl; intuition discriminate. }
  assert (Hids : NoDup [1; 9; 3; 8]).
  { repeat constructor; simpl; intuition discriminate. }
  split; [exact Hkey|]. split; [exact Hids|].
  destruct (batch_errors_report_every_offender mixed_lines
              (db_of four_products)
              [0%nat; 1%nat; 2%nat; 3%nat] [1; 9; 3; 8]
              (products_by_ids (db_of four_products) [1; 2; 3; 4])
              Hkey Hids)
    as (H1 & H2 & H3).
  rewrite H1, H2, H3. repeat split.
Defined.

(** ** The inventory update *)

Section BulkUpdate.
Variable rows : list Product.t.
Hypothesis primary_key : NoDup (map Product.id rows).

(** The new value of a row; it keeps the row's id. *)
Variable f : Product.t -> Product.t.
Hypothesis f_id : forall r, Product.id (f r) = Product.id r.

Lemma same_id_same_row (p r : Product.t) :
  In p rows -> In r rows -> Product.id r = Product.id p -> r = p.
Proof.
  clear f f_id. revert primary_key.
  induction rows as [|a l IH]; simpl; intros Hnd Hp Hr E; [contradiction|].
  inversion Hnd as [|? ? Ha Hl]; subst.
  destruct Hp as [->|Hp], Hr as [->|Hr]; auto.
  - exfalso. apply Ha. rewrite <- E. now apply in_map.
  - exfalso. apply Ha. rewrite E. now apply in_map.
Qed.

(** Updating, one after the other, rows of the table by their new values
    gives the table with exactly those rows replaced. *)
Lemma bulk_update_spec (found : list Product.t) :
  (forall p, In p found -> In p rows) ->
  forall done,
    bulk_update_rows (map f found)
      (map (fun r => if mem (Product.id r) done then f r else r) rows) =
    map (fun r => if mem (Product.id r) (done ++ map Product.id found)
                  then f r else r) rows.
Proof.
  unfold bulk_update_rows.
  induction found as [|p found IH]; intros Hin done; simpl.
  - now rewrite app_nil_r.
  - assert (Hstep :
      update_by_id (f p)
        (map (fun r => if mem (Product.id r) done then f r else r) rows) =
      map (fun r => if mem (Product.id r) (done ++ [Product.id p])
                    then f r else r) rows).
    { unfold update_by_id. rewrite map_map. apply map_ext_in.
      intros r Hr. rewrite mem_app. unfold mem at 2. simpl.
      rewrite orb_false_r, f_id.
      assert (Hid : Product.id (if mem (Product.id r) done then f r else r)
                    = Product.id r)
        by (destruct (mem (Product.id r) done); auto).
      rewrite Hid. destruct (Product.id r =? Product.id p) eqn:E.
      - apply Z.eqb_eq in E.
        rewrite (same_id_same_row p r (Hin p (or_introl eq_refl)) Hr E).
        now rewrite orb_true_r.
      - now rewrite orb_false_r. }
    rewrite Hstep, IH by (intros q Hq; apply Hin; now right).
    now rewrite <- app_assoc.
Qed.
End BulkUpdate.

(** The mappings the update builds, when rows and lines pair up by
    product: every row with the quantity asked of its product applied. *)
Lemma paired_mappings (h : heap) (op : Z -> Z -> Z) (total : Z -> Z)
    (found : list Product.t) (checked : list loc) :
  map Product.id found = map (pid h) checked ->
  (forall l, In l checked -> qty h l = total (pid h l)) ->
  map (fun '(p_found, p_payload) =>
         Product.set_inventory p_found
           (op (Product.inventory p_found) (qty h p_payload)))
    (combine found checked) =
  map (fun r => Product.set_inventory r
                  (op (Product.inventory r) (total (Product.id r)))) found.
Proof.
  revert checked. induction found as [|p found IH];
    intros [|l checked] Hids Hq; try discriminate; [reflexivity|].
  simpl in *. injection Hids as Hp Hids.
  rewrite IH by auto. rewrite (Hq l (or_introl eq_refl)), Hp. reflexivity.
Qed.

(** Every kept line holds all that the request asked of its product. *)
Lemma normalized_quantities (h h' : heap) (payload out : list loc) :
  NoDup payload ->
  _sort_by_id_check_and_sum_duplicates h payload = Ok (h', out) ->
  StronglySorted Z.lt (map (pid h') out)
  /\ (forall p, In p (map (pid h') out) <-> In p (map (pid h) payload))
  /\ (forall l, In l out -> qty h' l = requested (pid h' l) (view h payload)).
Proof.
  intros Hnd Hrun.
  destruct (normalizer_runs h payload)
    as (h2 & out2 & Hrun2 & Hpid & _ & _ & Hinc & Hkept & Hsum).
  rewrite Hrun in Hrun2. injection Hrun2 as <- <-.
  split; [exact Hinc|]. split.
  - intros p. rewrite (map_ext _ _ Hpid). now apply kept_ids.
  - intros l Hl. rewrite <- (Hsum Hnd).
    symmetry. apply (requested_single (view h' out) (h' l)).
    + rewrite product_ids_view. now apply increasing_NoDup.
    + unfold view. now apply in_map.
Qed.

(** ** The transaction writer *)

Lemma bulk_update_rowwise (mappings rows : list Product.t) :
  bulk_update_rows mappings rows = map (updated_row mappings) rows.
Proof.
  unfold bulk_update_rows, updated_row. revert rows.
  induction mappings as [|m ms IH]; intros rows; simpl.
  - now rewrite map_id.
  - rewrite IH. unfold update_by_id. now rewrite map_map.
Qed.

Lemma updated_row_id (mappings : list Product.t) (r : Product.t) :
  Product.id (updated_row mappings r) = Product.id r.
Proof.
  unfold updated_row. revert r.
  induction mappings as [|m ms IH]; intros r; simpl; [reflexivity|].
  rewrite IH. destruct (Product.id r =? Product.id m) eqn:E; [|reflexivity].
  apply Z.eqb_eq in E. now rewrite E.
Qed.

Lemma updated_row_snoc (mappings : list Product.t) (m r : Product.t) :
  updated_row (mappings ++ [m]) r =
  if Product.id r =? Product.id m then m else updated_row mappings r.
Proof.
  unfold updated_row at 1. rewrite fold_left_app. simpl.
  fold (updated_row mappings r). now rewrite updated_row_id.
Qed.

(** Sending the same updates a second time changes nothing more. *)
Lemma updated_row_again (mappings : list Product.t) (r : Product.t) :
  updated_row mappings (updated_row mappings r) = updated_row mappings r.
Proof.
  induction mappings as [|m ms IH] using rev_ind; [reflexivity|].
  rewrite !updated_row_snoc.
  destruct (Product.id r =? Product.id m) eqn:E.
  - now rewrite Z.eqb_refl.
  - rewrite updated_row_id, E. exact IH.
Qed.

Lemma bulk_update_again (mappings rows : list Product.t) :
  bulk_update_rows mappings (bulk_update_rows mappings rows)
  = bulk_update_rows mappings rows.
Proof.
  rewrite !bulk_update_rowwise, map_map. apply map_ext.
  intros r. apply updated_row_again.
Qed.

(** The steps of a create, in order, with the world each exception is
    raised in. *)
Lemma create_run (faulty : storage_op -> bool) (user : User.t)
    (req : TransactionCreate.t) (w : world) :
  TransactionCreate.products req <> [] ->
  create faulty user req w =
  let db := Session.working (session w) in
  let ty := TransactionCreate.type req in
  match (match ty with
         | incoming =>
             _check_provider_existence db (TransactionCreate.provider_id req)
         | outgoing => Ok tt
         end) with
  | Raise e => (Raise e, w)
  | Ok _ =>
  match _sort_by_id_check_and_sum_duplicates (objs w)
          (TransactionCreate.products req) with
  | Raise e => (Raise e, w)
  | Ok (h, checked) =>
  let w1 := set_objs w h in
  match _check_if_products_payload_is_greater_than_zero h checked with
  | Raise e => (Raise e, w1)
  | Ok ids =>
  match _get_products_from_database db ids with
  | Raise e => (Raise e, w1)
  | Ok found =>
  match (match ty with
         | incoming => Ok tt
         | outgoing =>
             _check_if_stock_has_enough_outgoing_quantity h found checked
         end) with
  | Raise e => (Raise e, w1)
  | Ok _ =>
  if faulty op_insert then (Raise StorageError, w1) else
  let row :=
    with_id
      (transaction_record req
         (match ty with
          | incoming => TransactionCreate.provider_id req
          | outgoing => None
          end) user (products_transaction_of h checked))
      (next_id (Db.transactions db)) in
  let db1 := Db.add_transaction db row in
  let mappings :=
    map (fun '(p_found, p_payload) =>
           Product.set_inventory p_found
             ((match ty with incoming => Z.add | outgoing => Z.sub end)
                (Product.inventory p_found) (qty h p_payload)))
      (combine found checked) in
  let db2 :=
    Db.set_products db1 (bulk_update_rows mappings (Db.products db)) in
  let pending :=
    set_session w1 (Session.write (Session.committed_as db1) db2) in
  if faulty op_bulk_update then (Raise StorageError, pending) else
  if faulty op_commit then (Raise StorageError, pending)
  else (Ok row, set_session w1 (Session.committed_as db2))
  end end end end end.
Proof.
  intros Hne. unfold create.
  destruct (TransactionCreate.products req) as [|l0 ls] eqn:Eprod;
    [congruence|]. clear Hne.
  change (Nat.eqb (length (l0 :: ls)) 0) with false. cbv iota zeta.
  destruct (TransactionCreate.type req);
    unfold bind, with_db, with_objs, on_objs, _update_products_inventory,
      _update_products_inventory_outgoing, insert, assign_inventories,
      bulk_update_mappings, commit, ret, bind, with_objs.
  - destruct (_check_provider_existence _ _); [|reflexivity].
    destruct (_sort_by_id_check_and_sum_duplicates _ _) as [[h checked]|];
      [|reflexivity].
    simpl objs. simpl session.
    destruct (_check_if_products_payload_is_greater_than_zero _ _);
      [|reflexivity].
    destruct (_get_products_from_database _ _); [|reflexivity].
    destruct (faulty op_insert); [reflexivity|].
    destruct (faulty op_bulk_update); [reflexivity|].
    unfold set_session, set_objs, Session.write, Session.committed_as,
      Db.set_products, Db.add_transaction. simpl.
    rewrite bulk_update_again.
    destruct (faulty op_commit); reflexivity.
  - destruct (_sort_by_id_check_and_sum_duplicates _ _) as [[h checked]|];
      [|reflexivity].
    simpl objs. simpl session.
    destruct (_check_if_products_payload_is_greater_than_zero _ _);
      [|reflexivity].
    destruct (_get_products_from_database _ _); [|reflexivity].
    destruct (_check_if_stock_has_enough_outgoing_quantity _ _ _);
      [|reflexivity].
    destruct (faulty op_insert); [reflexivity|].
    destruct (faulty op_bulk_update); [reflexivity|].
    unfold set_session, set_objs, Session.write, Session.committed_as,
      Db.set_products, Db.add_transaction. simpl.
    rewrite bulk_update_again.
    destruct (faulty op_commit); reflexivity.
Qed.

Lemma set_inventory_same (r : Product.t) :
  Product.set_inventory r (Product.inventory r) = r.
Proof. now destruct r. Qed.

Lemma bulk_update_all (rows found : list Product.t)
    (f : Product.t -> Product.t) :
  NoDup (map Product.id rows) ->
  (forall r, Product.id (f r) = Product.id r) ->
  (forall p, In p found -> In p rows) ->
  (forall r, In r rows -> ~ In (Product.id r) (map Product.id found) ->
     f r = r) ->
  bulk_update_rows (map f found) rows = map f rows.
Proof.
  intros Hkey Hid Hin Hrest.
  pose proof (bulk_update_spec rows Hkey f Hid found Hin []) as H.
  simpl in H. rewrite map_id in H. rewrite H.
  apply map_ext_in. intros r Hr.
  destruct (mem (Product.id r) (map Product.id found)) eqn:Em;
    [reflexivity|].
  symmetry. apply Hrest; [assumption | now apply mem_false].
Qed.

Lemma paired_In (h : heap) (found : list Product.t) (checked : list loc) :
  map Product.id found = map (pid h) checked ->
  forall p, In p found ->
    exists l, In (p, l) (combine found checked) /\ In l checked
              /\ pid h l = Product.id p.
Proof.
  revert checked. induction found as [|a found IH];
    intros [|c checked] E p Hp; try discriminate; [destruct Hp|].
  simpl in E. injection E as Ea E. destruct Hp as [->|Hp].
  - exists c. simpl. auto.
  - destruct (IH checked E p Hp) as (l & H1 & H2 & H3).
    exists l. simpl. auto.
Qed.

Lemma enough_stock_ok (h : heap) (found : list Product.t)
    (checked : list loc) :
  _check_if_stock_has_enough_outgoing_quantity h found checked = Ok tt <->
  (forall p l, In (p, l) (combine found checked) ->
     qty h l <= Product.inventory p).
Proof.
  rewrite enough_stock_spec.
  set (over := filter _ _). split.
  - intros H p l Hin.
    destruct (qty h l >? Product.inventory p) eqn:E;
      [|rewrite Z.gtb_ltb in E; apply Z.ltb_ge in E; exact E].
    assert (Hover : In (p, l) over)
      by (apply filter_In; split; [assumption | exact E]).
    destruct over; [destruct Hover | discriminate].
  - intros H. replace over with (@nil (Product.t * loc)); [reflexivity|].
    symmetry. apply filter_none. intros [p l] Hin. simpl.
    specialize (H p l Hin). rewrite Z.gtb_ltb. now apply Z.ltb_ge.
Qed.

Lemma greater_than_zero_ok (h : heap) (checked : list loc) (ids : list Z) :
  _check_if_products_payload_is_greater_than_zero h checked = Ok ids <->
  ids = map (pid h) checked /\ (forall l, In l checked -> 0 < qty h l).
Proof.
  rewrite greater_than_zero_spec.
  set (bad := filter _ _). split.
  - intros H. destruct bad as [|b bad'] eqn:Eb; [|discriminate].
    simpl in H. injection H as <-. split; [reflexivity|].
    intros l Hl. destruct (qty h l <=? 0) eqn:E;
      [|now apply Z.leb_gt in E].
    assert (Hbad : In l bad)
      by (apply filter_In; split; [assumption | exact E]).
    rewrite Eb in Hbad. destruct Hbad.
  - intros [-> Hpos]. replace bad with (@nil loc); [reflexivity|].
    symmetry. apply filter_none. intros l Hl. apply Z.leb_gt. auto.
Qed.

Lemma lookup_ok (db : Db.t) (ids : list Z) (found : list Product.t) :
  _get_products_from_database db ids = Ok found <->
  found = products_by_ids db ids
  /\ length (products_by_ids db ids) = length ids.
Proof.
  unfold _get_products_from_database.
  destruct (Nat.eqb _ _) eqn:E; simpl.
  - apply Nat.eqb_eq in E. split; [intros [= <-] | intros [-> _]]; auto.
  - apply Nat.eqb_neq in E. split; [discriminate | tauto].
Qed.

(** What a create that returns has done. *)
Lemma create_ok_inv (faulty : storage_op -> bool) (user : User.t)
    (req : TransactionCreate.t) (w w' : world) (resp : Transaction.t) :
  create faulty user req w = (Ok resp, w') ->
  let db := Session.working (session w) in
  let ty := TransactionCreate.type req in
  exists h checked,
    _sort_by_id_check_and_sum_duplicates (objs w)
      (TransactionCreate.products req) = Ok (h, checked)
    /\ (forall l, In l checked -> 0 < qty h l)
    /\ length (products_by_ids db (map (pid h) checked)) = length checked
    /\ (ty = outgoing ->
        forall p l,
          In (p, l) (combine (products_by_ids db (map (pid h) checked))
                       checked) ->
          qty h l <= Product.inventory p)
    /\ Transaction.products_transaction resp
       = products_transaction_of h checked
    /\ Transaction.type resp = ty
    /\ session w' =
       Session.committed_as
         (Db.set_products
            (Db.add_transaction db resp)
            (bulk_update_rows
               (map (fun '(p_found, p_payload) =>
                  Product.set_inventory p_found
                    ((match ty with incoming => Z.add | outgoing => Z.sub end)
                       (Product.inventory p_found) (qty h p_payload)))
                  (combine (products_by_ids db (map (pid h) checked))
                     checked))
               (Db.products db))).
Proof.
  intros Hok db ty.
  assert (Hne : TransactionCreate.products req <> []).
  { intros E. unfold create in Hok. rewrite E in Hok. discriminate. }
  rewrite (create_run faulty user req w Hne) in Hok. cbv zeta in Hok.
  fold db ty in Hok.
  destruct (match ty with incoming => _ | outgoing => _ end) as [[]|];
    [|discriminate].
  destruct (_sort_by_id_check_and_sum_duplicates _ _) as [[h checked]|];
    [|discriminate].
  destruct (_check_if_products_payload_is_greater_than_zero h checked)
    as [ids|] eqn:Echeck; [|discriminate].
  apply greater_than_zero_ok in Echeck. destruct Echeck as [-> Hpos].
  destruct (_get_products_from_database db _) as [found|] eqn:Eget;
    [|discriminate].
  apply lookup_ok in Eget. destruct Eget as [-> Hlen].
  rewrite length_map in Hlen.
  destruct (match ty with incoming => _ | outgoing => _ end) as [[]|]
    eqn:Estock; [|discriminate].
  destruct (faulty op_insert); [discriminate|].
  destruct (faulty op_bulk_update); [discriminate|].
  destruct (faulty op_commit); [discriminate|].
  injection Hok as <- <-.
  exists h, checked. repeat split; try assumption.
  intros Hty. rewrite Hty in Estock. now apply enough_stock_ok.
Qed.

(** The effect of a create that returns. *)
Lemma create_effect (faulty : storage_op -> bool)
    (user : User.t) (req : TransactionCreate.t) (w w' : world)
    (resp : Transaction.t)
    (Hkey : NoDup (map Product.id (Db.products (Session.working (session w)))))
    (Hdistinct : NoDup (TransactionCreate.products req))
    (Hok : create faulty user req w = (Ok resp, w')) :
  let items := view (objs w) (TransactionCreate.products req) in
  let before := Db.products (Session.working (session w)) in
  let after := Db.products (Session.committed (session w')) in
  let sign := match TransactionCreate.type req with
              | incoming => Z.add
              | outgoing => Z.sub
              end in
  after = map (fun r => Product.set_inventory r
                 (sign (Product.inventory r)
                    (requested (Product.id r) items))) before
  /\ NoDup (map TransactionProduct.product_id
              (Transaction.products_transaction resp))
  /\ (forall tp, In tp (Transaction.products_transaction resp) ->
        TransactionProduct.quantity tp =
          requested (TransactionProduct.product_id tp) items
        /\ In (TransactionProduct.product_id tp) (product_ids items)
        /\ In (TransactionProduct.product_id tp) (map Product.id before)
        /\ (forall r, In r before ->
              Product.id r = TransactionProduct.product_id tp ->
              In (Product.set_inventory r
                    (sign (Product.inventory r)
                       (TransactionProduct.quantity tp))) after))
  /\ (TransactionCreate.type req = outgoing ->
      forall r, In r after -> In (Product.id r) (product_ids items) ->
        0 <= Product.inventory r).
Proof.
  intros items before after sign.
  destruct (create_ok_inv _ _ _ _ _ _ Hok)
    as (h & checked & Hrun & Hpos & Hlen & Hstock & Hlines & Hty & Hsession).
  destruct (normalized_quantities _ _ _ _ Hdistinct Hrun)
    as (Hinc & Hids & Hq).
  set (db := Session.working (session w)) in *.
  set (found := products_by_ids db (map (pid h) checked)) in *.
  assert (Hdist : NoDup (map (pid h) checked))
    by now apply increasing_NoDup.
  assert (Hpair : map Product.id found = map (pid h) checked).
  { apply found_ids_eq; try assumption. now rewrite length_map. }
  set (f := fun r => Product.set_inventory r
              (sign (Product.inventory r) (requested (Product.id r) items))).
  assert (Hafter : after = map f before).
  { unfold after. rewrite Hsession. simpl.
    rewrite (paired_mappings h sign (fun i => requested i items))
      by assumption.
    apply bulk_update_all; try assumption.
    - reflexivity.
    - intros p Hp. now apply found_In in Hp.
    - intros r Hr Hno. unfold f. rewrite requested_absent.
      + replace (sign (Product.inventory r) 0) with (Product.inventory r)
          by (unfold sign; destruct (TransactionCreate.type req); lia).
        apply set_inventory_same.
      + unfold items. rewrite product_ids_view, <- Hids, <- Hpair.
        exact Hno. }
  split; [exact Hafter|].
  rewrite Hlines. unfold products_transaction_of. rewrite map_map. simpl.
  split; [exact Hdist|]. split.
  - intros tp Htp. apply in_map_iff in Htp. destruct Htp as [l [<- Hl]].
    simpl. split; [now apply Hq|].
    assert (Hin : In (pid h l) (map (pid h) checked)) by now apply in_map.
    split; [|split].
    + unfold items. rewrite product_ids_view. now apply Hids.
    + rewrite <- Hpair in Hin. apply found_ids_In in Hin. apply Hin.
    + intros r Hr Hid. rewrite Hafter. apply in_map_iff. exists r.
      split; [|exact Hr]. unfold f. now rewrite Hid, (Hq l Hl).
  - intros Hout r Hr Hnamed. rewrite Hafter in Hr.
    apply in_map_iff in Hr. destruct Hr as [r0 [<- Hr0]].
    unfold f, sign in *. rewrite Hout in *. simpl in *.
    assert (Hfound : In r0 found).
    { apply found_In. split; [assumption|].
      apply Hids. unfold items in Hnamed.
      now rewrite product_ids_view in Hnamed. }
    destruct (paired_In h found checked Hpair r0 Hfound)
      as (l & Hpl & Hl & Hpid).
    specialize (Hstock eq_refl r0 l Hpl).
    rewrite (Hq l Hl), Hpid in Hstock. fold items in Hstock. lia.
Qed.

(** C2. After a create that returns, on a table whose ids are a primary
    key and a request of distinct line objects, every product's inventory
    is its prior inventory plus (incoming) or minus (outgoing) the quantity
    the request asks of it, which for the products named is the quantity of
    their one line in the normalized batch; after an outgoing create the
    inventory of every product named is not negative. *)
Theorem create_adjusts_inventory (faulty : storage_op -> bool)
    (user : User.t) (req : TransactionCreate.t) (w w' : world)
    (resp : Transaction.t)
    (Hkey : NoDup (map Product.id (Db.products (Session.working (session w)))))
    (Hdistinct : NoDup (TransactionCreate.products req))
    (Hok : create faulty user req w = (Ok resp, w')) :
  let items := view (objs w) (TransactionCreate.products req) in
  let before := Db.products (Session.working (session w)) in
  let after := Db.products (Session.committed (session w')) in
  let sign := match TransactionCreate.type req with
              | incoming => Z.add
              | outgoing => Z.sub
              end in
  after = map (fun r => Product.set_inventory r
                 (sign (Product.inventory r)
                    (requested (Product.id r) items))) before
  /\ NoDup (map TransactionProduct.product_id
              (Transaction.products_transaction resp))
  /\ (forall tp, In tp (Transaction.products_transaction resp) ->
        TransactionProduct.quantity tp =
          requested (TransactionProduct.product_id tp) items
        /\ In (TransactionProduct.product_id tp) (product_ids items)
        /\ In (TransactionProduct.product_id tp) (map Product.id before)
        /\ (forall r, In r before ->
              Product.id r = TransactionProduct.product_id tp ->
              In (Product.set_inventory r
                    (sign (Product.inventory r)
                       (TransactionProduct.quantity tp))) after))
  /\ (TransactionCreate.type req = outgoing ->
      forall r, In r after -> In (Product.id r) (product_ids items) ->
        0 <= Product.inventory r).
Proof. exact (create_effect faulty user req w w' resp Hkey Hdistinct Hok). Qed.

Lemma create_adjusts_inventory_witness :
  NoDup (map Product.id (Db.products (Session.working (session stocked))))
  /\ NoDup (TransactionCreate.products (request outgoing None 3))
  /\ exists resp w',
       create no_faults user1 (request outgoing None 3) stocked
       = (Ok resp, w')
       /\ Db.products (Session.committed (session w')) =
          [product 2 "b" 4; product 1 "a" 0; product 3 "c" 1].
Proof.
  assert (Hkey : NoDup (map Product.id
                          (Db.products (Session.working (session stocked))))).
  { simpl. repeat constructor; simpl; intuition discriminate. }
  assert (Hdistinct : NoDup (TransactionCreate.products
                               (request outgoing None 3))).
  { simpl. repeat constructor; simpl; intuition discriminate. }
  split; [exact Hkey|]. split; [exact Hdistinct|].
  destruct (create no_faults user1 (request outgoing None 3) stocked)
    as [[resp|e] w'] eqn:Hok; [|vm_compute in Hok; discriminate].
  exists resp, w'. split; [reflexivity|].
  destruct (create_adjusts_inventory no_faults user1 _ stocked w' resp
              Hkey Hdistinct Hok) as [Hafter _].
  rewrite Hafter. reflexivity.
Defined.

Lemma paired_ids (h : heap) (found : list Product.t) (checked : list loc) :
  map Product.id found = map (pid h) checked ->
  forall p l, In (p, l) (combine found checked) ->
    In p found /\ In l checked /\ pid h l = Product.id p.
Proof.
  revert checked. induction found as [|a found IH];
    intros [|c checked] E p l Hin; try discriminate; try destruct Hin.
  - simpl in E. injection E as Ea E. injection H as <- <-. simpl. auto.
  - simpl in E. injection E as Ea E.
    destruct (IH checked E p l H) as (H1 & H2 & H3). simpl. auto.
Qed.

(** C10, as stated, fails where the inventory is zero: a request for the
    whole (empty) stock of a product is refused by the positive-quantity
    check, before the stock check is reached. *)
Lemma exact_request_of_empty_stock_rejected :
  (forall l, In l (TransactionCreate.products (request outgoing None 1)) ->
     exists p,
       In p (Db.products (Session.working (session out_of_stock)))
       /\ Product.id p = pid (objs out_of_stock) l
       /\ requested (pid (objs out_of_stock) l)
            (view (objs out_of_stock)
               (TransactionCreate.products (request outgoing None 1)))
          = Product.inventory p)
  /\ fst (create no_faults user1 (request outgoing None 1) out_of_stock)
     = Raise (InvalidStockQuantity (Ids [1])).
Proof.
  split; [|reflexivity].
  intros l [<-|[]]. exists (product 1 "a" 0). repeat split. now left.
Qed.

(** C10, amended. An outgoing create that asks, of every product it names,
    a strictly positive quantity equal to the product's inventory passes
    the stock check (which flags only a quantity greater than the
    inventory) and, when the storage does not fail, returns, leaving the
    inventory of every product named at exactly 0. *)
Theorem outgoing_exact_stock_succeeds (faulty : storage_op -> bool)
    (user : User.t) (req : TransactionCreate.t) (w : world)
    (Hty : TransactionCreate.type req = outgoing)
    (Hne : TransactionCreate.products req <> [])
    (Hdistinct : NoDup (TransactionCreate.products req))
    (Hkey : NoDup (map Product.id (Db.products (Session.working (session w)))))
    (Hstorage : forall op, faulty op = false)
    (Hexact : forall l, In l (TransactionCreate.products req) ->
       exists p, In p (Db.products (Session.working (session w)))
         /\ Product.id p = pid (objs w) l
         /\ requested (pid (objs w) l)
              (view (objs w) (TransactionCreate.products req))
            = Product.inventory p
         /\ 0 < Product.inventory p) :
  exists h checked resp w',
    _sort_by_id_check_and_sum_duplicates (objs w)
      (TransactionCreate.products req) = Ok (h, checked)
    /\ _check_if_stock_has_enough_outgoing_quantity h
         (products_by_ids (Session.working (session w))
            (map (pid h) checked)) checked = Ok tt
    /\ create faulty user req w = (Ok resp, w')
    /\ (forall r, In r (Db.products (Session.committed (session w'))) ->
          In (Product.id r)
            (product_ids (view (objs w) (TransactionCreate.products req))) ->
          Product.inventory r = 0).
Proof.
  set (db := Session.working (session w)) in *.
  set (items := view (objs w) (TransactionCreate.products req)) in *.
  destruct (normalizer_runs (objs w) (TransactionCreate.products req))
    as (h & checked & Hrun & _).
  destruct (normalized_quantities _ _ _ _ Hdistinct Hrun)
    as (Hinc & Hids & Hq).
  fold items in Hq.
  assert (Hrow : forall i, In i (map (pid h) checked) ->
            exists p, In p (Db.products db) /\ Product.id p = i
              /\ requested i items = Product.inventory p
              /\ 0 < Product.inventory p).
  { intros i Hi. apply Hids in Hi. apply in_map_iff in Hi.
    destruct Hi as [l [<- Hl]].
    destruct (Hexact l Hl) as (p & H1 & H2 & H3 & H4). now exists p. }
  assert (Hdist : NoDup (map (pid h) checked))
    by now apply increasing_NoDup.
  set (found := products_by_ids db (map (pid h) checked)).
  assert (Hlen : length found = length (map (pid h) checked)).
  { apply found_all_iff; try assumption.
    intros i Hi. destruct (Hrow i Hi) as (p & Hp & <- & _).
    now apply in_map. }
  assert (Hpair : map Product.id found = map (pid h) checked)
    by now apply found_ids_eq.
  assert (Hpos : _check_if_products_payload_is_greater_than_zero h checked
                 = Ok (map (pid h) checked)).
  { apply greater_than_zero_ok. split; [reflexivity|].
    intros l Hl. rewrite (Hq l Hl).
    destruct (Hrow (pid h l)) as (p & _ & _ & -> & Hp);
      [now apply in_map | exact Hp]. }
  assert (Hget : _get_products_from_database db (map (pid h) checked)
                 = Ok found) by now apply lookup_ok.
  assert (Hstock : _check_if_stock_has_enough_outgoing_quantity h found
                     checked = Ok tt).
  { apply enough_stock_ok. intros p l Hpl.
    destruct (paired_ids h found checked Hpair p l Hpl) as (Hp & Hl & Hid).
    rewrite (Hq l Hl), Hid.
    destruct (Hrow (Product.id p)) as (p' & Hp' & Hid' & -> & _).
    { rewrite <- Hpair. now apply in_map. }
    apply found_In in Hp.
    rewrite (same_id_same_row _ Hkey p' p Hp' (proj1 Hp) (eq_sym Hid')).
    lia. }
  destruct (create faulty user req w) as [[resp|e] w'] eqn:Hok.
  - exists h, checked, resp, w'.
    split; [exact Hrun|]. split; [exact Hstock|]. split; [reflexivity|].
    destruct (create_effect _ _ _ _ _ _ Hkey Hdistinct Hok) as [Hafter _].
    fold db items in Hafter. rewrite Hty in Hafter.
    intros r Hr Hnamed. rewrite Hafter in Hr. apply in_map_iff in Hr.
    destruct Hr as [r0 [<- Hr0]]. simpl in *.
    destruct (Hrow (Product.id r0)) as (p' & Hp' & Hid' & Hreq & _).
    { apply Hids. unfold items in Hnamed.
      now rewrite product_ids_view in Hnamed. }
    rewrite (same_id_same_row _ Hkey r0 p' Hr0 Hp' Hid') in Hreq.
    lia.
  - exfalso. rewrite (create_run faulty user req w Hne) in Hok.
    cbv zeta in Hok. fold db in Hok. rewrite Hty, Hrun, Hpos, Hget in Hok.
    fold found in Hok. rewrite Hstock, !Hstorage in Hok. discriminate.
Qed.

Lemma outgoing_exact_stock_succeeds_witness :
  exists resp w',
    create no_faults user1 (request outgoing None 3) exactly_stocked
    = (Ok resp, w')
    /\ Db.products (Session.committed (session w')) =
       [product 2 "b" 0; product 1 "a" 0; product 3 "c" 1].
Proof.
  assert (Hne : TransactionCreate.products (request outgoing None 3) <> [])
    by discriminate.
  assert (Hdistinct : NoDup (TransactionCreate.products
                               (request outgoing None 3))).
  { simpl. repeat constructor; simpl; intuition discriminate. }
  assert (Hkey : NoDup (map Product.id
             (Db.products (Session.working (session exactly_stocked))))).
  { simpl. repeat constructor; simpl; intuition discriminate. }
  assert (Hexact : forall l,
            In l (TransactionCreate.products (request outgoing None 3)) ->
            exists p,
              In p (Db.products (Session.working (session exactly_stocked)))
              /\ Product.id p = pid (objs exactly_stocked) l
              /\ requested (pid (objs exactly_stocked) l)
                   (view (objs exactly_stocked)
                      (TransactionCreate.products (request outgoing None 3)))
                 = Product.inventory p
              /\ 0 < Product.inventory p).
  { intros l [<-|[<-|[<-|[]]]].
    - exists (product 1 "a" 10). simpl. intuition lia.
    - exists (product 2 "b" 3). simpl. intuition lia.
    - exists (product 1 "a" 10). simpl. intuition lia. }
  destruct (outgoing_exact_stock_succeeds no_faults user1
              (request outgoing None 3) exactly_stocked eq_refl Hne
              Hdistinct Hkey (fun _ => eq_refl) Hexact)
    as (h & checked & resp & w' & _ & _ & Hok & _).
  exists resp, w'. split; [exact Hok|].
  vm_compute in Hok. injection Hok as _ <-. reflexivity.
Defined.

(** C1, as stated, fails: the insert is committed on its own, so when the
    inventory update that follows it fails, the transaction record is
    observable although the create failed and no inventory changed. *)
Lemma create_not_atomic :
  exists w' row,
    create bulk_update_fails user1 (request incoming None 1)
      (world_of [line 1 5] [product 1 "a" 10])
    = (Raise StorageError, w')
    /\ Db.transactions (Session.committed (session w')) = [row]
    /\ Transaction.products_transaction row =
       [{| TransactionProduct.quantity := 5;
           TransactionProduct.product_id := 1 |}]
    /\ Db.products (Session.committed (session w')) = [product 1 "a" 10].
Proof.
  eexists. eexists. split; [vm_compute; reflexivity|].
  repeat split.
Qed.

(** C1, amended. A create that fails in a check, in the product lookup
    or in the transaction insert leaves the session as it was: no
    transaction record and no inventory change is observable. A create
    that fails in the inventory update - a storage failure after an insert
    that did not fail - leaves the new transaction record, of the
    request's type and with the merged line items, observable in the
    committed table of transactions: the insert was committed on its own.
    The committed inventories are then still those the session held before
    the create. *)
Theorem create_failure_effects (faulty : storage_op -> bool) (user : User.t)
    (req : TransactionCreate.t) (w w' : world) (e : exn)
    (Hfail : create faulty user req w = (Raise e, w')) :
  (faulty op_insert = true \/ e <> StorageError -> session w' = session w)
  /\ (faulty op_insert = false -> e = StorageError ->
      exists row checked,
        _sort_by_id_check_and_sum_duplicates (objs w)
          (TransactionCreate.products req) = Ok (objs w', checked)
        /\ Session.committed (session w') =
           Db.add_transaction (Session.working (session w)) row
        /\ In row (Db.transactions (Session.committed (session w')))
        /\ Transaction.type row = TransactionCreate.type req
        /\ Transaction.products_transaction row =
           products_transaction_of (objs w') checked
        /\ Db.products (Session.committed (session w')) =
           Db.products (Session.working (session w))).
Proof.
  destruct (TransactionCreate.products req) as [|l0 ls] eqn:Eprod.
  { unfold create in Hfail. rewrite Eprod in Hfail.
    injection Hfail as <- <-. split; [reflexivity | discriminate]. }
  assert (Hne : TransactionCreate.products req <> [])
    by (rewrite Eprod; discriminate).
  rewrite <- Eprod. clear Eprod.
  rewrite (create_run faulty user req w Hne) in Hfail. cbv zeta in Hfail.
  remember (TransactionCreate.type req) as ty eqn:Ety.
  assert (Hearly : forall e0 w0,
            (Raise e0, w0) = (@Raise Transaction.t e, w') ->
            session w0 = session w -> e0 <> StorageError ->
            (faulty op_insert = true \/ e <> StorageError ->
             session w' = session w)
            /\ (faulty op_insert = false -> e = StorageError ->
                exists row checked,
                  _sort_by_id_check_and_sum_duplicates (objs w)
                    (TransactionCreate.products req) = Ok (objs w', checked)
                  /\ Session.committed (session w') =
                     Db.add_transaction (Session.working (session w)) row
                  /\ In row (Db.transactions (Session.committed (session w')))
                  /\ Transaction.type row = ty
                  /\ Transaction.products_transaction row =
                     products_transaction_of (objs w') checked
                  /\ Db.products (Session.committed (session w')) =
                     Db.products (Session.working (session w)))).
  { intros e0 w0 [= <- <-] Hs Hne0. split; [auto|]. intros _ He.
    contradiction. }
  destruct (match ty with
            | incoming => _check_provider_existence _ _
            | outgoing => _
            end) as [[]|e1] eqn:Eprov.
  2:{ apply (Hearly _ _ Hfail eq_refl). intros ->.
      destruct ty; [|discriminate].
      unfold _check_provider_existence in Eprov.
      destruct (TransactionCreate.provider_id req); [|discriminate].
      destruct (find _ _); discriminate. }
  destruct (_sort_by_id_check_and_sum_duplicates _ _)
    as [[h checked]|e1] eqn:Enorm.
  2:{ destruct (normalizer_runs (objs w) (TransactionCreate.products req))
        as (h & checked & Hrun & _). congruence. }
  destruct (_check_if_products_payload_is_greater_than_zero h checked)
    as [ids|e1] eqn:Echeck.
  2:{ apply (Hearly _ _ Hfail eq_refl). intros ->.
      rewrite greater_than_zero_spec in Echeck.
      destruct (map _ _); discriminate. }
  destruct (_get_products_from_database _ ids) as [found|e1] eqn:Eget.
  2:{ apply (Hearly _ _ Hfail eq_refl). intros ->.
      unfold _get_products_from_database in Eget.
      destruct (negb _); discriminate. }
  destruct (match ty with
            | incoming => Ok tt
            | outgoing => _
            end) as [[]|e1] eqn:Estock.
  2:{ apply (Hearly _ _ Hfail eq_refl). intros ->.
      destruct ty; [discriminate|].
      rewrite enough_stock_spec in Estock.
      destruct (map _ _); discriminate. }
  destruct (faulty op_insert) eqn:Einsert.
  { injection Hfail as <- <-. split; [reflexivity | discriminate]. }
  assert (Hlate : forall w0,
            w0 = w' -> e = StorageError ->
            objs w0 = h ->
            (exists row,
               Session.committed (session w0) =
                 Db.add_transaction (Session.working (session w)) row
               /\ Transaction.type row = ty
               /\ Transaction.products_transaction row =
                  products_transaction_of h checked) ->
            (false = true \/ e <> StorageError -> session w' = session w)
            /\ (false = false -> e = StorageError ->
                exists row checked0,
                  Ok (h, checked) = Ok (objs w', checked0)
                  /\ Session.committed (session w') =
                     Db.add_transaction (Session.working (session w)) row
                  /\ In row (Db.transactions (Session.committed (session w')))
                  /\ Transaction.type row = ty
                  /\ Transaction.products_transaction row =
                     products_transaction_of (objs w') checked0
                  /\ Db.products (Session.committed (session w')) =
                     Db.products (Session.working (session w)))).
  { intros w0 <- He Hobjs (row & Hc & Hty & Hlines). split.
    - intros [H|H]; [discriminate | contradiction].
    - intros _ _. exists row, checked. rewrite Hobjs, Hc.
      repeat split; try assumption.
      simpl. apply in_or_app. right. now left. }
  destruct (faulty op_bulk_update).
  - injection Hfail as <- Hw. apply (Hlate _ Hw eq_refl eq_refl).
    eexists. split; [reflexivity|]. split; [|reflexivity].
    simpl. now rewrite Ety.
  - destruct (faulty op_commit); [|discriminate].
    injection Hfail as <- Hw. apply (Hlate _ Hw eq_refl eq_refl).
    eexists. split; [reflexivity|]. split; [|reflexivity].
    simpl. now rewrite Ety.
Qed.

Lemma create_failure_effects_witness :
  exists w' row,
    create bulk_update_fails user1 (request incoming None 1)
      (world_of [line 1 5] [product 1 "a" 10])
    = (Raise StorageError, w')
    /\ Db.transactions (Session.committed (session w')) = [row]
    /\ Transaction.products_transaction row =
       [{| TransactionProduct.quantity := 5;
           TransactionProduct.product_id := 1 |}]
    /\ Db.products (Session.committed (session w')) = [product 1 "a" 10]
    /\ Db.products (Session.working (session w')) = [product 1 "a" 15].
Proof.
  destruct (create bulk_update_fails user1 (request incoming None 1)
              (world_of [line 1 5] [product 1 "a" 10]))
    as [[resp|e] w'] eqn:Hfail; [vm_compute in Hfail; discriminate|].
  assert (He : e = StorageError)
    by (vm_compute in Hfail; now injection Hfail as <- _).
  subst e.
  destruct (create_failure_effects bulk_update_fails user1
              (request incoming None 1)
              (world_of [line 1 5] [product 1 "a" 10]) w' StorageError
              Hfail) as [_ Hlate].
  destruct (Hlate eq_refl eq_refl)
    as (row & checked & Hnorm & Hcommitted & _ & _ & Hlines & Hproducts).
  exists w', row. split; [reflexivity|].
  vm_compute in Hfail. injection Hfail as <-.
  vm_compute in Hcommitted. injection Hcommitted as <-.
  repeat split.
Defined.

(** ** Provider existence *)

(** A provider id that no provider has never gives [ProviderNotFound]:
    building the exception reads [provider.name] of [None]. *)
Lemma missing_provider_raises (db : Db.t) (i : Z) :
  find (fun p => Provider.id p =? i) (Db.providers db) = None ->
  _check_provider_existence db (Some i) =
  Raise (AttributeError (Text "'NoneType' object has no attribute 'name'")).
Proof. intros H. unfold _check_provider_existence. now rewrite H. Qed.

(** C4. An incoming create that names provider 7, in a catalog with no
    provider, does not fail with [ProviderNotFound]: it fails with
    [AttributeError], raised while the argument of [ProviderNotFound] is
    evaluated. *)
Theorem missing_provider_create_raises_attribute_error :
  fst (create no_faults user1 (request incoming (Some 7) 1)
         (world_of [line 1 5] [product 1 "a" 10]))
  = Raise (AttributeError (Text "'NoneType' object has no attribute 'name'")).
Proof. reflexivity. Qed.

(** ** The query engine *)

(** C5. With only the start date given, and the finish date left at
    [fetch_all]'s default [None], no date filter is applied: a query for
    the transactions from 2021-01-02 (ordinal 737792) on returns the
    transaction of 2021-01-01. The builder recognizes an absent date only
    as the empty string. *)
Theorem start_date_alone_is_ignored {L : Lowering} :
  fetch_all db_with_sale "" "" "" None (PyDate 737792) PyNone
  = Ok [new_year_sale]
  /\ fetch_all db_with_sale "" "" "" None (PyDate 737792) (PyStr "")
     = Raise (ItensNotFound (Text "No transactions found"))
  /\ fetch_all db_with_sale "" "" "" None PyNone (PyDate 737790)
     = Ok [new_year_sale]
  /\ fetch_all db_with_sale "" "" "" None (PyStr "") (PyDate 737790)
     = Raise (ItensNotFound (Text "No transactions found")).
Proof. repeat split. Qed.

(** A start date after the finish date is refused whatever the database
    holds. *)
Lemma inverted_range_raises {L : Lowering} (db : Db.t)
    (product_name provider_name description : string)
    (transaction_type : option TransactionTypeEnum) (s f : Z) :
  s > f ->
  _make_transaction_query_with_filters db product_name provider_name
    description transaction_type (PyDate s) (PyDate f)
  = Raise (InvalidRangeTime (Text "Invalid datetime range")).
Proof.
  intros H. unfold _make_transaction_query_with_filters.
  apply Z.gtb_gt in H. now rewrite H.
Qed.

Lemma length_zero_nil {A} (l : list A) : Z.of_nat (length l) = 0 -> l = [].
Proof. destruct l; [reflexivity | discriminate]. Qed.

(** C9. A paginated retrieval, for a page and a page size of at least 1,
    whose query selects no transaction fails with [ItensNotFound]
    ("No transactions found"), not with [InvalidPage]: the number of pages
    is 0, and the page is compared with it only when it is positive. *)
Theorem empty_page_reports_not_found {L : Lowering}
    (db : Db.t) (page per_page : Z)
    (product_name provider_name description : string)
    (transaction_type : option TransactionTypeEnum)
    (start_date finish_date : pyarg) (query : Query.t)
    (Hpage : 1 <= page) (Hper_page : 1 <= per_page)
    (Hquery : _make_transaction_query_with_filters db product_name
                provider_name description transaction_type
                start_date finish_date = Ok query)
    (Hnone : Query.count db query = 0) :
  fetch_all_with_pagination db page per_page product_name provider_name
    description transaction_type start_date finish_date
  = Raise (ItensNotFound (Text "No transactions found")).
Proof.
  unfold fetch_all_with_pagination.
  destruct (page <=? 0) eqn:E1; [apply Z.leb_le in E1; lia|].
  destruct (per_page <=? 0) eqn:E2; [apply Z.leb_le in E2; lia|].
  rewrite Hquery. simpl rbind. unfold apply_pagination.
  change (Query.count db (Query.order_by query))
    with (Query.count db query).
  rewrite Hnone.
  destruct (per_page <? 0) eqn:E3; [apply Z.ltb_lt in E3; lia|].
  replace ((per_page >? 0) && (0 >? 0)) with false
    by (now rewrite andb_false_r).
  destruct (page <? 1) eqn:E4; [apply Z.ltb_lt in E4; lia|].
  destruct (per_page =? 0) eqn:E5; [apply Z.eqb_eq in E5; lia|].
  simpl rbind. cbv iota beta. simpl Pagination.num_pages.
  replace (ceil_div 0 per_page) with 0
    by (unfold ceil_div; symmetry; apply Z.div_small; lia).
  replace ((page >? 0) && (0 >? 0)) with false
    by (now rewrite andb_false_r).
  unfold Query.all, Query.count in *. simpl.
  rewrite (length_zero_nil _ Hnone). simpl.
  now rewrite skipn_nil, firstn_nil.
Qed.

Lemma empty_page_reports_not_found_witness :
  1 <= 3 /\ 1 <= 10
  /\ fetch_all_with_pagination db_with_sale 3 10 "" "" "" (Some incoming)
       PyNone PyNone
     = Raise (ItensNotFound (Text "No transactions found")).
Proof.
  assert (H3 : 1 <= 3) by lia. assert (H10 : 1 <= 10) by lia.
  split; [exact H3|]. split; [exact H10|].
  exact (empty_page_reports_not_found db_with_sale 3 10 "" "" ""
           (Some incoming) PyNone PyNone _ H3 H10 eq_refl eq_refl).
Defined.

(** What the date arguments make of the query, whatever the other filters:
    every row the query selects is in the range the dates give. *)
Lemma date_filters_bound {L : Lowering} (db : Db.t)
    (product_name provider_name description : string)
    (transaction_type : option TransactionTypeEnum)
    (start_date finish_date : pyarg) (query : Query.t) (r : Transaction.t) :
  _make_transaction_query_with_filters db product_name provider_name
    description transaction_type start_date finish_date = Ok query ->
  Query.where_ query r = true ->
  match start_date, finish_date with
  | PyDate s, PyDate f => s <= Transaction.date r <= f
  | PyDate s, PyStr EmptyString => s <= Transaction.date r
  | PyStr EmptyString, PyDate f => Transaction.date r <= f
  | _, _ => True
  end.
Proof.
  unfold _make_transaction_query_with_filters. intros Hq Hr.
  assert (Hcond :
    forall q0 : Query.t,
      (let query := q0 in
       let query :=
         if nonempty provider_name
         then Query.filter_ query (fun r =>
                match joined_provider_name db r with
                | Some n => contains (sql_lower n) (py_lower provider_name)
                | None => false
                end)
         else query in
       let query :=
         if nonempty description
         then Query.filter_ query (fun r =>
                contains (sql_lower (Transaction.description r))
                  (py_lower description))
         else query in
       let query :=
         match transaction_type with
         | Some ty =>
             Query.filter_ query (fun r =>
               TransactionTypeEnum_eqb (Transaction.type r) ty)
         | None => query
         end in
       let query :=
         if nonempty product_name
         then
           let ids := transaction_ids_by_product_name db product_name in
           Query.filter_ query (fun r => mem (Transaction.id r) ids)
         else query in
       Ok query) = Ok query ->
      Query.where_ q0 r = true).
  { intros q0 H. cbv zeta in H. injection H as <-.
    destruct (nonempty product_name), transaction_type,
      (nonempty description), (nonempty provider_name);
      simpl in Hr; repeat (apply andb_true_iff in Hr; destruct Hr as [Hr _]);
      exact Hr. }
  destruct start_date as [|[|]|s], finish_date as [|[|]|f]; try exact I;
    simpl in Hq.
  - apply Hcond in Hq. simpl in Hq. now apply Z.leb_le.
  - apply Hcond in Hq. simpl in Hq. rewrite Z.geb_leb in Hq.
    now apply Z.leb_le.
  - destruct (s >? f); [discriminate|]. apply Hcond in Hq. simpl in Hq.
    apply andb_true_iff in Hq. destruct Hq as [H1 H2].
    rewrite Z.geb_leb in H1. apply Z.leb_le in H1, H2. lia.
Qed.

Lemma In_firstn {A} (n : nat) (l : list A) (x : A) :
  In x (firstn n l) -> In x l.
Proof.
  intros H. rewrite <- (firstn_skipn n l). apply in_or_app. now left.
Qed.

Lemma In_skipn {A} (n : nat) (l : list A) (x : A) :
  In x (skipn n l) -> In x l.
Proof.
  intros H. rewrite <- (firstn_skipn n l). apply in_or_app. now right.
Qed.

(** Every row a query returns is a row of the table that its WHERE clause
    selects. *)
Lemma query_all_In (db : Db.t) (q : Query.t) (r : Transaction.t) :
  In r (Query.all db q) ->
  In r (Db.transactions db) /\ Query.where_ q r = true.
Proof.
  unfold Query.all. intros H. apply filter_In.
  destruct (Query.limit q); [apply In_firstn in H|];
    (destruct (Query.offset q); [apply In_skipn in H|]);
    (destruct (Query.order_by_id q);
     [apply (Permutation_in _ (sorted_perm Transaction.id _)) in H|]);
    exact H.
Qed.

(** With both dates, or with one date and the empty string for the other,
    [fetch_all] returns only transactions in the range. *)
Lemma fetch_all_bounded {L : Lowering} (db : Db.t)
    (product_name provider_name description : string)
    (transaction_type : option TransactionTypeEnum)
    (start_date finish_date : pyarg) (rows : list Transaction.t)
    (r : Transaction.t) :
  fetch_all db product_name provider_name description transaction_type
    start_date finish_date = Ok rows ->
  In r rows ->
  match start_date, finish_date with
  | PyDate s, PyDate f => s <= Transaction.date r <= f
  | PyDate s, PyStr EmptyString => s <= Transaction.date r
  | PyStr EmptyString, PyDate f => Transaction.date r <= f
  | _, _ => True
  end.
Proof.
  unfold fetch_all. intros H Hr.
  destruct (_make_transaction_query_with_filters _ _ _ _ _ _ _)
    as [query|] eqn:Hq; [|discriminate].
  simpl in H. destruct (Nat.eqb _ 0); [discriminate|].
  injection H as <-. apply query_all_In in Hr.
  exact (date_filters_bound _ _ _ _ _ _ _ _ r Hq (proj2 Hr)).
Qed.

(** ** The embedding at work *)

(** Pagination (section 8 of the specification, on 5 rows with 2 a page):
    page 3 holds the last row and there are 3 pages; page 4 is refused. *)
Example third_page_of_five :
  option_map
    (fun resp =>
       (map Transaction.id (TransactionsResponse.records resp),
        PaginationMetadata.total_pages
          (TransactionsResponse.pagination_metadata resp),
        PaginationMetadata.total_items
          (TransactionsResponse.pagination_metadata resp)))
    (match fetch_all_with_pagination db_with_five_sales 3 2 "" "" "" None
             PyNone PyNone with
     | Ok resp => Some resp
     | Raise _ => None
     end)
  = Some ([5], 3, 5).
Proof. reflexivity. Qed.

Example fourth_page_of_five :
  fetch_all_with_pagination db_with_five_sales 4 2 "" "" "" None
    PyNone PyNone
  = Raise (InvalidPage
             (Fmt "Page number invalid, the total of pages is {}: {}"
                [3; 4])).
Proof. reflexivity. Qed.

(** The filters: by product name, whatever the case, and by date range. *)
Example filter_by_product_name :
  match fetch_all db_with_five_sales "camisa" "" "" (Some outgoing)
          (PyDate 737792) (PyDate 737794) with
  | Ok rows => map Transaction.id rows
  | Raise _ => []
  end = [2; 3; 4].
Proof. reflexivity. Qed.

(** The scenario of section 8: 5 of P1 (inventory 10) come in and the
    inventory is 15; then 20 are asked to go out, the create is refused
    with [NotEnoughStockQuantity] and the inventory stays 15. *)
Example restock_then_oversell_scenario :
  match create no_faults user1 (request_of incoming [0%nat])
          restock_then_oversell with
  | (Ok t, w1) =>
      Db.products (Session.committed (session w1)) = [product 1 "P1" 15]
      /\ length (Transaction.products_transaction t) = 1%nat
      /\ match create no_faults user1 (request_of outgoing [1%nat]) w1 with
         | (Raise e, w2) =>
             e = NotEnoughStockQuantity (Ids [1])
             /\ Db.products (Session.committed (session w2))
                = [product 1 "P1" 15]
         | (Ok _, _) => False
         end
  | (Raise _, _) => False
  end.
Proof. vm_compute. repeat split. Qed.

(** * Further properties of the service *)

(** ** The normalizer *)

Lemma total_quantity_app (l1 l2 : list TransactionProductsData.t) :
  total_quantity (l1 ++ l2) = total_quantity l1 + total_quantity l2.
Proof. induction l1 as [|v l1 IH]; simpl; [reflexivity | rewrite IH; lia]. Qed.

Lemma total_quantity_perm (l1 l2 : list TransactionProductsData.t) :
  Permutation l1 l2 -> total_quantity l1 = total_quantity l2.
Proof. induction 1; simpl; lia. Qed.

(** Without aliases, what the loop adds to a kept object it takes from a
    dropped one: the total does not change. *)
Lemma loop_conserves (todo : list loc) :
  forall (h h' : heap) (added : list Z) (checked out : list loc),
    sum_duplicates_loop h added checked todo = Ok (h', out) ->
    NoDup (checked ++ todo) ->
    total_quantity (view h' out) =
    total_quantity (view h checked) + total_quantity (view h todo).
Proof.
  induction todo as [|value rest IH];
    intros h h' added checked out Hrun Hnd; simpl in Hrun.
  - injection Hrun as <- <-. simpl. lia.
  - destruct (mem (pid h value) added); simpl in Hrun.
    + destruct (last_item checked) as [top|] eqn:Htop; [|discriminate].
      destruct (last_item_split _ _ Htop) as [init ->].
      assert (Htop_rest : ~ In top rest).
      { intros Hin. rewrite <- app_assoc in Hnd.
        apply NoDup_app_remove_l in Hnd. simpl in Hnd.
        inversion Hnd as [|? ? Hn _]; subst. apply Hn. now right. }
      assert (Htop_init : ~ In top init).
      { intros Hin. apply NoDup_app_remove_r in Hnd.
        apply NoDup_remove_2 in Hnd. apply Hnd.
        rewrite app_nil_r. exact Hin. }
      rewrite (IH _ _ _ _ _ Hrun) by now apply NoDup_remove_1 in Hnd.
      set (h2 := set_quantity h top (qty h top + qty h value)).
      rewrite (view_frame h h2 rest).
      2:{ intros x Hx. apply set_quantity_other. intros ->. contradiction. }
      rewrite !view_app, !total_quantity_app.
      rewrite (view_frame h h2 init).
      2:{ intros x Hx. apply set_quantity_other. intros ->. contradiction. }
      simpl. fold (qty h2 top) (qty h top) (qty h value).
      unfold h2. rewrite qty_set_quantity. lia.
    + rewrite (IH _ _ _ _ _ Hrun) by now rewrite <- app_assoc.
      rewrite view_app, total_quantity_app. simpl. lia.
Qed.

(** X1. Normalizing a payload of distinct line objects keeps the total
    quantity: what the merged batch asks for, all products together, is
    what the request asked for. *)
Theorem normalizer_conserves_total (h : heap) (payload : list loc)
    (Hdistinct : NoDup payload) :
  exists h' out,
    _sort_by_id_check_and_sum_duplicates h payload = Ok (h', out)
    /\ total_quantity (view h' out) = total_quantity (view h payload).
Proof.
  destruct (normalizer_runs h payload) as (h' & out & Hrun & _).
  exists h', out. split; [exact Hrun|].
  unfold _sort_by_id_check_and_sum_duplicates in Hrun.
  rewrite (loop_conserves _ _ _ _ _ _ Hrun).
  - simpl. apply total_quantity_perm. unfold view. apply Permutation_map.
    apply sorted_perm.
  - simpl. apply (Permutation_NoDup (Permutation_sym (sorted_perm _ _))).
    exact Hdistinct.
Qed.

Lemma normalizer_conserves_total_witness :
  NoDup [0%nat; 1%nat; 2%nat]
  /\ exists h' out,
       _sort_by_id_check_and_sum_duplicates
         (heap_of [line 7 4; line 2 1; line 7 6]) [0%nat; 1%nat; 2%nat]
       = Ok (h', out)
       /\ total_quantity (view h' out) = 11.
Proof.
  assert (Hnd : NoDup [0%nat; 1%nat; 2%nat]).
  { repeat constructor; simpl; intuition discriminate. }
  split; [exact Hnd|].
  destruct (normalizer_conserves_total
              (heap_of [line 7 4; line 2 1; line 7 6])
              [0%nat; 1%nat; 2%nat] Hnd) as (h' & out & Hrun & Htotal).
  exists h', out. split; [exact Hrun|]. rewrite Htotal. reflexivity.
Defined.

(** X2. A payload that names every product once is only put in order: the
    result is the payload sorted by product id, and no object is
    changed. *)
Theorem normalizer_sorts_distinct_products (h : heap) (payload : list loc)
    (Hproducts : NoDup (map (pid h) payload)) :
  _sort_by_id_check_and_sum_duplicates h payload
  = Ok (h, sorted (pid h) payload)
  /\ Permutation (sorted (pid h) payload) payload
  /\ StronglySorted Z.lt (map (pid h) (sorted (pid h) payload)).
Proof.
  assert (Hinc : StronglySorted Z.lt (map (pid h) (sorted (pid h) payload))).
  { apply ascending_NoDup_increasing; [apply sorted_ascending|].
    apply (Permutation_NoDup
             (Permutation_map _ (Permutation_sym (sorted_perm (pid h) _)))).
    exact Hproducts. }
  split; [|split; [apply sorted_perm | exact Hinc]].
  unfold _sort_by_id_check_and_sum_duplicates.
  now apply (loop_on_increasing (sorted (pid h) payload) h [] []).
Qed.

Lemma normalizer_sorts_distinct_products_witness :
  NoDup (map (pid (heap_of [line 7 4; line 2 1; line 5 6]))
           [0%nat; 1%nat; 2%nat])
  /\ _sort_by_id_check_and_sum_duplicates
       (heap_of [line 7 4; line 2 1; line 5 6]) [0%nat; 1%nat; 2%nat]
     = Ok (heap_of [line 7 4; line 2 1; line 5 6], [1%nat; 2%nat; 0%nat]).
Proof.
  assert (Hnd : NoDup (map (pid (heap_of [line 7 4; line 2 1; line 5 6]))
                         [0%nat; 1%nat; 2%nat])).
  { simpl. repeat constructor; simpl; intuition discriminate. }
  split; [exact Hnd|].
  exact (proj1 (normalizer_sorts_distinct_products _ _ Hnd)).
Defined.

(** What the first object of a product holds after a run, and what the
    later lines of the product hold. *)
Lemma first_occurrence_sum (h h' : heap) (pre post out : list loc)
    (first : loc) :
  NoDup (pre ++ first :: post) ->
  ~ In (pid h first) (map (pid h) pre) ->
  _sort_by_id_check_and_sum_duplicates h (pre ++ first :: post)
    = Ok (h', out) ->
  (forall l, pid h' l = pid h l)
  /\ qty h' first = qty h first + requested (pid h first) (view h post)
  /\ (forall l, In l post -> pid h l = pid h first -> h' l = h l).
Proof.
  intros Hdistinct Hfirst Hrun0.
  destruct (normalizer_runs h (pre ++ first :: post))
    as (h2 & out2 & Hrun & Hpid & Hin & Hframe & Hinc & Hkept & Hsum).
  rewrite Hrun0 in Hrun. injection Hrun as <- <-.
  set (p := pid h first) in *.
  assert (Hf : filter (fun l => pid h l =? p) out = [first]).
  { rewrite Hkept, filter_app, (filter_absent h p pre Hfirst). simpl.
    unfold p. now rewrite Z.eqb_refl. }
  split; [exact Hpid|]. split.
  - specialize (Hsum Hdistinct p).
    rewrite requested_filter in Hsum.
    rewrite (filter_ext _ (fun l => pid h l =? p)) in Hsum
      by (intros l; now rewrite Hpid).
    rewrite Hf in Hsum. simpl in Hsum.
    fold (pid h' first) (qty h' first) in Hsum.
    rewrite Hpid in Hsum. fold p in Hsum. rewrite Z.eqb_refl in Hsum.
    rewrite view_app, requested_app in Hsum.
    rewrite requested_absent in Hsum
      by (rewrite product_ids_view; exact Hfirst).
    simpl in Hsum. fold (pid h first) (qty h first) p in Hsum.
    rewrite Z.eqb_refl in Hsum. lia.
  - intros l Hl Hp. apply Hframe. intros Hout.
    assert (H' : In l (filter (fun l => pid h l =? p) out)).
    { apply filter_In. split; [assumption | now apply Z.eqb_eq]. }
    rewrite Hf in H'. destruct H' as [<-|[]].
    apply NoDup_remove_2 in Hdistinct. apply Hdistinct.
    apply in_or_app. now right.
Qed.

Lemma requested_same_lines (h h' : heap) (p : Z) (l : list loc) :
  (forall x, pid h' x = pid h x) ->
  (forall x, In x l -> pid h x = p -> h' x = h x) ->
  requested p (view h' l) = requested p (view h l).
Proof.
  intros Hpid Hsame. induction l as [|x l IH]; [reflexivity|].
  simpl. fold (pid h' x) (pid h x). rewrite Hpid.
  rewrite IH by (intros y Hy; apply Hsame; now right).
  destruct (pid h x =? p) eqn:E; [|reflexivity].
  apply Z.eqb_eq in E. now rewrite (Hsame x (or_introl eq_refl) E).
Qed.

(** X3. The payload itself is not a fixed point of the normalizer: the
    request's list still holds the later duplicates, so normalizing the
    same payload again adds them to the first object of their product a
    second time. *)
Theorem renormalizing_payload_counts_duplicates_twice (h : heap)
    (pre post : list loc) (first : loc)
    (Hdistinct : NoDup (pre ++ first :: post))
    (Hfirst : ~ In (pid h first) (map (pid h) pre)) :
  exists h1 out1 h2 out2,
    _sort_by_id_check_and_sum_duplicates h (pre ++ first :: post)
      = Ok (h1, out1)
    /\ _sort_by_id_check_and_sum_duplicates h1 (pre ++ first :: post)
      = Ok (h2, out2)
    /\ qty h1 first = qty h first + requested (pid h first) (view h post)
    /\ qty h2 first =
       qty h first + 2 * requested (pid h first) (view h post).
Proof.
  destruct (normalizer_runs h (pre ++ first :: post))
    as (h1 & out1 & Hrun1 & _).
  destruct (normalizer_runs h1 (pre ++ first :: post))
    as (h2 & out2 & Hrun2 & _).
  destruct (first_occurrence_sum _ _ _ _ _ _ Hdistinct Hfirst Hrun1)
    as (Hpid1 & Hq1 & Hsame1).
  assert (Hfirst1 : ~ In (pid h1 first) (map (pid h1) pre)).
  { rewrite Hpid1, (map_ext _ _ Hpid1). exact Hfirst. }
  destruct (first_occurrence_sum _ _ _ _ _ _ Hdistinct Hfirst1 Hrun2)
    as (_ & Hq2 & _).
  exists h1, out1, h2, out2. repeat split; try assumption.
  rewrite Hq2, Hq1, Hpid1.
  rewrite (requested_same_lines h h1 (pid h first) post Hpid1 Hsame1).
  lia.
Qed.

Lemma renormalizing_payload_counts_duplicates_twice_witness :
  NoDup ([] ++ 0%nat :: [1%nat])
  /\ exists h1 out1 h2 out2,
       _sort_by_id_check_and_sum_duplicates
         (heap_of [line 1 3; line 1 2]) [0%nat; 1%nat] = Ok (h1, out1)
       /\ _sort_by_id_check_and_sum_duplicates h1 [0%nat; 1%nat]
          = Ok (h2, out2)
       /\ qty h1 0%nat = 5 /\ qty h2 0%nat = 7.
Proof.
  assert (Hnd : NoDup ([] ++ 0%nat :: [1%nat])).
  { simpl. repeat constructor; simpl; intuition discriminate. }
  split; [exact Hnd|].
  destruct (renormalizing_payload_counts_duplicates_twice
              (heap_of [line 1 3; line 1 2]) [] [1%nat] 0%nat Hnd
              (fun H => H))
    as (h1 & out1 & h2 & out2 & Hrun1 & Hrun2 & Hq1 & Hq2).
  exists h1, out1, h2, out2. repeat split; assumption.
Defined.

(** ** The create path *)

Lemma increasing_filter {A} (k : A -> Z) (f : A -> bool) (l : list A) :
  StronglySorted Z.lt (map k l) ->
  StronglySorted Z.lt (map k (filter f l)).
Proof.
  induction l as [|x l IH]; simpl; intros H; [constructor|].
  inversion H as [|? ? Hl Hx]; subst.
  destruct (f x); simpl; [|now apply IH].
  constructor; [now apply IH|].
  rewrite Forall_forall in *. intros y Hy. apply Hx.
  apply in_map_iff in Hy. destruct Hy as [a [<- Ha]].
  apply filter_In in Ha. apply in_map. apply Ha.
Qed.


(** The create up to the product lookup, for a request that passes the
    checks before it. *)
Lemma create_after_normalizing (faulty : storage_op -> bool) (user : User.t)
    (req : TransactionCreate.t) (w : world) (h : heap) (checked : list loc) :
  TransactionCreate.products req <> [] ->
  (TransactionCreate.type req = incoming ->
   _check_provider_existence (Session.working (session w))
     (TransactionCreate.provider_id req) = Ok tt) ->
  _sort_by_id_check_and_sum_duplicates (objs w)
    (TransactionCreate.products req) = Ok (h, checked) ->
  (forall e,
     _check_if_products_payload_is_greater_than_zero h checked = Raise e ->
     create faulty user req w = (Raise e, set_objs w h))
  /\ (forall ids e,
        _check_if_products_payload_is_greater_than_zero h checked = Ok ids ->
        _get_products_from_database (Session.working (session w)) ids
          = Raise e ->
        create faulty user req w = (Raise e, set_objs w h))
  /\ (forall ids found e,
        TransactionCreate.type req = outgoing ->
        _check_if_products_payload_is_greater_than_zero h checked = Ok ids ->
        _get_products_from_database (Session.working (session w)) ids
          = Ok found ->
        _check_if_stock_has_enough_outgoing_quantity h found checked
          = Raise e ->
        create faulty user req w = (Raise e, set_objs w h)).
Proof.
  intros Hne Hprovider Hrun.
  rewrite (create_run faulty user req w Hne). cbv zeta. rewrite Hrun.
  destruct (TransactionCreate.type req) eqn:Ety.
  - rewrite (Hprovider eq_refl). repeat split.
    + intros e ->. reflexivity.
    + intros ids e -> ->. reflexivity.
    + discriminate.
  - repeat split.
    + intros e ->. reflexivity.
    + intros ids e -> ->. reflexivity.
    + intros ids found e _ -> -> ->. reflexivity.
Qed.

(** X4. A create with no line item fails with [ProductsNotFound]
    ("Empty transaction products") before anything is read or changed:
    whatever its type, its provider id and the state of the database. *)
Theorem create_rejects_empty_request (faulty : storage_op -> bool)
    (user : User.t) (req : TransactionCreate.t) (w : world)
    (Hempty : TransactionCreate.products req = []) :
  create faulty user req w
  = (Raise (ProductsNotFound (Text "Empty transaction products")), w).
Proof. unfold create. now rewrite Hempty. Qed.

Lemma create_rejects_empty_request_witness :
  TransactionCreate.products (request incoming (Some 7) 0) = []
  /\ create no_faults user1 (request incoming (Some 7) 0) stocked
     = (Raise (ProductsNotFound (Text "Empty transaction products")),
        stocked).
Proof.
  split; [reflexivity|].
  exact (create_rejects_empty_request no_faults user1
           (request incoming (Some 7) 0) stocked eq_refl).
Defined.



Lemma positive_totals_pass (h0 h : heap) (payload checked : list loc) :
  NoDup payload ->
  _sort_by_id_check_and_sum_duplicates h0 payload = Ok (h, checked) ->
  (forall l, In l payload ->
     0 < requested (pid h0 l) (view h0 payload)) ->
  _check_if_products_payload_is_greater_than_zero h checked
  = Ok (map (pid h) checked).
Proof.
  intros Hdistinct Hrun Hpos.
  destruct (normalized_quantities _ _ _ _ Hdistinct Hrun)
    as (_ & Hids & Hq).
  apply greater_than_zero_ok. split; [reflexivity|].
  intros l Hl. rewrite (Hq l Hl).
  assert (Hin : In (pid h l) (map (pid h0) payload))
    by (apply Hids; now apply in_map).
  apply in_map_iff in Hin. destruct Hin as (l0 & <- & Hl0). now apply Hpos.
Qed.



Lemma combine_ids (h : heap) (found : list Product.t) (checked : list loc) :
  map Product.id found = map (pid h) checked ->
  map (fun pr => Product.id (fst pr)) (combine found checked)
  = map Product.id found.
Proof.
  revert checked. induction found as [|p found IH];
    intros [|l checked] E; try discriminate; [reflexivity|].
  simpl in *. injection E as _ E. now rewrite (IH checked E).
Qed.

(** X7. An outgoing create whose products all exist, with strictly positive
    totals, and that asks of some product more than its inventory fails
    with [NotEnoughStockQuantity] carrying, in increasing order, exactly
    the products asked for more than they have; the session, and with it
    every inventory, is untouched. *)
Theorem create_reports_insufficient_stock (faulty : storage_op -> bool)
    (user : User.t) (req : TransactionCreate.t) (w : world)
    (Hty : TransactionCreate.type req = outgoing)
    (Hne : TransactionCreate.products req <> [])
    (Hdistinct : NoDup (TransactionCreate.products req))
    (Hkey : NoDup (map Product.id (Db.products (Session.working (session w)))))
    (Hpos : forall l, In l (TransactionCreate.products req) ->
       0 < requested (pid (objs w) l)
             (view (objs w) (TransactionCreate.products req)))
    (Hexist : forall l, In l (TransactionCreate.products req) ->
       In (pid (objs w) l)
          (map Product.id (Db.products (Session.working (session w)))))
    (Hshort : exists l p, In l (TransactionCreate.products req)
       /\ In p (Db.products (Session.working (session w)))
       /\ Product.id p = pid (objs w) l
       /\ requested (pid (objs w) l)
            (view (objs w) (TransactionCreate.products req))
          > Product.inventory p) :
  exists ids w',
    create faulty user req w = (Raise (NotEnoughStockQuantity (Ids ids)), w')
    /\ session w' = session w
    /\ StronglySorted Z.lt ids
    /\ (forall i, In i ids <->
          exists p, In p (Db.products (Session.working (session w)))
            /\ Product.id p = i
            /\ In i (product_ids
                       (view (objs w) (TransactionCreate.products req)))
            /\ requested i (view (objs w) (TransactionCreate.products req))
               > Product.inventory p).
Proof.
  set (db := Session.working (session w)) in *.
  set (items := view (objs w) (TransactionCreate.products req)) in *.
  destruct (normalizer_runs (objs w) (TransactionCreate.products req))
    as (h & checked & Hrun & _).
  destruct (normalized_quantities _ _ _ _ Hdistinct Hrun)
    as (Hinc & Hids & Hq).
  fold items in Hq.
  pose proof (positive_totals_pass _ _ _ _ Hdistinct Hrun Hpos) as Hcheck.
  assert (Hdist : NoDup (map (pid h) checked)) by now apply increasing_NoDup.
  set (found := products_by_ids db (map (pid h) checked)).
  assert (Hlen : length found = length (map (pid h) checked)).
  { apply found_all_iff; try assumption.
    intros i Hi. apply Hids in Hi. apply in_map_iff in Hi.
    destruct Hi as (l & <- & Hl). now apply Hexist. }
  assert (Hpair : map Product.id found = map (pid h) checked)
    by now apply found_ids_eq.
  assert (Hget : _get_products_from_database db (map (pid h) checked)
                 = Ok found) by now apply lookup_ok.
  set (offenders :=
         map (fun pr => Product.id (fst pr))
           (filter (fun pr => qty h (snd pr) >? Product.inventory (fst pr))
              (combine found checked))).
  assert (Hnamed : forall i,
            In i (product_ids items) <-> In i (map (pid h) checked)).
  { intros i. unfold items. rewrite product_ids_view. symmetry. apply Hids. }
  assert (Hmem : forall i, In i offenders <->
            exists p, In p (Db.products db) /\ Product.id p = i
              /\ In i (product_ids items)
              /\ requested i items > Product.inventory p).
  { intros i. unfold offenders. rewrite in_map_iff. split.
    - intros ([p l] & <- & Hpl). apply filter_In in Hpl.
      destruct Hpl as [Hpl Hgt]. simpl in *. apply Z.gtb_gt in Hgt.
      destruct (paired_ids h found checked Hpair p l Hpl)
        as (Hp & Hl & Hid).
      exists p. apply found_In in Hp. split; [apply Hp|].
      split; [reflexivity|]. split.
      + apply Hnamed. rewrite <- Hid. now apply in_map.
      + rewrite <- Hid, <- (Hq l Hl). exact Hgt.
    - intros (p & Hp & <- & Hin & Hgt).
      assert (Hfound : In p found).
      { apply found_In. split; [exact Hp | now apply Hnamed]. }
      destruct (paired_In h found checked Hpair p Hfound)
        as (l & Hpl & Hl & Hid).
      exists (p, l). split; [reflexivity|]. apply filter_In.
      split; [exact Hpl|]. simpl. apply Z.gtb_gt.
      rewrite (Hq l Hl), Hid. exact Hgt. }
  assert (Hstock : _check_if_stock_has_enough_outgoing_quantity h found
                     checked
                   = Raise (NotEnoughStockQuantity (Ids offenders))).
  { rewrite enough_stock_spec. fold offenders.
    destruct offenders as [|o os] eqn:Eo; [|reflexivity].
    exfalso. destruct Hshort as (l & p & Hl & Hp & Hid & Hgt).
    apply (proj2 (Hmem (pid (objs w) l))). exists p.
    repeat split; try assumption.
    unfold items. rewrite product_ids_view. now apply in_map. }
  exists offenders, (set_objs w h).
  split; [|split; [reflexivity | split; [|exact Hmem]]].
  - apply (proj2 (proj2 (create_after_normalizing faulty user req w h
                           checked Hne (fun H => ltac:(congruence)) Hrun))
             (map (pid h) checked) found); assumption.
  - unfold offenders. apply increasing_filter.
    rewrite (combine_ids h found checked Hpair), Hpair. exact Hinc.
Qed.

Lemma create_reports_insufficient_stock_witness :
  exists w',
    create no_faults user1 (request_of outgoing [1%nat])
      restock_then_oversell
    = (Raise (NotEnoughStockQuantity (Ids [1])), w')
    /\ session w' = session restock_then_oversell.
Proof.
  assert (Hne : TransactionCreate.products (request_of outgoing [1%nat])
                <> []) by discriminate.
  assert (Hdistinct : NoDup (TransactionCreate.products
                               (request_of outgoing [1%nat]))).
  { simpl. repeat constructor; simpl; intuition discriminate. }
  assert (Hkey : NoDup (map Product.id
             (Db.products
                (Session.working (session restock_then_oversell))))).
  { simpl. repeat constructor; simpl; intuition discriminate. }
  assert (Hpos : forall l,
            In l (TransactionCreate.products (request_of outgoing [1%nat]))
            -> 0 < requested (pid (objs restock_then_oversell) l)
                     (view (objs restock_then_oversell)
                        (TransactionCreate.products
                           (request_of outgoing [1%nat])))).
  { intros l [<-|[]]; simpl; lia. }
  assert (Hexist : forall l,
            In l (TransactionCreate.products (request_of outgoing [1%nat]))
            -> In (pid (objs restock_then_oversell) l)
                 (map Product.id
                    (Db.products
                       (Session.working (session restock_then_oversell))))).
  { intros l [<-|[]]. now left. }
  assert (Hshort : exists l p,
            In l (TransactionCreate.products (request_of outgoing [1%nat]))
            /\ In p (Db.products
                       (Session.working (session restock_then_oversell)))
            /\ Product.id p = pid (objs restock_then_oversell) l
            /\ requested (pid (objs restock_then_oversell) l)
                 (view (objs restock_then_oversell)
                    (TransactionCreate.products
                       (request_of outgoing [1%nat])))
               > Product.inventory p).
  { exists 1%nat, (product 1 "P1" 10). simpl. intuition lia. }
  destruct (create_reports_insufficient_stock no_faults user1
              (request_of outgoing [1%nat]) restock_then_oversell eq_refl
              Hne Hdistinct Hkey Hpos Hexist Hshort)
    as (ids & w' & Hrun & Hsession & _).
  exists w'. split; [|exact Hsession].
  rewrite Hrun. vm_compute in Hrun. now injection Hrun as <- _.
Defined.

(** The record a create that returns has built and stored. *)
Lemma create_ok_record (faulty : storage_op -> bool) (user : User.t)
    (req : TransactionCreate.t) (w w' : world) (resp : Transaction.t) :
  create faulty user req w = (Ok resp, w') ->
  exists h checked,
    TransactionCreate.products req <> []
    /\ _sort_by_id_check_and_sum_duplicates (objs w)
         (TransactionCreate.products req) = Ok (h, checked)
    /\ objs w' = h
    /\ resp =
       with_id
         (transaction_record req
            (match TransactionCreate.type req with
             | incoming => TransactionCreate.provider_id req
             | outgoing => None
             end) user (products_transaction_of h checked))
         (next_id (Db.transactions (Session.working (session w)))).
Proof.
  intros Hok.
  assert (Hne : TransactionCreate.products req <> []).
  { intros E. unfold create in Hok. rewrite E in Hok. discriminate. }
  rewrite (create_run faulty user req w Hne) in Hok. cbv zeta in Hok.
  destruct (match TransactionCreate.type req with
            | incoming => _ | outgoing => _ end) as [[]|]; [|discriminate].
  destruct (_sort_by_id_check_and_sum_duplicates _ _) as [[h checked]|];
    [|discriminate].
  destruct (_check_if_products_payload_is_greater_than_zero h checked);
    [|discriminate].
  destruct (_get_products_from_database _ _); [|discriminate].
  destruct (match TransactionCreate.type req with
            | incoming => _ | outgoing => _ end) as [[]|]; [|discriminate].
  destruct (faulty op_insert); [discriminate|].
  destruct (faulty op_bulk_update); [discriminate|].
  destruct (faulty op_commit); [discriminate|].
  injection Hok as <- <-. exists h, checked. repeat split. exact Hne.
Qed.

(** X8. The transaction a create returns is well formed: it has at least
    one line, one line per product in increasing order of product id,
    every line has a strictly positive quantity and names a product of the
    table; it has the type of the request, the acting user as its creator,
    the request's provider if it is incoming and none if it is outgoing;
    and it is in the committed table of transactions. *)
Theorem created_transaction_is_well_formed (faulty : storage_op -> bool)
    (user : User.t) (req : TransactionCreate.t) (w w' : world)
    (resp : Transaction.t)
    (Hkey : NoDup (map Product.id (Db.products (Session.working (session w)))))
    (Hok : create faulty user req w = (Ok resp, w')) :
  Transaction.products_transaction resp <> []
  /\ StronglySorted Z.lt
       (map TransactionProduct.product_id
          (Transaction.products_transaction resp))
  /\ (forall tp, In tp (Transaction.products_transaction resp) ->
        0 < TransactionProduct.quantity tp
        /\ In (TransactionProduct.product_id tp)
             (map Product.id (Db.products (Session.working (session w)))))
  /\ Transaction.type resp = TransactionCreate.type req
  /\ Transaction.created_by resp = User.id user
  /\ Transaction.provider_id resp =
     match TransactionCreate.type req with
     | incoming => TransactionCreate.provider_id req
     | outgoing => None
     end
  /\ In resp (Db.transactions (Session.committed (session w'))).
Proof.
  destruct (create_ok_record _ _ _ _ _ _ Hok)
    as (h0 & checked0 & Hne & Hrun0 & _ & Hresp).
  destruct (create_ok_inv _ _ _ _ _ _ Hok)
    as (h & checked & Hrun & Hpos & Hlen & _ & Hlines & Hty & Hsession).
  rewrite Hrun0 in Hrun. injection Hrun as <- <-.
  destruct (normalizer_runs (objs w) (TransactionCreate.products req))
    as (h1 & out1 & Hrun1 & Hpid & _ & _ & Hinc & Hkept & _).
  rewrite Hrun0 in Hrun1. injection Hrun1 as <- <-.
  assert (Hmap : map TransactionProduct.product_id
                   (Transaction.products_transaction resp)
                 = map (pid h0) checked0).
  { rewrite Hlines. unfold products_transaction_of. rewrite map_map.
    reflexivity. }
  split; [|split; [now rewrite Hmap | split; [|split; [exact Hty|] ]]].
  - rewrite Hlines. intros E. apply map_eq_nil in E. subst checked0.
    destruct (TransactionCreate.products req) as [|l0 ls] eqn:Ep;
      [now apply Hne|].
    assert (Hin : In (pid (objs w) l0) (map (pid (objs w)) []))
      by (apply (kept_ids _ _ _ Hkept); now left).
    destruct Hin.
  - intros tp Htp. rewrite Hlines in Htp. apply in_map_iff in Htp.
    destruct Htp as (l & <- & Hl). simpl. split; [now apply Hpos|].
    apply (proj1 (found_all_iff _ (map (pid h0) checked0) Hkey
                    (increasing_NoDup _ Hinc))).
    + now rewrite length_map.
    + now apply in_map.
  - split; [now rewrite Hresp|]. split; [now rewrite Hresp|].
    rewrite Hsession. simpl. apply in_or_app. right. now left.
Qed.

Lemma created_transaction_is_well_formed_witness :
  NoDup (map Product.id (Db.products (Session.working (session stocked))))
  /\ exists resp w',
       create no_faults user1 (request outgoing None 3) stocked
       = (Ok resp, w')
       /\ Transaction.products_transaction resp =
          [{| TransactionProduct.quantity := 10;
              TransactionProduct.product_id := 1 |};
           {| TransactionProduct.quantity := 3;
              TransactionProduct.product_id := 2 |}]
       /\ Transaction.created_by resp = 1.
Proof.
  assert (Hkey : NoDup (map Product.id
                          (Db.products (Session.working (session stocked))))).
  { simpl. repeat constructor; simpl; intuition discriminate. }
  split; [exact Hkey|].
  destruct (create no_faults user1 (request outgoing None 3) stocked)
    as [[resp|e] w'] eqn:Hok; [|vm_compute in Hok; discriminate].
  exists resp, w'. split; [reflexivity|].
  destruct (created_transaction_is_well_formed no_faults user1 _ stocked
              w' resp Hkey Hok) as (_ & _ & _ & _ & Hby & _).
  split; [|exact Hby].
  vm_compute in Hok. now injection Hok as <- _.
Defined.

(** X9. A create that gets past the empty-request and provider checks
    normalizes the request's objects in place whatever happens next: also
    when it then fails, the objects are left as the normalizer made them,
    with the quantities of duplicates added into the first object of their
    product. *)
Theorem create_leaves_request_normalized (faulty : storage_op -> bool)
    (user : User.t) (req : TransactionCreate.t) (w w' : world)
    (r : result Transaction.t)
    (Hne : TransactionCreate.products req <> [])
    (Hprovider : TransactionCreate.type req = incoming ->
       _check_provider_existence (Session.working (session w))
         (TransactionCreate.provider_id req) = Ok tt)
    (Hrun : create faulty user req w = (r, w')) :
  exists checked,
    _sort_by_id_check_and_sum_duplicates (objs w)
      (TransactionCreate.products req) = Ok (objs w', checked).
Proof.
  rewrite (create_run faulty user req w Hne) in Hrun. cbv zeta in Hrun.
  destruct (normalizer_runs (objs w) (TransactionCreate.products req))
    as (h & checked & Hnorm & _).
  rewrite Hnorm in Hrun. exists checked. rewrite Hnorm.
  assert (Hobjs : objs w' = h).
  { destruct (TransactionCreate.type req);
      [rewrite (Hprovider eq_refl) in Hrun|];
      destruct (_check_if_products_payload_is_greater_than_zero h checked);
      try (injection Hrun as _ <-; reflexivity);
      destruct (_get_products_from_database _ _);
      try (injection Hrun as _ <-; reflexivity);
      try (destruct (_check_if_stock_has_enough_outgoing_quantity _ _ _);
           [|injection Hrun as _ <-; reflexivity]);
      destruct (faulty op_insert);
      try (injection Hrun as _ <-; reflexivity);
      destruct (faulty op_bulk_update);
      try (injection Hrun as _ <-; reflexivity);
      destruct (faulty op_commit); injection Hrun as _ <-; reflexivity. }
  now rewrite Hobjs.
Qed.

Lemma create_leaves_request_normalized_witness :
  exists w',
    create no_faults user1 (request_of outgoing [0%nat; 1%nat])
      restock_then_oversell
    = (Raise (NotEnoughStockQuantity (Ids [1])), w')
    /\ objs w' 0%nat = line 1 25.
Proof.
  destruct (create no_faults user1 (request_of outgoing [0%nat; 1%nat])
              restock_then_oversell) as [r w'] eqn:Hrun.
  assert (Hne : TransactionCreate.products
                  (request_of outgoing [0%nat; 1%nat]) <> [])
    by discriminate.
  assert (Hprovider :
            TransactionCreate.type (request_of outgoing [0%nat; 1%nat])
            = incoming ->
            _check_provider_existence
              (Session.working (session restock_then_oversell))
              (TransactionCreate.provider_id
                 (request_of outgoing [0%nat; 1%nat]))
            = Ok tt) by discriminate.
  destruct (create_leaves_request_normalized no_faults user1 _ _ w' r
              Hne Hprovider Hrun) as (checked & Hnorm).
  exists w'. vm_compute in Hrun. injection Hrun as <- <-.
  split; reflexivity.
Defined.

(** ** The gates on their own *)

Lemma shorter_than_repeating (l l' : list Z) :
  NoDup l -> incl l l' -> ~ NoDup l' -> (length l < length l')%nat.
Proof.
  intros Hnd Hincl Hrep.
  pose proof (NoDup_incl_length Hnd Hincl) as Hle.
  destruct (Nat.eq_dec (length l) (length l')) as [E|E]; [|lia].
  exfalso. apply Hrep.
  apply (NoDup_incl_NoDup Hnd); [lia | exact Hincl].
Qed.

(** X10. The lookup gate counts rows against requested ids, so it relies
    on the ids being distinct: given a list that repeats an id, it raises
    [ItensNotFound] even when every id names a product. *)
Theorem lookup_rejects_repeated_ids (db : Db.t) (ids : list Z)
    (Hkey : NoDup (map Product.id (Db.products db)))
    (Hrepeated : ~ NoDup ids) :
  exists left,
    _get_products_from_database db ids = Raise (ItensNotFound (Ids left)).
Proof.
  unfold _get_products_from_database.
  assert (Hlt : (length (products_by_ids db ids) < length ids)%nat).
  { rewrite <- (length_map Product.id).
    apply shorter_than_repeating; [now apply found_ids_NoDup | | assumption].
    intros i Hi. now apply found_ids_In in Hi. }
  destruct (Nat.eqb _ _) eqn:E; [apply Nat.eqb_eq in E; lia|].
  simpl. eexists. reflexivity.
Qed.

Lemma lookup_rejects_repeated_ids_witness :
  NoDup (map Product.id (Db.products (db_of four_products)))
  /\ ~ NoDup [1; 1]
  /\ _get_products_from_database (db_of four_products) [1; 1]
     = Raise (ItensNotFound (Ids [1])).
Proof.
  assert (Hkey : NoDup (map Product.id (Db.products (db_of four_products)))).
  { simpl. repeat constructor; simpl; intuition discriminate. }
  assert (Hrep : ~ NoDup [1; 1]).
  { intros H. inversion H as [|? ? Hn _]; subst. apply Hn. now left. }
  split; [exact Hkey|]. split; [exact Hrep|].
  destruct (lookup_rejects_repeated_ids (db_of four_products) [1; 1]
              Hkey Hrep) as (left & Hrun).
  rewrite Hrun. vm_compute in Hrun. now injection Hrun as <-.
Defined.

(** X11. The provider check passes exactly when no provider id is given
    or a provider has the id, and in no case does it raise
    [ProviderNotFound]. *)
Theorem provider_check_never_reports_not_found (db : Db.t)
    (provider_id : option Z) :
  (_check_provider_existence db provider_id = Ok tt <->
   match provider_id with
   | None => True
   | Some i => exists p, In p (Db.providers db) /\ Provider.id p = i
   end)
  /\ (forall a,
        _check_provider_existence db provider_id
        <> Raise (ProviderNotFound a)).
Proof.
  unfold _check_provider_existence.
  destruct provider_id as [i|]; [|split; [tauto | discriminate]].
  destruct (find (fun p => Provider.id p =? i) (Db.providers db))
    as [p|] eqn:E; simpl.
  - split; [|discriminate]. split; [|reflexivity]. intros _.
    apply find_some in E. exists p. split; [apply E|].
    apply Z.eqb_eq. apply E.
  - split; [|discriminate]. split; [discriminate|].
    intros (p & Hp & Hid). exfalso.
    pose proof (find_none _ _ E p Hp) as Hno. simpl in Hno.
    apply Z.eqb_neq in Hno. contradiction.
Qed.

Lemma less_than_zero_spec (h : heap) (payload : list loc) :
  _check_if_products_payload_is_less_than_zero h payload =
  match map (pid h) (filter (fun l => qty h l >=? 0) payload) with
  | [] => Ok (map (pid h) payload)
  | offenders => Raise (InvalidStockQuantity (Ids offenders))
  end.
Proof.
  unfold _check_if_products_payload_is_less_than_zero.
  rewrite sign_check_loop_spec. simpl. rewrite nonempty_length.
  now destruct (map (pid h) (filter (fun l => qty h l >=? 0) payload)).
Qed.

(** X12. The negative-quantity check mirrors the positive one: it raises
    [InvalidStockQuantity] with the ids of all lines whose quantity is not
    strictly negative. No payload with a line passes both checks, and a
    line of quantity 0 fails both. *)
Theorem sign_policies_exclude_each_other (h : heap) (payload : list loc)
    (Hne : payload <> []) :
  _check_if_products_payload_is_less_than_zero h payload =
    match map (pid h) (filter (fun l => qty h l >=? 0) payload) with
    | [] => Ok (map (pid h) payload)
    | offenders => Raise (InvalidStockQuantity (Ids offenders))
    end
  /\ ~ (exists a b,
         _check_if_products_payload_is_greater_than_zero h payload = Ok a
         /\ _check_if_products_payload_is_less_than_zero h payload = Ok b)
  /\ (forall l, In l payload -> qty h l = 0 ->
        (exists a,
           _check_if_products_payload_is_greater_than_zero h payload
           = Raise (InvalidStockQuantity (Ids a)) /\ In (pid h l) a)
        /\ (exists b,
              _check_if_products_payload_is_less_than_zero h payload
              = Raise (InvalidStockQuantity (Ids b)) /\ In (pid h l) b)).
Proof.
  split; [apply less_than_zero_spec|]. split.
  - intros (a & b & Ha & Hb).
    apply greater_than_zero_ok in Ha. destruct Ha as [_ Hpos].
    rewrite less_than_zero_spec in Hb.
    destruct payload as [|l ls]; [congruence|].
    specialize (Hpos l (or_introl eq_refl)).
    simpl in Hb. destruct (qty h l >=? 0) eqn:E; [discriminate|].
    rewrite Z.geb_leb in E. apply Z.leb_gt in E. lia.
  - intros l Hl Hzero. split.
    + rewrite greater_than_zero_spec.
      assert (Hin : In (pid h l)
                (map (pid h) (filter (fun l => qty h l <=? 0) payload))).
      { apply in_map, filter_In. split; [exact Hl|]. rewrite Hzero.
        reflexivity. }
      destruct (map _ _) as [|o os]; [destruct Hin|]. eauto.
    + rewrite less_than_zero_spec.
      assert (Hin : In (pid h l)
                (map (pid h) (filter (fun l => qty h l >=? 0) payload))).
      { apply in_map, filter_In. split; [exact Hl|]. rewrite Hzero.
        reflexivity. }
      destruct (map _ _) as [|o os]; [destruct Hin|]. eauto.
Qed.

Lemma sign_policies_exclude_each_other_witness :
  [0%nat; 1%nat; 2%nat; 3%nat] <> []
  /\ _check_if_products_payload_is_less_than_zero mixed_lines
       [0%nat; 1%nat; 2%nat; 3%nat]
     = Raise (InvalidStockQuantity (Ids [1; 3; 4])).
Proof.
  assert (Hne : [0%nat; 1%nat; 2%nat; 3%nat] <> []) by discriminate.
  split; [exact Hne|].
  destruct (sign_policies_exclude_each_other mixed_lines
              [0%nat; 1%nat; 2%nat; 3%nat] Hne) as (Hspec & _).
  rewrite Hspec. reflexivity.
Defined.

(** ** Retrieval by id *)

(** X13. With transaction ids a primary key, [fetch_one] returns every
    stored transaction when asked for its id, and fails with
    [ItensNotFound] ("Transaction was not found") for an id that no
    stored transaction has. *)
Theorem fetch_one_finds_exactly_the_stored (db : Db.t)
    (Hkey : NoDup (map Transaction.id (Db.transactions db))) :
  (forall t, In t (Db.transactions db) ->
     fetch_one db (Transaction.id t) = Ok t)
  /\ (forall i, ~ In i (map Transaction.id (Db.transactions db)) ->
        fetch_one db i
        = Raise (ItensNotFound (Text "Transaction was not found"))).
Proof.
  unfold fetch_one. split.
  - intros t Ht.
    destruct (find _ _) as [t'|] eqn:E.
    + apply find_some in E. destruct E as [Ht' Hid].
      apply Z.eqb_eq in Hid. f_equal.
      revert Hkey Ht Ht' Hid. generalize (Db.transactions db).
      induction l as [|a l IH]; simpl; intros Hnd Ht Ht' Hid;
        [contradiction|].
      inversion Hnd as [|? ? Ha Hl]; subst.
      destruct Ht as [->|Ht], Ht' as [->|Ht']; auto.
      * exfalso. apply Ha. rewrite <- Hid. now apply in_map.
      * exfalso. apply Ha. rewrite Hid. now apply in_map.
    + exfalso. pose proof (find_none _ _ E t Ht) as Hno. simpl in Hno.
      now rewrite Z.eqb_refl in Hno.
  - intros i Hi. destruct (find _ _) as [t|] eqn:E; [|reflexivity].
    exfalso. apply find_some in E. destruct E as [Ht Hid].
    apply Z.eqb_eq in Hid. apply Hi. rewrite <- Hid. now apply in_map.
Qed.

Lemma fetch_one_finds_exactly_the_stored_witness :
  NoDup (map Transaction.id (Db.transactions db_with_five_sales))
  /\ fetch_one db_with_five_sales 5 = Ok (sale_on 5)
  /\ fetch_one db_with_five_sales 6
     = Raise (ItensNotFound (Text "Transaction was not found")).
Proof.
  assert (Hkey : NoDup (map Transaction.id
                          (Db.transactions db_with_five_sales))).
  { simpl. repeat constructor; simpl; intuition discriminate. }
  split; [exact Hkey|].
  destruct (fetch_one_finds_exactly_the_stored db_with_five_sales Hkey)
    as (Hfound & Hmissing).
  split.
  - apply (Hfound (sale_on 5)). simpl. auto.
  - apply Hmissing. simpl. intuition discriminate.
Defined.

(** ** The query engine: filters *)

(** The query the builder returns: not ordered, not limited, and with the
    given filters as its WHERE clause. *)
Lemma builder_query {L : Lowering} (db : Db.t)
    (product_name provider_name description : string)
    (transaction_type : option TransactionTypeEnum)
    (start_date finish_date : pyarg) (query : Query.t) :
  _make_transaction_query_with_filters db product_name provider_name
    description transaction_type start_date finish_date = Ok query ->
  Query.order_by_id query = false
  /\ Query.limit query = None
  /\ Query.offset query = None
  /\ forall r,
       Query.where_ query r =
       (match start_date, finish_date with
        | PyDate s, PyDate f =>
            (Transaction.date r >=? s) && (Transaction.date r <=? f)
        | PyDate s, PyStr EmptyString => Transaction.date r >=? s
        | PyStr EmptyString, PyDate f => Transaction.date r <=? f
        | _, _ => true
        end)
       && (if nonempty provider_name
           then match joined_provider_name db r with
                | Some n => contains (sql_lower n) (py_lower provider_name)
                | None => false
                end
           else true)
       && (if nonempty description
           then contains (sql_lower (Transaction.description r))
                  (py_lower description)
           else true)
       && (match transaction_type with
           | Some ty => TransactionTypeEnum_eqb (Transaction.type r) ty
           | None => true
           end)
       && (if nonempty product_name
           then mem (Transaction.id r)
                  (transaction_ids_by_product_name db product_name)
           else true).
Proof.
  unfold _make_transaction_query_with_filters. intros H.
  destruct start_date as [|[|c0 s0]|s], finish_date as [|[|c1 s1]|f];
    simpl in H;
    try (destruct (s >? f); [discriminate|]; simpl in H);
    injection H as <-;
    destruct (nonempty product_name), transaction_type,
      (nonempty description), (nonempty provider_name);
    (repeat split; intros r; simpl;
     rewrite ?andb_true_r, ?andb_true_l; reflexivity).
Qed.

Lemma nonempty_iff (s : string) : nonempty s = true <-> s <> EmptyString.
Proof. destruct s; simpl; split; congruence. Qed.

Lemma guarded_filter (s : string) (b : bool) (P : Prop) :
  (b = true <-> P) ->
  ((if nonempty s then b else true) = true <-> (s <> EmptyString -> P)).
Proof.
  intros Hb. destruct s; simpl.
  - split; [intros _ H; congruence | reflexivity].
  - rewrite Hb. split; [auto | intros H; apply H; discriminate].
Qed.

Lemma TransactionTypeEnum_eqb_eq (a b : TransactionTypeEnum) :
  TransactionTypeEnum_eqb a b = true <-> a = b.
Proof. destruct a, b; simpl; split; congruence. Qed.

Lemma joined_provider_matches {L : Lowering} (db : Db.t) (r : Transaction.t)
    (needle : string) :
  match joined_provider_name db r with
  | Some n => contains (sql_lower n) (py_lower needle)
  | None => false
  end = true <->
  exists i p,
    Transaction.provider_id r = Some i
    /\ find (fun p => Provider.id p =? i) (Db.providers db) = Some p
    /\ contains (sql_lower (Provider.name p)) (py_lower needle) = true.
Proof.
  unfold joined_provider_name.
  destruct (Transaction.provider_id r) as [i|].
  - destruct (find _ _) as [p|] eqn:Ef; simpl.
    + split; [intros H; now exists i, p|].
      intros (i' & p' & [= <-] & Hp & H). rewrite Ef in Hp.
      injection Hp as <-. exact H.
    + split; [discriminate|]. intros (i' & p' & [= <-] & Hp & _).
      rewrite Ef in Hp. discriminate.
  - split; [discriminate|]. intros (i' & p' & Hi & _). discriminate.
Qed.

(** The transactions the product-name subquery selects: those with a line
    whose product has the name. *)
Lemma product_name_matches {L : Lowering}
    (db : Db.t) (needle : string) (i : Z) :
  In i (transaction_ids_by_product_name db needle) <->
  exists t tp p,
    In t (Db.transactions db) /\ Transaction.id t = i
    /\ In tp (Transaction.products_transaction t)
    /\ find (fun p => Product.id p =? TransactionProduct.product_id tp)
         (Db.products db) = Some p
    /\ contains (sql_lower (Product.name p)) (py_lower needle) = true.
Proof.
  unfold transaction_ids_by_product_name. rewrite in_flat_map. split.
  - intros (t & Ht & Hi). apply in_flat_map in Hi.
    destruct Hi as (tp & Htp & Hi).
    destruct (find _ _) as [p|] eqn:Ef; [|destruct Hi].
    destruct (contains _ _) eqn:Ec; [|destruct Hi].
    destruct Hi as [<-|[]]. now exists t, tp, p.
  - intros (t & tp & p & Ht & <- & Htp & Ef & Ec).
    exists t. split; [exact Ht|]. apply in_flat_map. exists tp.
    split; [exact Htp|]. rewrite Ef, Ec. now left.
Qed.

(** X14. What [fetch_all] returns, when it returns: a list that is not
    empty, in non-decreasing order of transaction id, holding exactly the
    stored transactions that pass every filter given - the date range (for
    two dates, or one date with the empty string for the other), the
    provider whose name contains the text, the description that contains
    the text, the type, and a line whose product's name contains the text.
    A text filter compares the stored text as the database lowercases it
    with the text searched for as Python lowercases it; the statement
    holds whatever these two lowercasings are. *)
Theorem fetch_all_returns_the_matching_rows {L : Lowering} (db : Db.t)
    (product_name provider_name description : string)
    (transaction_type : option TransactionTypeEnum)
    (start_date finish_date : pyarg) (rows : list Transaction.t)
    (Hok : fetch_all db product_name provider_name description
             transaction_type start_date finish_date = Ok rows) :
  rows <> []
  /\ StronglySorted Z.le (map Transaction.id rows)
  /\ forall r,
       In r rows <->
       In r (Db.transactions db)
       /\ match start_date, finish_date with
          | PyDate s, PyDate f => s <= Transaction.date r <= f
          | PyDate s, PyStr EmptyString => s <= Transaction.date r
          | PyStr EmptyString, PyDate f => Transaction.date r <= f
          | _, _ => True
          end
       /\ (provider_name <> EmptyString ->
           exists i p,
             Transaction.provider_id r = Some i
             /\ find (fun p => Provider.id p =? i) (Db.providers db) = Some p
             /\ contains (sql_lower (Provider.name p)) (py_lower provider_name)
                = true)
       /\ (description <> EmptyString ->
           contains (sql_lower (Transaction.description r))
             (py_lower description)
           = true)
       /\ (forall ty, transaction_type = Some ty -> Transaction.type r = ty)
       /\ (product_name <> EmptyString ->
           exists t tp p,
             In t (Db.transactions db)
             /\ Transaction.id t = Transaction.id r
             /\ In tp (Transaction.products_transaction t)
             /\ find (fun p =>
                        Product.id p =? TransactionProduct.product_id tp)
                  (Db.products db) = Some p
             /\ contains (sql_lower (Product.name p)) (py_lower product_name)
                = true).
Proof.
  unfold fetch_all in Hok.
  destruct (_make_transaction_query_with_filters _ _ _ _ _ _ _)
    as [query|] eqn:Hq; [|discriminate].
  simpl in Hok.
  destruct (builder_query _ _ _ _ _ _ _ _ Hq) as (_ & Hlimit & Hoffset & Hw).
  assert (Hall : Query.all db (Query.order_by query) =
                 sorted Transaction.id
                   (filter (Query.where_ query) (Db.transactions db))).
  { unfold Query.all. simpl. now rewrite Hlimit, Hoffset. }
  rewrite Hall in Hok.
  destruct (sorted _ _) as [|r0 rs] eqn:Es; [discriminate|].
  simpl in Hok. injection Hok as <-. rewrite <- Es.
  split; [rewrite Es; discriminate|]. split; [apply sorted_ascending|].
  intros r. split.
  - intros Hr.
    apply (Permutation_in _ (sorted_perm Transaction.id _)) in Hr.
    apply filter_In in Hr. destruct Hr as [Hr Hwr]. split; [exact Hr|].
    rewrite Hw in Hwr.
    apply andb_true_iff in Hwr. destruct Hwr as [Hwr Hprod].
    apply andb_true_iff in Hwr. destruct Hwr as [Hwr Hty].
    apply andb_true_iff in Hwr. destruct Hwr as [Hwr Hdesc].
    apply andb_true_iff in Hwr. destruct Hwr as [Hwr Hprov].
    repeat split.
    + destruct start_date as [|[|]|s], finish_date as [|[|]|f];
        try exact I; try (rewrite Z.geb_leb in Hwr; now apply Z.leb_le);
        try (now apply Z.leb_le).
      apply andb_true_iff in Hwr. destruct Hwr as [H1 H2].
      rewrite Z.geb_leb in H1. apply Z.leb_le in H1, H2. lia.
    + revert Hprov. apply (guarded_filter provider_name _ _
               (joined_provider_matches db r provider_name)).
    + revert Hdesc. apply (guarded_filter description _ _ (iff_refl _)).
    + intros ty ->. now apply TransactionTypeEnum_eqb_eq.
    + revert Hprod. apply (guarded_filter product_name _ _
               (iff_trans (mem_In _ _)
                  (product_name_matches db product_name _))).
  - intros (Hr & Hdate & Hprov & Hdesc & Hty & Hprod).
    apply (Permutation_in _ (Permutation_sym (sorted_perm Transaction.id _))).
    apply filter_In. split; [exact Hr|]. rewrite Hw.
    apply andb_true_iff; split; [|
      now apply (guarded_filter product_name _ _
                   (iff_trans (mem_In _ _)
                      (product_name_matches db product_name _)))].
    apply andb_true_iff; split; [|
      destruct transaction_type as [ty|]; [|reflexivity];
      apply TransactionTypeEnum_eqb_eq; now apply Hty].
    apply andb_true_iff; split; [|
      now apply (guarded_filter description _ _ (iff_refl _))].
    apply andb_true_iff; split; [|
      now apply (guarded_filter provider_name _ _
                   (joined_provider_matches db r provider_name))].
    destruct start_date as [|[|]|s], finish_date as [|[|]|f];
        try reflexivity;
        try (rewrite Z.geb_leb; now apply Z.leb_le);
        try (now apply Z.leb_le).
    apply andb_true_iff. rewrite Z.geb_leb. split; apply Z.leb_le; lia.
Qed.

Lemma fetch_all_returns_the_matching_rows_witness :
  exists rows,
    fetch_all db_with_five_sales "CAMISA" "" "" (Some outgoing)
      (PyDate 737792) (PyDate 737794) = Ok rows
    /\ map Transaction.id rows = [2; 3; 4]
    /\ ~ In (sale_on 5) rows.
Proof.
  destruct (fetch_all db_with_five_sales "CAMISA" "" "" (Some outgoing)
              (PyDate 737792) (PyDate 737794)) as [rows|e] eqn:Hok;
    [|vm_compute in Hok; discriminate].
  exists rows. split; [reflexivity|].
  destruct (fetch_all_returns_the_matching_rows _ _ _ _ _ _ _ rows Hok)
    as (_ & _ & Hrows).
  split.
  - vm_compute in Hok. now injection Hok as <-.
  - intros Hin. apply Hrows in Hin. destruct Hin as (_ & Hdate & _).
    simpl in Hdate. lia.
Defined.

(** ** The query engine: pagination *)

Lemma ceil_div_zero (b : Z) : 1 <= b -> ceil_div 0 b = 0.
Proof. intros H. unfold ceil_div. apply Z.div_small. lia. Qed.

Lemma ceil_div_one (t b : Z) : 0 < t <= b -> ceil_div t b = 1.
Proof.
  intros H. unfold ceil_div. symmetry.
  apply (Z.div_unique_pos _ _ 1 (t - 1)); lia.
Qed.

Lemma ceil_div_pos (t b : Z) : 0 < t -> 1 <= b -> 1 <= ceil_div t b.
Proof.
  intros Ht Hb. unfold ceil_div. apply Z.div_le_lower_bound; lia.
Qed.

(** A page within the number of pages starts before the end of the rows. *)
Lemma page_starts_inside (t b page : Z) :
  1 <= b -> 1 <= page <= ceil_div t b -> (page - 1) * b < t.
Proof.
  intros Hb [H1 H2]. unfold ceil_div in H2.
  pose proof (Z.mul_div_le (t + b - 1) b ltac:(lia)) as Hle.
  nia.
Qed.

(** The paginated retrieval, for arguments that pass its first two checks
    and filters that build a query: the page is a slice of the rows
    [fetch_all] orders, and the number of pages is their number divided by
    the page size, rounded up. *)
Lemma paginated_run {L : Lowering} (db : Db.t) (page per_page : Z)
    (product_name provider_name description : string)
    (transaction_type : option TransactionTypeEnum)
    (start_date finish_date : pyarg) (query : Query.t) :
  1 <= page -> 1 <= per_page ->
  _make_transaction_query_with_filters db product_name provider_name
    description transaction_type start_date finish_date = Ok query ->
  let rows := sorted Transaction.id
                (filter (Query.where_ query) (Db.transactions db)) in
  let total := Z.of_nat (length rows) in
  let pages := ceil_div total per_page in
  fetch_all_with_pagination db page per_page product_name provider_name
    description transaction_type start_date finish_date =
  if (page >? pages) && (pages >? 0)
  then Raise (InvalidPage
                (Fmt "Page number invalid, the total of pages is {}: {}"
                   [pages; page]))
  else
    match firstn (Z.to_nat per_page)
            (skipn (Z.to_nat ((page - 1) * per_page)) rows) with
    | [] => Raise (ItensNotFound (Text "No transactions found"))
    | records =>
        Ok {| TransactionsResponse.pagination_metadata :=
                {| PaginationMetadata.current_page := page;
                   PaginationMetadata.total_pages := pages;
                   PaginationMetadata.per_page := per_page;
                   PaginationMetadata.total_items := total;
                   PaginationMetadata.url_args :=
                     (product_name, provider_name, description,
                      transaction_type, start_date, finish_date) |};
              TransactionsResponse.records := records |}
    end.
Proof.
  intros Hpage Hper Hq rows total pages.
  destruct (builder_query _ _ _ _ _ _ _ _ Hq) as (_ & Hlimit & Hoffset & _).
  unfold fetch_all_with_pagination.
  destruct (page <=? 0) eqn:E1; [apply Z.leb_le in E1; lia|].
  destruct (per_page <=? 0) eqn:E2; [apply Z.leb_le in E2; lia|].
  rewrite Hq. simpl rbind. unfold apply_pagination.
  assert (Hcount : Query.count db (Query.order_by query) = total).
  { unfold Query.count, total, rows. simpl. f_equal.
    apply Permutation_length. symmetry. apply sorted_perm. }
  rewrite Hcount.
  destruct (per_page <? 0) eqn:E3; [apply Z.ltb_lt in E3; lia|].
  destruct (page <? 1) eqn:E4; [apply Z.ltb_lt in E4; lia|].
  assert (Htotal : 0 <= total) by (unfold total; lia).
  set (page_size := if (per_page >? total) && (total >? 0)
                    then total else per_page).
  assert (Hsize : 1 <= page_size).
  { unfold page_size. destruct (per_page >? total) eqn:Ea; simpl; [|lia].
    destruct (total >? 0) eqn:Eb; [apply Z.gtb_gt in Eb; lia | lia]. }
  destruct (page_size =? 0) eqn:E5; [apply Z.eqb_eq in E5; lia|].
  simpl rbind. cbv iota beta. simpl Pagination.num_pages.
  simpl Pagination.total_results.
  assert (Hpages : ceil_div total page_size = pages).
  { unfold page_size, pages.
    destruct (per_page >? total) eqn:Ea; simpl; [|reflexivity].
    destruct (total >? 0) eqn:Eb; [|reflexivity].
    apply Z.gtb_gt in Ea, Eb.
    rewrite !ceil_div_one by lia. reflexivity. }
  rewrite Hpages.
  destruct ((page >? pages) && (pages >? 0)) eqn:Ebeyond; [reflexivity|].
  assert (Hslice :
    Query.all db
      (Query.set_offset (Query.set_limit (Query.order_by query) per_page)
         ((page - 1) * page_size)) =
    firstn (Z.to_nat per_page)
      (skipn (Z.to_nat ((page - 1) * per_page)) rows)).
  { unfold Query.all. simpl. fold rows. f_equal.
    destruct (Z.eq_dec total 0) as [E0|E0].
    - assert (Hnil : rows = []) by (apply length_zero_nil; exact E0).
      rewrite Hnil. now rewrite !skipn_nil.
    - unfold page_size.
      destruct (per_page >? total) eqn:Ea; simpl; [|reflexivity].
      destruct (total >? 0) eqn:Eb; [|reflexivity].
      apply Z.gtb_gt in Ea, Eb.
      assert (Hone : pages = 1) by (unfold pages; apply ceil_div_one; lia).
      rewrite Hone in Ebeyond.
      destruct (page >? 1) eqn:Ep; [discriminate|].
      rewrite Z.gtb_ltb in Ep. apply Z.ltb_ge in Ep.
      replace page with 1 by lia. reflexivity. }
  rewrite Hslice.
  destruct (firstn _ _) as [|r0 rs]; reflexivity.
Qed.

(** X15. The page arguments are checked before anything else: a page
    number below 1 gives [InvalidPage], and otherwise a page size below 1
    gives [InvalidPageItemsNumber], whatever the database holds and
    whatever the filters are, an inverted date range included. *)
Theorem pagination_arguments_are_checked_first {L : Lowering} (db : Db.t)
    (page per_page : Z)
    (product_name provider_name description : string)
    (transaction_type : option TransactionTypeEnum)
    (start_date finish_date : pyarg)
    (Hbad : page <= 0 \/ per_page <= 0) :
  fetch_all_with_pagination db page per_page product_name provider_name
    description transaction_type start_date finish_date =
  if page <=? 0
  then Raise (InvalidPage
         (Fmt "Page number should be positive and greater than zero: {}"
            [page]))
  else Raise (InvalidPageItemsNumber
         (Text "Numbers of items per page must be greater than zero")).
Proof.
  unfold fetch_all_with_pagination.
  destruct (page <=? 0) eqn:E1; [reflexivity|].
  destruct (per_page <=? 0) eqn:E2; [reflexivity|].
  apply Z.leb_gt in E1, E2. lia.
Qed.

Lemma pagination_arguments_are_checked_first_witness :
  (0 <= 0 \/ 0 <= 0)
  /\ fetch_all_with_pagination db_with_five_sales 0 0 "" "" "" None
       (PyDate 9) (PyDate 1)
     = Raise (InvalidPage
         (Fmt "Page number should be positive and greater than zero: {}"
            [0]))
  /\ fetch_all_with_pagination db_with_five_sales 1 0 "" "" "" None
       (PyDate 9) (PyDate 1)
     = Raise (InvalidPageItemsNumber
         (Text "Numbers of items per page must be greater than zero")).
Proof.
  assert (H0 : 0 <= 0 \/ 0 <= 0) by (left; lia).
  assert (H1 : 1 <= 0 \/ 0 <= 0) by (right; lia).
  split; [exact H0|]. split.
  - exact (pagination_arguments_are_checked_first db_with_five_sales 0 0
             "" "" "" None (PyDate 9) (PyDate 1) H0).
  - exact (pagination_arguments_are_checked_first db_with_five_sales 1 0
             "" "" "" None (PyDate 9) (PyDate 1) H1).
Defined.

Lemma fetch_all_rows {L : Lowering} (db : Db.t)
    (product_name provider_name description : string)
    (transaction_type : option TransactionTypeEnum)
    (start_date finish_date : pyarg) (query : Query.t) :
  _make_transaction_query_with_filters db product_name provider_name
    description transaction_type start_date finish_date = Ok query ->
  fetch_all db product_name provider_name description transaction_type
    start_date finish_date =
  match sorted Transaction.id
          (filter (Query.where_ query) (Db.transactions db)) with
  | [] => Raise (ItensNotFound (Text "No transactions found"))
  | rows => Ok rows
  end.
Proof.
  intros Hq.
  destruct (builder_query _ _ _ _ _ _ _ _ Hq) as (_ & Hlimit & Hoffset & _).
  unfold fetch_all. rewrite Hq. simpl rbind.
  unfold Query.all. simpl. rewrite Hlimit, Hoffset.
  now destruct (sorted _ _).
Qed.

(** X16. When [fetch_all] returns rows, the paginated retrieval with the
    same filters, a page size of at least 1 and a page of at least 1
    returns, for every page up to the number of rows divided by the page
    size and rounded up, the rows of that page - those after the
    [(page - 1) * per_page] first ones, at most [per_page] of them and at
    least one - with the number of pages and of rows in its metadata; for
    a page beyond, it fails with [InvalidPage]. *)
Theorem paginated_pages_slice_fetch_all {L : Lowering}
    (db : Db.t) (page per_page : Z)
    (product_name provider_name description : string)
    (transaction_type : option TransactionTypeEnum)
    (start_date finish_date : pyarg) (rows : list Transaction.t)
    (Hpage : 1 <= page) (Hper_page : 1 <= per_page)
    (Hrows : fetch_all db product_name provider_name description
               transaction_type start_date finish_date = Ok rows) :
  let total := Z.of_nat (length rows) in
  let pages := ceil_div total per_page in
  let records := firstn (Z.to_nat per_page)
                   (skipn (Z.to_nat ((page - 1) * per_page)) rows) in
  1 <= pages
  /\ (page <= pages ->
      records <> []
      /\ fetch_all_with_pagination db page per_page product_name
           provider_name description transaction_type start_date
           finish_date =
         Ok {| TransactionsResponse.pagination_metadata :=
                 {| PaginationMetadata.current_page := page;
                    PaginationMetadata.total_pages := pages;
                    PaginationMetadata.per_page := per_page;
                    PaginationMetadata.total_items := total;
                    PaginationMetadata.url_args :=
                      (product_name, provider_name, description,
                       transaction_type, start_date, finish_date) |};
               TransactionsResponse.records := records |})
  /\ (pages < page ->
      fetch_all_with_pagination db page per_page product_name
        provider_name description transaction_type start_date finish_date =
      Raise (InvalidPage
               (Fmt "Page number invalid, the total of pages is {}: {}"
                  [pages; page]))).
Proof.
  intros total pages records.
  destruct (_make_transaction_query_with_filters db product_name
              provider_name description transaction_type start_date
              finish_date) as [query|e] eqn:Hq.
  2:{ unfold fetch_all in Hrows. rewrite Hq in Hrows. discriminate. }
  rewrite (fetch_all_rows _ _ _ _ _ _ _ _ Hq) in Hrows.
  rewrite (paginated_run _ _ _ _ _ _ _ _ _ _ Hpage Hper_page Hq).
  cbv zeta.
  destruct (sorted _ _) as [|r0 rs] eqn:Es; [discriminate|].
  injection Hrows as <-. fold total pages records.
  assert (Htotal : 0 < total) by (unfold total; simpl; lia).
  assert (Hpages : 1 <= pages) by now apply ceil_div_pos.
  split; [exact Hpages|]. split.
  - intros Hle.
    assert (Hin : (page - 1) * per_page < total)
      by (apply page_starts_inside; lia).
    assert (Hne : records <> []).
    { unfold records. intros E.
      assert (Hlen : length (firstn (Z.to_nat per_page)
                       (skipn (Z.to_nat ((page - 1) * per_page))
                          (r0 :: rs))) = 0%nat) by now rewrite E.
      rewrite length_firstn, length_skipn in Hlen.
      unfold total in Hin. nia. }
    split; [exact Hne|].
    replace ((page >? pages) && (pages >? 0)) with false.
    + destruct records; [congruence | reflexivity].
    + symmetry. apply andb_false_iff. left.
      rewrite Z.gtb_ltb. apply Z.ltb_ge. exact Hle.
  - intros Hgt.
    replace ((page >? pages) && (pages >? 0)) with true; [reflexivity|].
    symmetry. apply andb_true_iff. split; apply Z.gtb_gt; lia.
Qed.

Lemma paginated_pages_slice_fetch_all_witness :
  1 <= 2 /\ 1 <= 2
  /\ fetch_all db_with_five_sales "" "" "" None PyNone PyNone
     = Ok [sale_on 1; sale_on 2; sale_on 3; sale_on 4; sale_on 5]
  /\ match fetch_all_with_pagination db_with_five_sales 2 2 "" "" "" None
             PyNone PyNone with
     | Ok resp => TransactionsResponse.records resp
     | Raise _ => []
     end = [sale_on 3; sale_on 4].
Proof.
  assert (H2 : 1 <= 2) by lia.
  assert (Hrows : fetch_all db_with_five_sales "" "" "" None PyNone PyNone
                  = Ok [sale_on 1; sale_on 2; sale_on 3; sale_on 4;
                        sale_on 5]) by reflexivity.
  split; [exact H2|]. split; [exact H2|]. split; [exact Hrows|].
  destruct (paginated_pages_slice_fetch_all db_with_five_sales 2 2
              "" "" "" None PyNone PyNone _ H2 H2 Hrows)
    as (_ & Hpage & _).
  destruct Hpage as [_ Hrun]; [vm_compute; discriminate|].
  rewrite Hrun. reflexivity.
Defined.

(** X17. For a page and a page size of at least 1, the paginated retrieval
    fails whenever [fetch_all] fails with the same filters, and with the
    same exception: [InvalidRangeTime] for an inverted date range,
    [ItensNotFound] when no transaction passes the filters. *)
Theorem paginated_fails_like_fetch_all {L : Lowering}
    (db : Db.t) (page per_page : Z)
    (product_name provider_name description : string)
    (transaction_type : option TransactionTypeEnum)
    (start_date finish_date : pyarg) (e : exn)
    (Hpage : 1 <= page) (Hper_page : 1 <= per_page)
    (Hfail : fetch_all db product_name provider_name description
               transaction_type start_date finish_date = Raise e) :
  fetch_all_with_pagination db page per_page product_name provider_name
    description transaction_type start_date finish_date = Raise e.
Proof.
  destruct (_make_transaction_query_with_filters db product_name
              provider_name description transaction_type start_date
              finish_date) as [query|e'] eqn:Hq.
  - rewrite (fetch_all_rows _ _ _ _ _ _ _ _ Hq) in Hfail.
    rewrite (paginated_run _ _ _ _ _ _ _ _ _ _ Hpage Hper_page Hq).
    cbv zeta.
    destruct (sorted _ _) as [|r0 rs]; [|discriminate].
    injection Hfail as <-. simpl length.
    rewrite ceil_div_zero by exact Hper_page.
    replace ((page >? 0) && (0 >? 0)) with false
      by (now rewrite andb_false_r).
    now rewrite skipn_nil, firstn_nil.
  - unfold fetch_all in Hfail. rewrite Hq in Hfail. simpl in Hfail.
    injection Hfail as <-.
    unfold fetch_all_with_pagination.
    destruct (page <=? 0) eqn:E1; [apply Z.leb_le in E1; lia|].
    destruct (per_page <=? 0) eqn:E2; [apply Z.leb_le in E2; lia|].
    now rewrite Hq.
Qed.

Lemma paginated_fails_like_fetch_all_witness :
  1 <= 1 /\ 1 <= 20
  /\ fetch_all db_with_five_sales "" "" "" (Some incoming) PyNone PyNone
     = Raise (ItensNotFound (Text "No transactions found"))
  /\ fetch_all_with_pagination db_with_five_sales 1 20 "" "" ""
       (Some incoming) PyNone PyNone
     = Raise (ItensNotFound (Text "No transactions found")).
Proof.
  assert (H1 : 1 <= 1) by lia. assert (H20 : 1 <= 20) by lia.
  assert (Hfail : fetch_all db_with_five_sales "" "" "" (Some incoming)
                    PyNone PyNone
                  = Raise (ItensNotFound (Text "No transactions found")))
    by reflexivity.
  split; [exact H1|]. split; [exact H20|]. split; [exact Hfail|].
  exact (paginated_fails_like_fetch_all db_with_five_sales 1 20 "" "" ""
           (Some incoming) PyNone PyNone _ H1 H20 Hfail).
Defined.

(** A start date after the finish date is refused with
    [InvalidRangeTime] by both retrievals whatever the database holds and
    whatever the other filters are: the refusal does not depend on
    storage. *)
Theorem inverted_range_is_refused {L : Lowering} (db : Db.t) (page per_page : Z)
    (product_name provider_name description : string)
    (transaction_type : option TransactionTypeEnum) (s f : Z)
    (Hinverted : s > f) (Hpage : 1 <= page) (Hper_page : 1 <= per_page) :
  fetch_all db product_name provider_name description transaction_type
    (PyDate s) (PyDate f)
  = Raise (InvalidRangeTime (Text "Invalid datetime range"))
  /\ fetch_all_with_pagination db page per_page product_name provider_name
       description transaction_type (PyDate s) (PyDate f)
     = Raise (InvalidRangeTime (Text "Invalid datetime range")).
Proof.
  assert (Hfail : fetch_all db product_name provider_name description
                    transaction_type (PyDate s) (PyDate f)
                  = Raise (InvalidRangeTime (Text "Invalid datetime range"))).
  { unfold fetch_all. now rewrite inverted_range_raises. }
  split; [exact Hfail|].
  unfold fetch_all_with_pagination.
  destruct (page <=? 0) eqn:E1; [apply Z.leb_le in E1; lia|].
  destruct (per_page <=? 0) eqn:E2; [apply Z.leb_le in E2; lia|].
  now rewrite inverted_range_raises.
Qed.

Lemma inverted_range_is_refused_witness :
  737792 > 737791 /\ 1 <= 1 /\ 1 <= 20
  /\ fetch_all db_with_five_sales "" "" "" None
       (PyDate 737792) (PyDate 737791)
     = Raise (InvalidRangeTime (Text "Invalid datetime range")).
Proof.
  assert (Hinv : 737792 > 737791) by lia.
  assert (H1 : 1 <= 1) by lia. assert (H20 : 1 <= 20) by lia.
  split; [exact Hinv|]. split; [exact H1|]. split; [exact H20|].
  exact (proj1 (inverted_range_is_refused db_with_five_sales 1 20
                  "" "" "" None 737792 737791 Hinv H1 H20)).
Defined.

(** ** Requests that are accepted *)

(** X18. A create is accepted whenever its request is valid and the
    storage does not fail: a request with at least one line, of distinct
    line objects, a provider that exists when it is incoming and names
    one, a strictly positive total for every product, every product in the
    table and, when it is outgoing, no total above the product's
    inventory. The inventories are then the prior ones plus (incoming) or
    minus (outgoing) the totals. *)
Theorem valid_create_is_accepted (faulty : storage_op -> bool)
    (user : User.t) (req : TransactionCreate.t) (w : world)
    (Hne : TransactionCreate.products req <> [])
    (Hdistinct : NoDup (TransactionCreate.products req))
    (Hkey : NoDup (map Product.id (Db.products (Session.working (session w)))))
    (Hprovider : TransactionCreate.type req = incoming ->
       _check_provider_existence (Session.working (session w))
         (TransactionCreate.provider_id req) = Ok tt)
    (Hpos : forall l, In l (TransactionCreate.products req) ->
       0 < requested (pid (objs w) l)
             (view (objs w) (TransactionCreate.products req)))
    (Hexist : forall l, In l (TransactionCreate.products req) ->
       In (pid (objs w) l)
          (map Product.id (Db.products (Session.working (session w)))))
    (Hstock : TransactionCreate.type req = outgoing ->
       forall l p, In l (TransactionCreate.products req) ->
         In p (Db.products (Session.working (session w))) ->
         Product.id p = pid (objs w) l ->
         requested (pid (objs w) l)
           (view (objs w) (TransactionCreate.products req))
         <= Product.inventory p)
    (Hstorage : forall op, faulty op = false) :
  exists resp w',
    create faulty user req w = (Ok resp, w')
    /\ Db.products (Session.committed (session w')) =
       map (fun r => Product.set_inventory r
              ((match TransactionCreate.type req with
                | incoming => Z.add
                | outgoing => Z.sub
                end) (Product.inventory r)
                 (requested (Product.id r)
                    (view (objs w) (TransactionCreate.products req)))))
         (Db.products (Session.working (session w))).
Proof.
  set (db := Session.working (session w)) in *.
  set (items := view (objs w) (TransactionCreate.products req)) in *.
  destruct (normalizer_runs (objs w) (TransactionCreate.products req))
    as (h & checked & Hrun & _).
  destruct (normalized_quantities _ _ _ _ Hdistinct Hrun)
    as (Hinc & Hids & Hq).
  fold items in Hq.
  pose proof (positive_totals_pass _ _ _ _ Hdistinct Hrun Hpos) as Hcheck.
  assert (Hdist : NoDup (map (pid h) checked)) by now apply increasing_NoDup.
  set (found := products_by_ids db (map (pid h) checked)).
  assert (Hlen : length found = length (map (pid h) checked)).
  { apply found_all_iff; try assumption.
    intros i Hi. apply Hids in Hi. apply in_map_iff in Hi.
    destruct Hi as (l & <- & Hl). now apply Hexist. }
  assert (Hpair : map Product.id found = map (pid h) checked)
    by now apply found_ids_eq.
  assert (Hget : _get_products_from_database db (map (pid h) checked)
                 = Ok found) by now apply lookup_ok.
  assert (Henough : TransactionCreate.type req = outgoing ->
            _check_if_stock_has_enough_outgoing_quantity h found checked
            = Ok tt).
  { intros Hty. apply enough_stock_ok. intros p l Hpl.
    destruct (paired_ids h found checked Hpair p l Hpl) as (Hp & Hl & Hid).
    rewrite (Hq l Hl), Hid. apply found_In in Hp.
    assert (Hin : In (Product.id p) (map (pid (objs w))
                                       (TransactionCreate.products req))).
    { apply Hids. rewrite <- Hid. now apply in_map. }
    apply in_map_iff in Hin. destruct Hin as (l0 & Hl0id & Hl0).
    rewrite <- Hl0id. apply (Hstock Hty l0 p Hl0 (proj1 Hp)).
    now rewrite Hl0id. }
  destruct (create faulty user req w) as [[resp|e] w'] eqn:Hok.
  - exists resp, w'. split; [reflexivity|].
    exact (proj1 (create_effect _ _ _ _ _ _ Hkey Hdistinct Hok)).
  - exfalso. rewrite (create_run faulty user req w Hne) in Hok.
    cbv zeta in Hok. fold db in Hok. rewrite Hrun, Hcheck, Hget in Hok.
    fold found in Hok. rewrite !Hstorage in Hok.
    destruct (TransactionCreate.type req) eqn:Ety.
    + rewrite (Hprovider eq_refl) in Hok. discriminate.
    + rewrite (Henough eq_refl) in Hok. discriminate.
Qed.

Lemma valid_create_is_accepted_witness :
  exists resp w',
    create no_faults user1 (request incoming None 3) stocked
    = (Ok resp, w')
    /\ Db.products (Session.committed (session w')) =
       [product 2 "b" 10; product 1 "a" 20; product 3 "c" 1].
Proof.
  assert (Hne : TransactionCreate.products (request incoming None 3) <> [])
    by discriminate.
  assert (Hdistinct : NoDup (TransactionCreate.products
                               (request incoming None 3))).
  { simpl. repeat constructor; simpl; intuition discriminate. }
  assert (Hkey : NoDup (map Product.id
                          (Db.products (Session.working (session stocked))))).
  { simpl. repeat constructor; simpl; intuition discriminate. }
  assert (Hprovider :
            TransactionCreate.type (request incoming None 3) = incoming ->
            _check_provider_existence (Session.working (session stocked))
              (TransactionCreate.provider_id (request incoming None 3))
            = Ok tt) by reflexivity.
  assert (Hpos : forall l,
            In l (TransactionCreate.products (request incoming None 3)) ->
            0 < requested (pid (objs stocked) l)
                  (view (objs stocked)
                     (TransactionCreate.products
                        (request incoming None 3)))).
  { intros l [<-|[<-|[<-|[]]]]; simpl; lia. }
  assert (Hexist : forall l,
            In l (TransactionCreate.products (request incoming None 3)) ->
            In (pid (objs stocked) l)
               (map Product.id
                  (Db.products (Session.working (session stocked))))).
  { intros l [<-|[<-|[<-|[]]]]; simpl; auto. }
  assert (Hstock :
            TransactionCreate.type (request incoming None 3) = outgoing ->
            forall l p,
              In l (TransactionCreate.products (request incoming None 3)) ->
              In p (Db.products (Session.working (session stocked))) ->
              Product.id p = pid (objs stocked) l ->
              requested (pid (objs stocked) l)
                (view (objs stocked)
                   (TransactionCreate.products (request incoming None 3)))
              <= Product.inventory p) by discriminate.
  destruct (valid_create_is_accepted no_faults user1
              (request incoming None 3) stocked Hne Hdistinct Hkey
              Hprovider Hpos Hexist Hstock (fun _ => eq_refl))
    as (resp & w' & Hok & Hafter).
  exists resp, w'. split; [exact Hok|]. rewrite Hafter. reflexivity.
Defined.
